(** * A shallow embedding of the finance tracker's data layer

    The development follows [db_service.py] (the ORM-backed data access
    functions) and the rule-based fallback of
    [FinanceAgent.predict_transactions] in [finance_agent.py].

    Python values that reach the data layer through a payload dictionary
    are dynamically typed; they are modelled by [pyval].  Python floats are
    modelled as exact rationals, and the properties stated on them equate
    sums and quotients taken in the order the code takes them.  Where a
    property turns on the rounding of the machine's numbers, the bands of
    [check_budget_status], the check is modelled on binary64
    ([Binary64]). *)

From Stdlib Require Import QArith Qminmax Lqa Ascii String DecimalString Floats.
From stdpp Require Import gmap strings list fin_maps sorting.

(** The decimal literals of the samples stand for the nearest binary64
    numbers, as they do in Python. *)
#[local] Set Warnings "-inexact-float".

Local Open Scope Q_scope.
Local Open Scope string_scope.

(** ** Python values *)

Inductive pyval : Type :=
  | PNone : pyval
  | PStr : string -> pyval
  | PNum : Q -> pyval.

(** A payload is a Python [Dict[str, Any]]. *)
Abbreviation pydict := (gmap string pyval).

(** [d.get(k)]: the value, [None] when the key is missing. *)
Definition dict_get (d : pydict) (k : string) : pyval :=
  match d !! k with
  | Some v => v
  | None => PNone
  end.

(** [d.get(k, dflt)]. *)
Definition dict_get_default (d : pydict) (k : string) (dflt : pyval) : pyval :=
  match d !! k with
  | Some v => v
  | None => dflt
  end.

(** Python's [==] on the values of the model. *)
Definition py_eqb (a b : pyval) : bool :=
  match a, b with
  | PNone, PNone => true
  | PStr s, PStr t => String.eqb s t
  | PNum x, PNum y => Qeq_bool x y
  | _, _ => false
  end.

(** SQL's [=] in a [filter]: a NULL operand never matches. *)
Definition sql_eqb (a b : pyval) : bool :=
  match a, b with
  | PStr s, PStr t => String.eqb s t
  | PNum x, PNum y => Qeq_bool x y
  | _, _ => false
  end.

(** SQL's [LIKE 'prefix%'] on a column. *)
Definition sql_like_prefix (pre : string) (a : pyval) : bool :=
  match a with
  | PStr s => String.prefix pre s
  | _ => false
  end.

(** The operand of an arithmetic operation: anything but a number raises
    [TypeError] (modelled by [None]). *)
Definition as_num (a : pyval) : option Q :=
  match a with
  | PNum q => Some q
  | _ => None
  end.

Definition py_int (n : nat) : pyval := PNum (inject_Z (Z.of_nat n)).

(** ** Rows of [db_models] *)

(** Modelled from the spec: the [User] row of db_models (id, email,
    password hash, name). *)
Record User : Type := mkUser {
  u_id : string;
  u_email : string;
  u_password_hash : string;
  u_name : string
}.

(** Modelled from the spec: the [Transaction] row of db_models
    (user_id, date, description, amount, type, category, notes) with its
    primary key. *)
Record Transaction : Type := mkTransaction {
  t_id : pyval;
  t_user_id : pyval;
  t_date : pyval;
  t_description : pyval;
  t_amount : pyval;
  t_type : pyval;
  t_category : pyval;
  t_notes : pyval
}.

(** Modelled from the spec: the [Goal] row of db_models (user_id, name,
    target_amount, current_amount, deadline, category) with its primary
    key and the notes column [create_goal] fills. *)
Record Goal : Type := mkGoal {
  g_id : pyval;
  g_user_id : pyval;
  g_name : pyval;
  g_target_amount : pyval;
  g_current_amount : pyval;
  g_deadline : pyval;
  g_category : pyval;
  g_notes : pyval
}.

(** Modelled from the spec: the [Budget] row of db_models (user_id,
    category, amount, period) with its primary key and notes. *)
Record Budget : Type := mkBudget {
  b_id : pyval;
  b_user_id : pyval;
  b_category : pyval;
  b_amount : pyval;
  b_period : pyval;
  b_notes : pyval
}.

(** Modelled from the spec: the [VectorTransaction] row of db_models; only
    its key and the transaction it references are used. *)
Record VectorTransaction : Type := mkVectorTransaction {
  v_id : pyval;
  v_transaction_id : pyval
}.

(** Modelled from the spec: the [FinancialAnalysis] row of db_models
    (user_id, analysis_type, content, metadata). *)
Record FinancialAnalysis : Type := mkFinancialAnalysis {
  a_id : pyval;
  a_user_id : pyval;
  a_analysis_type : pyval;
  a_content : pyval;
  a_meta_data : pyval
}.

Record UserSetting : Type := mkUserSetting {
  s_user_id : string
}.

(** The database: one list of rows per table, in insertion order, and the
    next value of the auto-increment keys. *)
Record DB : Type := mkDB {
  users : list User;
  user_settings : list UserSetting;
  transactions : list Transaction;
  goals : list Goal;
  budgets : list Budget;
  vector_transactions : list VectorTransaction;
  financial_analyses : list FinancialAnalysis;
  next_id : nat
}.

Definition empty_db : DB := mkDB [] [] [] [] [] [] [] 1.

Definition with_users (db : DB) (us : list User) (ss : list UserSetting) : DB :=
  mkDB us ss (transactions db) (goals db) (budgets db)
       (vector_transactions db) (financial_analyses db) (next_id db).

Definition with_transactions (db : DB) (ts : list Transaction) (n : nat) : DB :=
  mkDB (users db) (user_settings db) ts (goals db) (budgets db)
       (vector_transactions db) (financial_analyses db) n.

Definition with_goals (db : DB) (gs : list Goal) (n : nat) : DB :=
  mkDB (users db) (user_settings db) (transactions db) gs (budgets db)
       (vector_transactions db) (financial_analyses db) n.

(** ** User operations *)

Section Users.

(** [hashlib.md5(s.encode()).hexdigest()] and
    [hashlib.sha256(s.encode()).hexdigest()]. *)
Variable md5_hex : string -> string.
Variable sha256_hex : string -> string.

Definition create_user (db : DB) (email password name : string) : User * DB :=
  let user_id := md5_hex email in
  let password_hash := sha256_hex password in
  let user := mkUser user_id email password_hash name in
  let settings := mkUserSetting user_id in
  (user, with_users db (users db ++ [user]) (user_settings db ++ [settings])).

Definition verify_password (stored_hash password : string) : bool :=
  let password_hash := sha256_hex password in
  String.eqb stored_hash password_hash.

End Users.

(** ** Transaction operations *)

Definition get_transactions (db : DB) (user_id : string) : list Transaction :=
  filter (fun t => sql_eqb (t_user_id t) (PStr user_id) = true) (transactions db).

Definition create_transaction (db : DB) (user_id : string)
    (transaction_data : pydict) : Transaction * DB :=
  let transaction :=
    mkTransaction (py_int (next_id db))
                  (PStr user_id)
                  (dict_get transaction_data "date")
                  (dict_get transaction_data "description")
                  (dict_get transaction_data "amount")
                  (dict_get transaction_data "type")
                  (dict_get transaction_data "category")
                  (dict_get transaction_data "notes") in
  (transaction,
   with_transactions db (transactions db ++ [transaction]) (S (next_id db))).

(** ** Goal operations *)

Definition create_goal (db : DB) (user_id : string) (goal_data : pydict)
    : Goal * DB :=
  let goal :=
    mkGoal (py_int (next_id db))
           (PStr user_id)
           (dict_get goal_data "name")
           (dict_get goal_data "target_amount")
           (dict_get_default goal_data "current_amount" (PNum 0))
           (dict_get goal_data "deadline")
           (dict_get goal_data "category")
           (dict_get goal_data "notes") in
  (goal, with_goals db (goals db ++ [goal]) (S (next_id db))).

Section UpdateGoal.

(** Modelled from the spec: what Python's object model and the mapped
    class of db_models decide for a key that names no column.
    [setattr_raises key value] says that the goal has an attribute of that
    name whose assignment of [value] raises ([__class__], [__dict__] and
    [__weakref__] are such attributes of every object); otherwise
    [hasattr] is false, or the attribute that is set is no column. *)
Variable setattr_raises : string -> pyval -> bool.

(** [if hasattr(goal, key): setattr(goal, key, value)].  A key that names
    a column sets it; another key raises or leaves the row as it is.
    [None] is the exception. *)
Definition setattr_goal (goal : Goal) (key : string) (value : pyval) : option Goal :=
  if String.eqb key "id" then
    Some (mkGoal value (g_user_id goal) (g_name goal) (g_target_amount goal)
                 (g_current_amount goal) (g_deadline goal) (g_category goal)
                 (g_notes goal))
  else if String.eqb key "user_id" then
    Some (mkGoal (g_id goal) value (g_name goal) (g_target_amount goal)
                 (g_current_amount goal) (g_deadline goal) (g_category goal)
                 (g_notes goal))
  else if String.eqb key "name" then
    Some (mkGoal (g_id goal) (g_user_id goal) value (g_target_amount goal)
                 (g_current_amount goal) (g_deadline goal) (g_category goal)
                 (g_notes goal))
  else if String.eqb key "target_amount" then
    Some (mkGoal (g_id goal) (g_user_id goal) (g_name goal) value
                 (g_current_amount goal) (g_deadline goal) (g_category goal)
                 (g_notes goal))
  else if String.eqb key "current_amount" then
    Some (mkGoal (g_id goal) (g_user_id goal) (g_name goal) (g_target_amount goal)
                 value (g_deadline goal) (g_category goal) (g_notes goal))
  else if String.eqb key "deadline" then
    Some (mkGoal (g_id goal) (g_user_id goal) (g_name goal) (g_target_amount goal)
                 (g_current_amount goal) value (g_category goal) (g_notes goal))
  else if String.eqb key "category" then
    Some (mkGoal (g_id goal) (g_user_id goal) (g_name goal) (g_target_amount goal)
                 (g_current_amount goal) (g_deadline goal) value (g_notes goal))
  else if String.eqb key "notes" then
    Some (mkGoal (g_id goal) (g_user_id goal) (g_name goal) (g_target_amount goal)
                 (g_current_amount goal) (g_deadline goal) (g_category goal) value)
  else if setattr_raises key value then None
  else Some goal.

(** The loop [for key, value in goal_data.items()]; it ends at the first
    assignment that raises. *)
Fixpoint update_fields (goal : Goal) (items : list (string * pyval)) : option Goal :=
  match items with
  | [] => Some goal
  | (key, value) :: items' =>
      match setattr_goal goal key value with
      | None => None
      | Some goal' => update_fields goal' items'
      end
  end.

End UpdateGoal.

(** [query.filter(Goal.id == goal_id).first()]. *)
Definition find_goal (db : DB) (goal_id : Z) : option Goal :=
  head (filter (fun g => sql_eqb (g_id g) (PNum (inject_Z goal_id)) = true) (goals db)).

(** The row the session loaded is written back in place at commit. *)
Fixpoint replace_first (goal_id : Z) (new : Goal) (gs : list Goal) : list Goal :=
  match gs with
  | [] => []
  | g :: gs' =>
      if sql_eqb (g_id g) (PNum (inject_Z goal_id)) then new :: gs'
      else g :: replace_first goal_id new gs'
  end.

(** [Some None] is the answer None for an id no goal has; [None] is an
    exception of the loop, which leaves the function before the commit:
    the session is closed and the database is as it was. *)
Definition update_goal (setattr_raises : string -> pyval -> bool)
    (db : DB) (goal_id : Z) (goal_data : pydict) : option (option Goal) * DB :=
  match find_goal db goal_id with
  | None => (Some None, db)
  | Some goal =>
      match update_fields setattr_raises goal (map_to_list goal_data) with
      | None => (None, db)
      | Some goal' =>
          (Some (Some goal'),
           with_goals db (replace_first goal_id goal' (goals db)) (next_id db))
      end
  end.

(** ** Budget status *)

Definition Qltb (a b : Q) : bool := negb (Qle_bool b a).

(** Python's [max(0, x)]: the first argument unless the second is
    greater. *)
Definition py_max0 (x : Q) : Q := if Qltb 0 x then x else 0.

(** The [category_spending] dictionary: keys in insertion order, compared
    with Python's [==]. *)
Fixpoint spending_get (d : list (pyval * Q)) (k : pyval) : option Q :=
  match d with
  | [] => None
  | (k', v) :: d' => if py_eqb k' k then Some v else spending_get d' k
  end.

Fixpoint spending_set (d : list (pyval * Q)) (k : pyval) (v : Q)
    : list (pyval * Q) :=
  match d with
  | [] => [(k, v)]
  | (k', v') :: d' =>
      if py_eqb k' k then (k', v) :: d' else (k', v') :: spending_set d' k v
  end.

(** One turn of the loop over the month's transactions; [None] is the
    [TypeError] of [+=] on an amount that is not a number. *)
Definition add_spending (acc : list (pyval * Q) * Q) (transaction : Transaction)
    : option (list (pyval * Q) * Q) :=
  let '(category_spending, total_spending) := acc in
  let category := t_category transaction in
  let category_spending :=
    match spending_get category_spending category with
    | None => spending_set category_spending category 0
    | Some _ => category_spending
    end in
  match as_num (t_amount transaction) with
  | None => None
  | Some amount =>
      let current :=
        match spending_get category_spending category with
        | Some v => v
        | None => 0
        end in
      Some (spending_set category_spending category (current + amount),
            total_spending + amount)
  end.

Fixpoint accumulate_spending (acc : list (pyval * Q) * Q)
    (txns : list Transaction) : option (list (pyval * Q) * Q) :=
  match txns with
  | [] => Some acc
  | t :: txns' =>
      match add_spending acc t with
      | None => None
      | Some acc' => accumulate_spending acc' txns'
      end
  end.

Record Warning : Type := mkWarning {
  w_budget : Budget;
  w_spent : Q;
  w_remaining : Q;
  w_percent_used : Q;
  w_severity : string
}.

(** [spent]: the total for "All Categories", the category's entry (0 when
    it has none) otherwise. *)
Definition budget_spent (category_spending : list (pyval * Q))
    (total_spending : Q) (budget : Budget) : Q :=
  let category := b_category budget in
  if py_eqb category (PStr "All Categories") then total_spending
  else match spending_get category_spending category with
       | Some v => v
       | None => 0
       end.

(** [(spent / amount) * 100 if amount > 0 else 0]. *)
Definition percent_used (spent amount : Q) : Q :=
  if Qltb 0 amount then (spent / amount) * 100 else 0.

(** The body of the loop over the budgets: [None] is a [TypeError],
    [Some None] the [continue], [Some (Some w)] an appended warning. *)
Definition check_one_budget (category_spending : list (pyval * Q))
    (total_spending : Q) (budget : Budget) : option (option Warning) :=
  let spent := budget_spent category_spending total_spending budget in
  match as_num (b_amount budget) with
  | None => None
  | Some amount =>
      let remaining := py_max0 (amount - spent) in
      let percent_used := percent_used spent amount in
      if Qle_bool 100 percent_used then
        Some (Some (mkWarning budget spent remaining percent_used "high"))
      else if Qle_bool 90 percent_used then
        Some (Some (mkWarning budget spent remaining percent_used "medium"))
      else if Qle_bool 75 percent_used then
        Some (Some (mkWarning budget spent remaining percent_used "low"))
      else Some None
  end.

Fixpoint check_budgets (category_spending : list (pyval * Q))
    (total_spending : Q) (bs : list Budget) : option (list Warning) :=
  match bs with
  | [] => Some []
  | b :: bs' =>
      match check_one_budget category_spending total_spending b with
      | None => None
      | Some ow =>
          match check_budgets category_spending total_spending bs' with
          | None => None
          | Some ws =>
              Some (match ow with Some w => w :: ws | None => ws end)
          end
      end
  end.

Definition user_budgets (db : DB) (user_id : string) : list Budget :=
  filter (fun b => sql_eqb (b_user_id b) (PStr user_id) = true) (budgets db).

(** The month's expense rows of the user: the three conditions of the
    query's [filter]. *)
Definition month_expenses (db : DB) (user_id current_month : string)
    : list Transaction :=
  filter (fun t => sql_eqb (t_user_id t) (PStr user_id)
                   && sql_eqb (t_type t) (PStr "expense")
                   && sql_like_prefix current_month (t_date t) = true)
         (transactions db).

(** [current_month] is [datetime.datetime.now().strftime("%Y-%m")]. *)
Definition check_budget_status (db : DB) (user_id current_month : string)
    : option (list Warning) :=
  let budgets := user_budgets db user_id in
  let transactions := month_expenses db user_id current_month in
  match accumulate_spending ([], 0) transactions with
  | None => None
  | Some (category_spending, total_spending) =>
      check_budgets category_spending total_spending budgets
  end.

(** ** Budget status on binary64

    The bands of [check_budget_status] compare a quotient of two floats
    with 75, 90 and 100, so which band a budget falls in turns on the
    rounding of the division.  Here the check is modelled a second time,
    with the amounts as the code has them: binary64 floating-point
    numbers, and Python's arithmetic and comparisons on them.  An [int] 0
    or 100 of the code enters the arithmetic as the float Python converts
    it to. *)

Module Binary64.

Local Open Scope float_scope.

(** Modelled from the spec: the columns of the [Transaction] and [Budget]
    rows of db_models that the check reads; the amount is a float, or
    [None] for NULL. *)
Record Transaction : Type := mkTransaction {
  t_user_id : pyval;
  t_type : pyval;
  t_date : pyval;
  t_category : pyval;
  t_amount : option float
}.

Record Budget : Type := mkBudget {
  b_id : pyval;
  b_user_id : pyval;
  b_category : pyval;
  b_amount : option float;
  b_period : pyval
}.

Record DB : Type := mkDB {
  transactions : list Transaction;
  budgets : list Budget
}.

(** Python's [max(0, x)]: the first argument unless the second is
    greater. *)
Definition py_max0 (x : float) : float := if 0 <? x then x else 0.

(** The [category_spending] dictionary: keys in insertion order, compared
    with Python's [==]. *)
Fixpoint spending_get (d : list (pyval * float)) (k : pyval) : option float :=
  match d with
  | [] => None
  | (k', v) :: d' => if py_eqb k' k then Some v else spending_get d' k
  end.

Fixpoint spending_set (d : list (pyval * float)) (k : pyval) (v : float)
    : list (pyval * float) :=
  match d with
  | [] => [(k, v)]
  | (k', v') :: d' =>
      if py_eqb k' k then (k', v) :: d' else (k', v') :: spending_set d' k v
  end.

(** One turn of the loop over the month's transactions; [None] is the
    [TypeError] of [+=] on an amount that is None. *)
Definition add_spending (acc : list (pyval * float) * float)
    (transaction : Transaction) : option (list (pyval * float) * float) :=
  let '(category_spending, total_spending) := acc in
  let category := t_category transaction in
  let category_spending :=
    match spending_get category_spending category with
    | None => spending_set category_spending category 0
    | Some _ => category_spending
    end in
  match t_amount transaction with
  | None => None
  | Some amount =>
      let current :=
        match spending_get category_spending category with
        | Some v => v
        | None => 0
        end in
      Some (spending_set category_spending category (current + amount),
            total_spending + amount)
  end.

Fixpoint accumulate_spending (acc : list (pyval * float) * float)
    (txns : list Transaction) : option (list (pyval * float) * float) :=
  match txns with
  | [] => Some acc
  | t :: txns' =>
      match add_spending acc t with
      | None => None
      | Some acc' => accumulate_spending acc' txns'
      end
  end.

Record Warning : Type := mkWarning {
  w_budget : Budget;
  w_spent : float;
  w_remaining : float;
  w_percent_used : float;
  w_severity : string
}.

(** [spent]: the total for "All Categories", the category's entry (0 when
    it has none) otherwise. *)
Definition budget_spent (category_spending : list (pyval * float))
    (total_spending : float) (budget : Budget) : float :=
  let category := b_category budget in
  if py_eqb category (PStr "All Categories") then total_spending
  else match spending_get category_spending category with
       | Some v => v
       | None => 0
       end.

(** [(spent / amount) * 100 if amount > 0 else 0]. *)
Definition percent_used (spent amount : float) : float :=
  if 0 <? amount then (spent / amount) * 100 else 0.

(** The body of the loop over the budgets: [None] is a [TypeError],
    [Some None] the [continue], [Some (Some w)] an appended warning. *)
Definition check_one_budget (category_spending : list (pyval * float))
    (total_spending : float) (budget : Budget) : option (option Warning) :=
  let spent := budget_spent category_spending total_spending budget in
  match b_amount budget with
  | None => None
  | Some amount =>
      let remaining := py_max0 (amount - spent) in
      let percent_used := percent_used spent amount in
      if 100 <=? percent_used then
        Some (Some (mkWarning budget spent remaining percent_used "high"))
      else if 90 <=? percent_used then
        Some (Some (mkWarning budget spent remaining percent_used "medium"))
      else if 75 <=? percent_used then
        Some (Some (mkWarning budget spent remaining percent_used "low"))
      else Some None
  end.

Fixpoint check_budgets (category_spending : list (pyval * float))
    (total_spending : float) (bs : list Budget) : option (list Warning) :=
  match bs with
  | [] => Some []
  | b :: bs' =>
      match check_one_budget category_spending total_spending b with
      | None => None
      | Some ow =>
          match check_budgets category_spending total_spending bs' with
          | None => None
          | Some ws =>
              Some (match ow with Some w => w :: ws | None => ws end)
          end
      end
  end.

Definition user_budgets (db : DB) (user_id : string) : list Budget :=
  filter (fun b => sql_eqb (b_user_id b) (PStr user_id) = true) (budgets db).

(** The month's expense rows of the user: the three conditions of the
    query's [filter]. *)
Definition month_expenses (db : DB) (user_id current_month : string)
    : list Transaction :=
  filter (fun t => sql_eqb (t_user_id t) (PStr user_id)
                   && sql_eqb (t_type t) (PStr "expense")
                   && sql_like_prefix current_month (t_date t) = true)
         (transactions db).

(** [current_month] is [datetime.datetime.now().strftime("%Y-%m")]. *)
Definition check_budget_status (db : DB) (user_id current_month : string)
    : option (list Warning) :=
  let budgets := user_budgets db user_id in
  let transactions := month_expenses db user_id current_month in
  match accumulate_spending ([], 0) transactions with
  | None => None
  | Some (category_spending, total_spending) =>
      check_budgets category_spending total_spending budgets
  end.

End Binary64.

(** ** Resetting a user's data *)

#[local] Instance Q_eq_dec : EqDecision Q.
Proof. solve_decision. Defined.
#[local] Instance pyval_eq_dec : EqDecision pyval.
Proof. solve_decision. Defined.
#[local] Instance Transaction_eq_dec : EqDecision Transaction.
Proof. solve_decision. Defined.
#[local] Instance Goal_eq_dec : EqDecision Goal.
Proof. solve_decision. Defined.
#[local] Instance Budget_eq_dec : EqDecision Budget.
Proof. solve_decision. Defined.
#[local] Instance VectorTransaction_eq_dec : EqDecision VectorTransaction.
Proof. solve_decision. Defined.
#[local] Instance FinancialAnalysis_eq_dec : EqDecision FinancialAnalysis.
Proof. solve_decision. Defined.

(** What the session was asked to do, in order. *)
Inductive event : Type :=
  | EBegin : event
  | EDeleteVector : VectorTransaction -> event
  | EDeleteAnalysis : FinancialAnalysis -> event
  | EDeleteTransaction : Transaction -> event
  | EDeleteGoal : Goal -> event
  | EDeleteBudget : Budget -> event
  | ECommit : event
  | ERollback : event
  | EClose : event.

(** An ORM session: the committed database, the session's own view of it
    (pending deletions applied), the log of its calls and their count. *)
Record Session : Type := mkSession {
  committed : DB;
  working : DB;
  log : list event;
  calls : nat
}.

Inductive outcome (A : Type) : Type :=
  | Ok : A -> outcome A
  | Raise : outcome A.
Arguments Ok {A} _.
Arguments Raise {A}.

Module SessionM.

Definition M (A : Type) : Type := Session -> outcome A * Session.

Definition ret {A} (a : A) : M A := fun s => (Ok a, s).

Definition bind {A B} (m : M A) (k : A -> M B) : M B :=
  fun s => match m s with
           | (Ok a, s') => k a s'
           | (Raise, s') => (Raise, s')
           end.

Fixpoint for_each {A} (l : list A) (body : A -> M unit) : M unit :=
  match l with
  | [] => ret tt
  | x :: l' => bind (body x) (fun _ => for_each l' body)
  end.

End SessionM.

Notation "x <- m ;; k" := (SessionM.bind m (fun x => k))
  (at level 90, m at next level, right associativity).
Notation "m ;;; k" := (SessionM.bind m (fun _ => k))
  (at level 90, right associativity).

Section Reset.

(** Which calls on the session raise: [raises n] says that the call
    number [n] (counted from 0) raises instead of taking effect. *)
Variable raises : nat -> bool.

(** A call on the session inside the [try] block. *)
Definition call {A} (effect : Session -> A * Session) : SessionM.M A :=
  fun s =>
    let s1 := mkSession (committed s) (working s) (log s) (S (calls s)) in
    if raises (calls s) then (Raise, s1)
    else let '(a, s2) := effect s1 in (Ok a, s2).

Definition on_working (f : DB -> DB) (e : event) (s : Session) : unit * Session :=
  (tt, mkSession (committed s) (f (working s)) (log s ++ [e]) (calls s)).

Definition db_begin : SessionM.M unit :=
  call (fun s => (tt, mkSession (committed s) (working s) (log s ++ [EBegin]) (calls s))).

Definition db_commit : SessionM.M unit :=
  call (fun s => (tt, mkSession (working s) (working s) (log s ++ [ECommit]) (calls s))).

(** [rollback] and [close] run in the handler and in [finally]. *)
Definition db_rollback (s : Session) : Session :=
  mkSession (committed s) (committed s) (log s ++ [ERollback]) (calls s).

Definition db_close (s : Session) : Session :=
  mkSession (committed s) (committed s) (log s ++ [EClose]) (calls s).

Definition refers_to_user (db : DB) (user_id : string) (v : VectorTransaction) : bool :=
  existsb (fun t => sql_eqb (t_id t) (v_transaction_id v)
                    && sql_eqb (t_user_id t) (PStr user_id))
          (transactions db).

(** The rows each query of [reset_user_data] selects: the join of the
    vector rows with the user's transactions, then the user's rows of each
    table. *)
Definition vectors_of (db : DB) (user_id : string) : list VectorTransaction :=
  filter (fun v => refers_to_user db user_id v = true) (vector_transactions db).
Definition analyses_of (db : DB) (user_id : string) : list FinancialAnalysis :=
  filter (fun a => sql_eqb (a_user_id a) (PStr user_id) = true) (financial_analyses db).
Definition transactions_of (db : DB) (user_id : string) : list Transaction :=
  filter (fun t => sql_eqb (t_user_id t) (PStr user_id) = true) (transactions db).
Definition goals_of (db : DB) (user_id : string) : list Goal :=
  filter (fun g => sql_eqb (g_user_id g) (PStr user_id) = true) (goals db).
Definition budgets_of (db : DB) (user_id : string) : list Budget :=
  filter (fun b => sql_eqb (b_user_id b) (PStr user_id) = true) (budgets db).

(** [query.all()] runs on the session's view. *)
Definition query_vector_txns (user_id : string) : SessionM.M (list VectorTransaction) :=
  call (fun s => (vectors_of (working s) user_id, s)).

Definition query_analyses (user_id : string) : SessionM.M (list FinancialAnalysis) :=
  call (fun s => (analyses_of (working s) user_id, s)).

Definition query_transactions (user_id : string) : SessionM.M (list Transaction) :=
  call (fun s => (transactions_of (working s) user_id, s)).

Definition query_goals (user_id : string) : SessionM.M (list Goal) :=
  call (fun s => (goals_of (working s) user_id, s)).

Definition query_budgets (user_id : string) : SessionM.M (list Budget) :=
  call (fun s => (budgets_of (working s) user_id, s)).

Definition remove_vector (x : VectorTransaction) (db : DB) : DB :=
  mkDB (users db) (user_settings db) (transactions db) (goals db) (budgets db)
       (filter (fun y => y <> x) (vector_transactions db))
       (financial_analyses db) (next_id db).

Definition remove_analysis (x : FinancialAnalysis) (db : DB) : DB :=
  mkDB (users db) (user_settings db) (transactions db) (goals db) (budgets db)
       (vector_transactions db)
       (filter (fun y => y <> x) (financial_analyses db)) (next_id db).

Definition remove_transaction (x : Transaction) (db : DB) : DB :=
  mkDB (users db) (user_settings db)
       (filter (fun y => y <> x) (transactions db))
       (goals db) (budgets db)
       (vector_transactions db) (financial_analyses db) (next_id db).

Definition remove_goal (x : Goal) (db : DB) : DB :=
  mkDB (users db) (user_settings db) (transactions db)
       (filter (fun y => y <> x) (goals db)) (budgets db)
       (vector_transactions db) (financial_analyses db) (next_id db).

Definition remove_budget (x : Budget) (db : DB) : DB :=
  mkDB (users db) (user_settings db) (transactions db) (goals db)
       (filter (fun y => y <> x) (budgets db))
       (vector_transactions db) (financial_analyses db) (next_id db).

(** [db.delete(row)]: the row leaves the session's view. *)
Definition delete_vector (x : VectorTransaction) : SessionM.M unit :=
  call (on_working (remove_vector x) (EDeleteVector x)).
Definition delete_analysis (x : FinancialAnalysis) : SessionM.M unit :=
  call (on_working (remove_analysis x) (EDeleteAnalysis x)).
Definition delete_transaction (x : Transaction) : SessionM.M unit :=
  call (on_working (remove_transaction x) (EDeleteTransaction x)).
Definition delete_goal (x : Goal) : SessionM.M unit :=
  call (on_working (remove_goal x) (EDeleteGoal x)).
Definition delete_budget (x : Budget) : SessionM.M unit :=
  call (on_working (remove_budget x) (EDeleteBudget x)).

(** The [try] block of [reset_user_data]. *)
Definition reset_try (user_id : string) : SessionM.M unit :=
  db_begin ;;;
  vector_txns <- query_vector_txns user_id ;;
  SessionM.for_each vector_txns delete_vector ;;;
  analyses <- query_analyses user_id ;;
  SessionM.for_each analyses delete_analysis ;;;
  transactions <- query_transactions user_id ;;
  SessionM.for_each transactions delete_transaction ;;;
  goals <- query_goals user_id ;;
  SessionM.for_each goals delete_goal ;;;
  budgets <- query_budgets user_id ;;
  SessionM.for_each budgets delete_budget ;;;
  db_commit.

Definition get_db (db : DB) : Session := mkSession db db [] 0.

(** The result, the database afterwards and the session's log. *)
Definition reset_user_data (db : DB) (user_id : string) : bool * DB * list event :=
  match reset_try user_id (get_db db) with
  | (Ok _, s) => let s := db_close s in (true, committed s, log s)
  | (Raise, s) =>
      let s := db_rollback s in
      let s := db_close s in
      (false, committed s, log s)
  end.

End Reset.

(** ** Dates: [datetime.strptime(s, "%Y-%m-%d")], [timedelta] and
    [strftime("%Y-%m-%d")]

    A [datetime] at midnight is represented by its proleptic Gregorian
    ordinal ([date.toordinal()]). *)

Local Open Scope Z_scope.

Definition digit (c : ascii) : option Z :=
  let n := Z.of_nat (nat_of_ascii c) in
  if (48 <=? n) && (n <=? 57) then Some (n - 48) else None.

Definition is_leap (y : Z) : bool :=
  (y mod 4 =? 0) && (negb (y mod 100 =? 0) || (y mod 400 =? 0)).

Definition days_in_month (y m : Z) : Z :=
  if m =? 2 then (if is_leap y then 29 else 28)
  else if (m =? 4) || (m =? 6) || (m =? 9) || (m =? 11) then 30
  else 31.

Definition days_before_year (y : Z) : Z :=
  let y1 := y - 1 in y1 * 365 + y1 / 4 - y1 / 100 + y1 / 400.

Definition days_before_month_table (m : Z) : Z :=
  nth (Z.to_nat m) [0; 0; 31; 59; 90; 120; 151; 181; 212; 243; 273; 304; 334] 0.

Definition days_before_month (y m : Z) : Z :=
  days_before_month_table m + (if (2 <? m) && is_leap y then 1 else 0).

Definition ymd2ord (y m d : Z) : Z :=
  days_before_year y + days_before_month y m + d.

(** The year: exactly four digits. *)
Definition parse_year (a b c d : ascii) : option Z :=
  match digit a, digit b, digit c, digit d with
  | Some a, Some b, Some c, Some d => Some (1000 * a + 100 * b + 10 * c + d)
  | _, _, _, _ => None
  end.

(** The month: [1[0-2]], [0[1-9]] or [[1-9]]. *)
Definition parse_month2 (a b : ascii) : option Z :=
  match digit a, digit b with
  | Some a, Some b =>
      let m := 10 * a + b in
      if (1 <=? m) && (m <=? 12) then Some m else None
  | _, _ => None
  end.

Definition parse_digit19 (a : ascii) : option Z :=
  match digit a with
  | Some a => if 1 <=? a then Some a else None
  | None => None
  end.

(** The day, up to the end of the string: [3[01]], [[12]\d], [0[1-9]],
    [[1-9]] or a space and [[1-9]]. *)
Definition parse_day (s : string) : option Z :=
  match s with
  | String a EmptyString => parse_digit19 a
  | String a (String b EmptyString) =>
      if Ascii.eqb a " "%char then parse_digit19 b
      else match digit a, digit b with
           | Some a, Some b =>
               let d := 10 * a + b in
               if (1 <=? d) && (d <=? 31) then Some d else None
           | _, _ => None
           end
  | _ => None
  end.

Definition checked_date (y m : Z) (od : option Z) : option Z :=
  match od with
  | Some d =>
      if (1 <=? y) && (d <=? days_in_month y m) then Some (ymd2ord y m d)
      else None
  | None => None
  end.

(** [datetime.strptime(s, "%Y-%m-%d")] on ASCII text; [None] is its
    [ValueError].  Beyond ASCII Python reads other decimal digits too; the
    properties that depend on it are stated for ASCII text. *)
Definition strptime (s : string) : option Z :=
  match s with
  | String y1 (String y2 (String y3 (String y4 (String sep1 rest)))) =>
      if Ascii.eqb sep1 "-"%char then
        match parse_year y1 y2 y3 y4 with
        | None => None
        | Some y =>
            match rest with
            | String m1 (String sep2 rest1) =>
                if Ascii.eqb sep2 "-"%char then
                  match parse_digit19 m1 with
                  | Some m => checked_date y m (parse_day rest1)
                  | None => None
                  end
                else
                  match rest1 with
                  | String sep3 rest2 =>
                      if Ascii.eqb sep3 "-"%char then
                        match parse_month2 m1 sep2 with
                        | Some m => checked_date y m (parse_day rest2)
                        | None => None
                        end
                      else None
                  | EmptyString => None
                  end
            | _ => None
            end
        end
      else None
  | _ => None
  end.

(** [date.max.toordinal()]: beyond it [+ timedelta] raises
    [OverflowError]. *)
Definition max_ordinal : Z := 3652059.

(** [_ord2ymd] of the datetime module. *)
Definition ord2ymd (n : Z) : Z * Z * Z :=
  let n := n - 1 in
  let n400 := n / 146097 in
  let n := n mod 146097 in
  let year := n400 * 400 + 1 in
  let n100 := n / 36524 in
  let n := n mod 36524 in
  let n4 := n / 1461 in
  let n := n mod 1461 in
  let n1 := n / 365 in
  let n := n mod 365 in
  let year := year + n100 * 100 + n4 * 4 + n1 in
  if (n1 =? 4) || (n100 =? 4) then (year - 1, 12, 31)
  else
    let leapyear := (n1 =? 3) && (negb (n4 =? 24) || (n100 =? 3)) in
    let month := Z.shiftr (n + 50) 5 in
    let preceding :=
      days_before_month_table month + (if (2 <? month) && leapyear then 1 else 0) in
    if n <? preceding then
      let month := month - 1 in
      let preceding :=
        preceding - (days_in_month 1 month + (if (month =? 2) && leapyear then 1 else 0)) in
      (year, month, n - preceding + 1)
    else (year, month, n - preceding + 1).

Definition digit_char (d : Z) : ascii := ascii_of_nat (Z.to_nat (48 + d mod 10)).

Definition pad2 (n : Z) : string :=
  String (digit_char (n / 10)) (String (digit_char n) EmptyString).

Definition pad4 (n : Z) : string :=
  String (digit_char (n / 1000)) (String (digit_char (n / 100)) (pad2 n)).

(** [strftime("%Y-%m-%d")], the year written with four digits. *)
Definition strftime (n : Z) : string :=
  let '(y, m, d) := ord2ymd n in
  (pad4 y ++ "-" ++ pad2 m ++ "-" ++ pad2 d)%string.

(** ** The rule-based fallback of [predict_transactions] *)

(** Modelled from the spec: the dictionary [Transaction.to_dict()] of
    db_models builds, with the keys the fallback reads, each holding a
    value of its column's type. *)
Record txn_dict : Type := mkTxn {
  d_description : string;
  d_amount : Q;
  d_category : string;
  d_type : string;
  d_date : string
}.

(** [str.lower()] on ASCII text: the letters A to Z are lowered, every
    other character stays.  Beyond ASCII Python lowers other letters too;
    the properties that depend on it are stated for ASCII text. *)
Definition lower_char (c : ascii) : ascii :=
  let n := nat_of_ascii c in
  if (65 <=? n)%nat && (n <=? 90)%nat then ascii_of_nat (n + 32) else c.

Fixpoint lower (s : string) : string :=
  match s with
  | EmptyString => EmptyString
  | String c s' => String (lower_char c) (lower s')
  end.

(** [f"{desc}-{category}-{txn_type}"]. *)
Definition group_key (txn : txn_dict) : string :=
  (lower (d_description txn) ++ "-" ++ d_category txn ++ "-" ++ d_type txn)%string.

(** A value of the [recurring] dictionary. *)
Record group : Type := mkGroup {
  gr_transactions : list txn_dict;
  gr_description : string;
  gr_category : string;
  gr_type : string;
  gr_count : nat
}.

(** The body of the grouping loop; [recurring] keeps its keys in
    insertion order. *)
Fixpoint group_add (recurring : list (string * group)) (key : string)
    (txn : txn_dict) : list (string * group) :=
  match recurring with
  | [] =>
      [(key, mkGroup [txn] (d_description txn) (d_category txn) (d_type txn) 1)]
  | (k, g) :: recurring' =>
      if String.eqb k key then
        (k, mkGroup (gr_transactions g ++ [txn]) (gr_description g)
                    (gr_category g) (gr_type g) (S (gr_count g))) :: recurring'
      else (k, g) :: group_add recurring' key txn
  end.

Definition group_all (txn_dicts : list txn_dict) : list (string * group) :=
  fold_left (fun recurring txn => group_add recurring (group_key txn) txn)
            txn_dicts [].

(** [sorted(l, key=...)]: stable, the keys compared as strings. *)
Fixpoint insert_by {A} (key : A -> string) (x : A) (l : list A) : list A :=
  match l with
  | [] => [x]
  | y :: l' =>
      if String.leb (key x) (key y) then x :: y :: l'
      else y :: insert_by key x l'
  end.

Fixpoint sorted_by {A} (key : A -> string) (l : list A) : list A :=
  match l with
  | [] => []
  | x :: l' => insert_by key x (sorted_by key l')
  end.

(** [sum(l)]. *)
Definition py_sum (l : list Q) : Q := fold_left Qplus l 0%Q.

Definition Zsum (l : list Z) : Z := fold_left Z.add l 0.

(** The dates that are not empty and that [strptime] accepts. *)
Fixpoint parse_dates (txns : list txn_dict) : list Z :=
  match txns with
  | [] => []
  | t :: txns' =>
      let date_str := d_date t in
      if String.eqb date_str "" then parse_dates txns'
      else match strptime date_str with
           | Some date_obj => date_obj :: parse_dates txns'
           | None => parse_dates txns'
           end
  end.

(** [[(dates[i+1] - dates[i]).days for i in range(len(dates)-1)]]. *)
Fixpoint day_diffs (dates : list Z) : list Z :=
  match dates with
  | d0 :: ((d1 :: _) as dates') => (d1 - d0) :: day_diffs dates'
  | _ => []
  end.

Record prediction : Type := mkPrediction {
  p_description : string;
  p_category : string;
  p_type : string;
  p_amount : Q;
  p_predicted_date : string;
  p_confidence : Q
}.

Definition average (total : Q) (n : nat) : Q :=
  (total / inject_Z (Z.of_nat n))%Q.

(** The body of the loop over the recurring groups.  [today] is the
    ordinal of [datetime.datetime.now()]'s day: a date at midnight is after
    now exactly when its ordinal is greater.  [None] is the
    [OverflowError] of the addition of thirty days; [Some None] adds no
    prediction.  The average gap is a quotient of two integers; Python
    rounds it to the nearest float before it compares it with 25 and 35,
    which changes neither comparison for a list of fewer than 10^14
    dates. *)
Definition predict_group (today : Z) (data : group) : option (option prediction) :=
  let txns := gr_transactions data in
  if (2 <=? length txns)%nat then
    let txns := sorted_by d_date txns in
    let amounts := map d_amount txns in
    let avg_amount := average (py_sum amounts) (length amounts) in
    let dates := parse_dates txns in
    if (2 <=? length dates)%nat then
      let diffs := day_diffs dates in
      let avg_diff := average (inject_Z (Zsum diffs)) (length diffs) in
      if Qle_bool 25 avg_diff && Qle_bool avg_diff 35 then
        let next_date := List.last dates 0 + 30 in
        if max_ordinal <? next_date then None
        else if today <? next_date then
          Some (Some (mkPrediction (gr_description data) (gr_category data)
                                   (gr_type data) avg_amount
                                   (strftime next_date) (6 # 10)))
        else Some None
      else Some None
    else Some None
  else Some None.

Fixpoint predict_groups (today : Z) (recurring : list (string * group))
    : option (list prediction) :=
  match recurring with
  | [] => Some []
  | (_, data) :: recurring' =>
      match predict_group today data with
      | None => None
      | Some op =>
          match predict_groups today recurring' with
          | None => None
          | Some ps => Some (match op with Some p => p :: ps | None => ps end)
          end
      end
  end.

Definition fallback_predictions (today : Z) (txn_dicts : list txn_dict)
    : option (list prediction) :=
  let recurring := group_all txn_dicts in
  let recurring := filter (fun kv => (2 <= gr_count (snd kv))%nat) recurring in
  match predict_groups today recurring with
  | None => None
  | Some predictions => Some (sorted_by p_predicted_date predictions)
  end.

Section Agent.

(** [ai_agents.get_transaction_predictions] and
    [ai_agents.get_transaction_categorization]: calls to the hosted
    model, which answer or raise. *)
Variable get_transaction_predictions : list txn_dict -> outcome (list prediction).
Variable get_transaction_categorization : string -> outcome string.

(** [user_id] is [self.user_id]; [txn_dicts] the user's transactions as
    dictionaries.  [None] is an exception leaving the function. *)
Definition predict_transactions (user_id : option string) (today : Z)
    (txn_dicts : list txn_dict) : option (list prediction) :=
  match user_id with
  | None => Some []
  | Some "" => Some []
  | Some _ =>
      match get_transaction_predictions txn_dicts with
      | Ok predictions => Some predictions
      | Raise => fallback_predictions today txn_dicts
      end
  end.

Definition categorize_transaction (description : string) : outcome string :=
  match get_transaction_categorization description with
  | Ok category => Ok category
  | Raise => Ok "Other"
  end.

End Agent.

(** * Further operations of the data layer *)

Local Close Scope Z_scope.

(** ** Looking users up *)

Definition get_user_by_email (db : DB) (email : string) : option User :=
  head (filter (fun u => u_email u = email) (users db)).

Definition get_user_by_id (db : DB) (user_id : string) : option User :=
  head (filter (fun u => u_id u = user_id) (users db)).

(** ** Listing, creating and deleting rows *)

Definition get_goals (db : DB) (user_id : string) : list Goal :=
  filter (fun g => sql_eqb (g_user_id g) (PStr user_id) = true) (goals db).

Definition get_budgets (db : DB) (user_id : string) : list Budget :=
  filter (fun b => sql_eqb (b_user_id b) (PStr user_id) = true) (budgets db).

Definition with_budgets (db : DB) (bs : list Budget) (n : nat) : DB :=
  mkDB (users db) (user_settings db) (transactions db) (goals db) bs
       (vector_transactions db) (financial_analyses db) n.

Definition create_budget (db : DB) (user_id : string) (budget_data : pydict)
    : Budget * DB :=
  let budget :=
    mkBudget (py_int (next_id db))
             (PStr user_id)
             (dict_get budget_data "category")
             (dict_get budget_data "amount")
             (dict_get budget_data "period")
             (dict_get budget_data "notes") in
  (budget, with_budgets db (budgets db ++ [budget]) (S (next_id db))).

(** [query.filter(Transaction.id == transaction_id).first()]. *)
Definition find_transaction (db : DB) (transaction_id : Z) : option Transaction :=
  head (filter (fun t => sql_eqb (t_id t) (PNum (inject_Z transaction_id)) = true)
               (transactions db)).

Definition find_budget (db : DB) (budget_id : Z) : option Budget :=
  head (filter (fun b => sql_eqb (b_id b) (PNum (inject_Z budget_id)) = true)
               (budgets db)).

(** The functions [delete_transaction], [delete_goal] and [delete_budget]
    of db_service (the session's [db.delete] has these names above). *)
Module DbService.

Definition delete_transaction (db : DB) (transaction_id : Z) : bool * DB :=
  match find_transaction db transaction_id with
  | None => (false, db)
  | Some transaction => (true, remove_transaction transaction db)
  end.

Definition delete_goal (db : DB) (goal_id : Z) : bool * DB :=
  match find_goal db goal_id with
  | None => (false, db)
  | Some goal => (true, remove_goal goal db)
  end.

Definition delete_budget (db : DB) (budget_id : Z) : bool * DB :=
  match find_budget db budget_id with
  | None => (false, db)
  | Some budget => (true, remove_budget budget db)
  end.

End DbService.

(** ** Balance and summary *)

(** [sum(transaction.amount for transaction in rows)]: the additions start
    from 0; [None] is the [TypeError] of an amount that is not a number. *)
Fixpoint sum_from (acc : Q) (amounts : list pyval) : option Q :=
  match amounts with
  | [] => Some acc
  | a :: amounts' =>
      match as_num a with
      | None => None
      | Some q => sum_from (acc + q) amounts'
      end
  end.

Definition sum_amounts (rows : list Transaction) : option Q :=
  sum_from 0 (map t_amount rows).

(** The user's rows of one type. *)
Definition typed_transactions (db : DB) (user_id type : string) : list Transaction :=
  filter (fun t => sql_eqb (t_user_id t) (PStr user_id)
                   && sql_eqb (t_type t) (PStr type) = true)
         (transactions db).

(** The user's rows of one type dated in the month. *)
Definition monthly_transactions (db : DB) (user_id type current_month : string)
    : list Transaction :=
  filter (fun t => sql_eqb (t_user_id t) (PStr user_id)
                   && sql_eqb (t_type t) (PStr type)
                   && sql_like_prefix current_month (t_date t) = true)
         (transactions db).

Definition calculate_balance (db : DB) (user_id : string) : option Q :=
  total_income ← sum_amounts (typed_transactions db user_id "income");
  total_expenses ← sum_amounts (typed_transactions db user_id "expense");
  Some (total_income - total_expenses).

Record Summary : Type := mkSummary {
  sm_total_transactions : nat;
  sm_total_income : Q;
  sm_total_expenses : Q;
  sm_balance : Q;
  sm_monthly_income : Q;
  sm_monthly_expenses : Q;
  sm_savings_rate : Q
}.

(** [current_month] is [datetime.datetime.now().strftime("%Y-%m")]. *)
Definition get_transaction_summary (db : DB) (user_id current_month : string)
    : option Summary :=
  let total_transactions := length (get_transactions db user_id) in
  total_income ← sum_amounts (typed_transactions db user_id "income");
  total_expenses ← sum_amounts (typed_transactions db user_id "expense");
  let balance := total_income - total_expenses in
  monthly_income ← sum_amounts (monthly_transactions db user_id "income" current_month);
  monthly_expenses ← sum_amounts (monthly_transactions db user_id "expense" current_month);
  let savings_rate :=
    if Qltb 0 monthly_income
    then py_max0 ((monthly_income - monthly_expenses) / monthly_income)
    else 0 in
  Some (mkSummary total_transactions total_income total_expenses balance
                  monthly_income monthly_expenses savings_rate).

(** ** Spending by category, by day and by month *)

(** [if start_date: query = query.filter(Transaction.date >= start_date)]:
    a bound that is None or empty is not applied; the comparison is the
    one of strings, and a NULL date satisfies none. *)
Definition date_from (start_date : option string) (a : pyval) : bool :=
  match start_date with
  | None => true
  | Some start =>
      if String.eqb start "" then true
      else match a with
           | PStr s => String.leb start s
           | _ => false
           end
  end.

Definition date_until (end_date : option string) (a : pyval) : bool :=
  match end_date with
  | None => true
  | Some stop =>
      if String.eqb stop "" then true
      else match a with
           | PStr s => String.leb s stop
           | _ => false
           end
  end.

(** The user's expenses within the bounds. *)
Definition expenses_between (db : DB) (user_id : string)
    (start_date end_date : option string) : list Transaction :=
  filter (fun t => sql_eqb (t_user_id t) (PStr user_id)
                   && sql_eqb (t_type t) (PStr "expense")
                   && date_from start_date (t_date t)
                   && date_until end_date (t_date t) = true)
         (transactions db).

(** The body the three grouping loops share:
    [if key not in d: d[key] = 0] and [d[key] += amount]. *)
Definition add_to_key (d : list (pyval * Q)) (key amount : pyval)
    : option (list (pyval * Q)) :=
  let d :=
    match spending_get d key with
    | None => spending_set d key 0
    | Some _ => d
    end in
  match as_num amount with
  | None => None
  | Some a =>
      let current :=
        match spending_get d key with
        | Some v => v
        | None => 0
        end in
      Some (spending_set d key (current + a))
  end.

(** The loop over the rows; [key] is what the loop groups by, [None] when
    taking it raises. *)
Fixpoint spending_by_key (key : Transaction -> option pyval)
    (d : list (pyval * Q)) (txns : list Transaction) : option (list (pyval * Q)) :=
  match txns with
  | [] => Some d
  | t :: txns' =>
      match key t with
      | None => None
      | Some k =>
          match add_to_key d k (t_amount t) with
          | None => None
          | Some d' => spending_by_key key d' txns'
          end
      end
  end.

Definition get_category_spending (db : DB) (user_id : string)
    (start_date end_date : option string) : option (list (pyval * Q)) :=
  spending_by_key (fun t => Some (t_category t)) []
                  (expenses_between db user_id start_date end_date).

Definition get_daily_spending (db : DB) (user_id : string)
    (start_date end_date : option string) : option (list (pyval * Q)) :=
  spending_by_key (fun t => Some (t_date t)) []
                  (expenses_between db user_id start_date end_date).

(** [transaction.date[:7]]: a date that is not a string cannot be
    sliced. *)
Definition month_of (a : pyval) : option pyval :=
  match a with
  | PStr s => Some (PStr (String.substring 0 7 s))
  | _ => None
  end.

(** [if year: query = query.filter(Transaction.date.like(f"{year}-%"))]. *)
Definition year_like (year : option Z) (a : pyval) : bool :=
  match year with
  | None => true
  | Some y =>
      if (y =? 0)%Z then true
      else sql_like_prefix (NilZero.string_of_int (Z.to_int y) ++ "-") a
  end.

Definition get_monthly_spending (db : DB) (user_id : string) (year : option Z)
    : option (list (pyval * Q)) :=
  spending_by_key (fun t => month_of (t_date t)) []
    (filter (fun t => sql_eqb (t_user_id t) (PStr user_id)
                      && sql_eqb (t_type t) (PStr "expense")
                      && year_like year (t_date t) = true)
            (transactions db)).

(** * Further operations of the agent *)

(** What a call to the hosted model gives: its answer, or the text
    [str(e)] of the exception it raises. *)
Inductive answered (A : Type) : Type :=
  | Answer (a : A)
  | Raised (error_msg : string).

Arguments Answer {A} a.
Arguments Raised {A} error_msg.

(** [sub in s] on strings. *)
Fixpoint contains (sub s : string) : bool :=
  String.prefix sub s ||
  match s with
  | EmptyString => false
  | String _ s' => contains sub s'
  end.

(** The test of the three [except] branches on [error_msg]. *)
Definition quota_error (error_msg : string) : bool :=
  contains "quota" (lower error_msg) ||
  contains "insufficient_quota" (lower error_msg).

(** What [get_insights] and [answer_question] return: the agent's answer,
    or a dictionary of strings. *)
Inductive reply (A : Type) : Type :=
  | Reply (a : A)
  | Fields (d : list (string * string)).

Arguments Reply {A} a.
Arguments Fields {A} d.

Section Insights.

Context {Insights Answer' : Type}.

(** [get_financial_insights] and [answer_query] of the agents' module. *)
Variable get_financial_insights : string -> string -> answered Insights.
Variable answer_query : string -> string -> answered Answer'.

Definition get_insights (user_id : option string) (time_period : string)
    : reply Insights :=
  match user_id with
  | None | Some "" => Fields [("error", "User not set")]
  | Some user_id =>
      match get_financial_insights user_id time_period with
      | Answer a => Reply a
      | Raised error_msg =>
          if quota_error error_msg then
            Fields [("error", "API_QUOTA_EXCEEDED");
                    ("message", "AI insights are currently unavailable due to OpenAI API quota limitations. Please check your OpenAI API plan, billing details, or try again later.")]
          else
            Fields [("error", "AI_UNAVAILABLE");
                    ("message", "AI insights are currently unavailable. Please try again later.")]
      end
  end.

Definition answer_question (user_id : option string) (query : string)
    : reply Answer' :=
  match user_id with
  | None | Some "" => Fields [("error", "User not set")]
  | Some user_id =>
      match answer_query user_id query with
      | Answer a => Reply a
      | Raised error_msg =>
          if quota_error error_msg then
            Fields [("error", "API_QUOTA_EXCEEDED");
                    ("message", "AI features are currently unavailable due to OpenAI API quota limitations. Please check your OpenAI API plan, billing details, or try again later.");
                    ("answer", "I'm sorry, but I can't process your question right now due to API limitations. Please try again later.")]
          else
            Fields [("error", "AI_UNAVAILABLE");
                    ("message", "AI features are currently unavailable. Please try again later.");
                    ("answer", "I'm sorry, but I can't process your question right now. Please try again later.")]
      end
  end.

End Insights.

(** ** The fallback of [get_financial_summary] *)

Record FinancialSummary : Type := mkFinancialSummary {
  fs_total_income : Q;
  fs_total_expenses : Q;
  fs_net_cash_flow : Q;
  fs_top_expense_categories : list (string * Q);
  fs_summary_text : string
}.

(** [t.get("type", "").lower() == ty]. *)
Definition has_type (ty : string) (t : txn_dict) : bool :=
  String.eqb (lower (d_type t)) ty.

(** The body of the loop over the expenses: a category seen for the first
    time enters [category_expenses] with 0, at the end, and the amount is
    added to the category's entry. *)
Fixpoint category_add (category_expenses : list (string * Q)) (category : string)
    (amount : Q) : list (string * Q) :=
  match category_expenses with
  | [] => [(category, 0 + amount)]
  | (c, a) :: rest =>
      if String.eqb c category then (c, a + amount) :: rest
      else (c, a) :: category_add rest category amount
  end.

Definition category_expenses (txn_dicts : list txn_dict) : list (string * Q) :=
  fold_left (fun acc txn =>
               if has_type "expense" txn
               then category_add acc (d_category txn) (d_amount txn)
               else acc)
            txn_dicts [].

(** [sorted(l, key=..., reverse=True)]: descending and stable, the keys
    compared as numbers. *)
Fixpoint insert_desc {A} (key : A -> Q) (x : A) (l : list A) : list A :=
  match l with
  | [] => [x]
  | y :: l' =>
      if Qle_bool (key y) (key x) then x :: y :: l'
      else y :: insert_desc key x l'
  end.

Fixpoint sorted_desc {A} (key : A -> Q) (l : list A) : list A :=
  match l with
  | [] => []
  | x :: l' => insert_desc key x (sorted_desc key l')
  end.

Definition total_of_type (ty : string) (txn_dicts : list txn_dict) : Q :=
  py_sum (map d_amount (filter (fun t => has_type ty t = true) txn_dicts)).

Definition fallback_summary (error_msg : string) (txn_dicts : list txn_dict)
    : FinancialSummary :=
  let total_income := total_of_type "income" txn_dicts in
  let total_expenses := total_of_type "expense" txn_dicts in
  let net_cash_flow := total_income - total_expenses in
  let top_categories := take 5 (sorted_desc snd (category_expenses txn_dicts)) in
  let fallback_message :=
    if quota_error error_msg
    then "AI-powered insights are currently unavailable due to API quota limitations. Basic financial summary is shown instead."
    else "AI-powered insights are currently unavailable. Basic financial summary is shown instead." in
  mkFinancialSummary total_income total_expenses net_cash_flow top_categories
                     fallback_message.

Section Summary.

(** [ai_agents.get_financial_summary]. *)
Variable ai_get_financial_summary : list txn_dict -> answered FinancialSummary.

(** [txn_dicts] are the user's transactions as dictionaries. *)
Definition get_financial_summary (user_id : option string)
    (txn_dicts : list txn_dict) : FinancialSummary :=
  match user_id with
  | None | Some "" => mkFinancialSummary 0 0 0 [] "No user selected."
  | Some _ =>
      match ai_get_financial_summary txn_dicts with
      | Answer summary => summary
      | Raised error_msg => fallback_summary error_msg txn_dicts
      end
  end.

End Summary.

(** * The properties' vocabulary *)

Local Close Scope Z_scope.

(** The [type] of a row is one of the two the data model names. *)
Definition income_or_expense (t : Transaction) : Prop :=
  t_type t = PStr "income" \/ t_type t = PStr "expense".

(** The amount of a row as a number. *)
Definition amount_of (t : Transaction) : Q :=
  match t_amount t with
  | PNum q => q
  | _ => 0
  end.

(** Whether a transaction counts for a budget: every transaction for an
    "All Categories" budget, those of the budget's own category
    otherwise. *)
Definition in_budget_scope (b : Budget) (t : Transaction) : bool :=
  py_eqb (b_category b) (PStr "All Categories") || py_eqb (t_category t) (b_category b).

(** What the user spent against a budget in the month: the sum of the
    amounts of the user's expense transactions dated in the month that
    count for the budget. *)
Definition spent_in_month (db : DB) (user_id current_month : string) (b : Budget) : Q :=
  py_sum (map amount_of
              (filter (fun t => in_budget_scope b t = true)
                      (month_expenses db user_id current_month))).

(** The entry of a category in the spending dictionary, 0 when it has
    none. *)
Definition spending_of (d : list (pyval * Q)) (k : pyval) : Q :=
  match spending_get d k with
  | Some v => v
  | None => 0
  end.

Definition is_num (a : pyval) : bool :=
  match a with
  | PNum _ => true
  | _ => false
  end.

(** The amounts [check_budget_status] computes with are numbers: those of
    the user's expense transactions of the month and of the user's
    budgets. *)
Definition amounts_are_numbers (db : DB) (user_id current_month : string) : bool :=
  forallb (fun t => is_num (t_amount t)) (month_expenses db user_id current_month)
  && forallb (fun b => is_num (b_amount b)) (user_budgets db user_id).

(** *** Budget status on binary64 *)

Module Binary64Terms.

Import Binary64.
Local Open Scope float_scope.

(** The amount of a row as a float. *)
Definition amount_of (t : Transaction) : float :=
  match t_amount t with
  | Some x => x
  | None => 0
  end.

(** Whether a transaction counts for a budget: every transaction for an
    "All Categories" budget, those of the budget's own category
    otherwise. *)
Definition in_budget_scope (b : Budget) (t : Transaction) : bool :=
  py_eqb (b_category b) (PStr "All Categories") || py_eqb (t_category t) (b_category b).

(** What the user spent against a budget in the month: the amounts of the
    user's expense transactions dated in the month that count for the
    budget, added from 0 in the order of the rows. *)
Definition spent_in_month (db : DB) (user_id current_month : string) (b : Budget)
    : float :=
  fold_left PrimFloat.add
            (map amount_of
                 (filter (fun t => in_budget_scope b t = true)
                         (month_expenses db user_id current_month)))
            0.

(** The entry of a category in the spending dictionary, 0 when it has
    none. *)
Definition spending_of (d : list (pyval * float)) (k : pyval) : float :=
  match spending_get d k with
  | Some v => v
  | None => 0
  end.

(** The amounts [check_budget_status] computes with are not None: those
    of the user's expense transactions of the month and of the user's
    budgets. *)
Definition amounts_present (db : DB) (user_id current_month : string) : bool :=
  forallb (fun t => match t_amount t with Some _ => true | None => false end)
          (month_expenses db user_id current_month)
  && forallb (fun b => match b_amount b with Some _ => true | None => false end)
             (user_budgets db user_id).

(** Sample data: 8.1 spent on food against 10.8, 0.1 and 0.7 on travel
    against 0.8, and a budget of 9 for all categories. *)
Definition sample_expense (category : string) (amount : float) : Transaction :=
  mkTransaction (PStr "u1") (PStr "expense") (PStr "2024-03-05") (PStr category)
                (Some amount).

Definition sample_limit (id : nat) (category : string) (amount : float) : Budget :=
  mkBudget (py_int id) (PStr "u1") (PStr category) (Some amount) (PStr "monthly").

Definition sample_db : DB :=
  mkDB [ sample_expense "Food" 8.1; sample_expense "Travel" 0.1;
         sample_expense "Travel" 0.7 ]
       [ sample_limit 1 "Food" 10.8; sample_limit 2 "Travel" 0.8;
         sample_limit 3 "All Categories" 9; sample_limit 4 "Rent" 0 ].

End Binary64Terms.

(** *** Predictions *)

(** Two transactions of one group as the fallback forms them: the same
    key, built from the description in lower case, the category and the
    type. *)
Definition share_key (a b : txn_dict) : bool :=
  String.eqb (group_key a) (group_key b).

(** Two transactions with the same description, category and type. *)
Definition share_fields (a b : txn_dict) : bool :=
  String.eqb (d_description a) (d_description b)
  && String.eqb (d_category a) (d_category b)
  && String.eqb (d_type a) (d_type b).

(** The predictions are in ascending order of their date. *)
Definition date_leb (p q : prediction) : Prop :=
  String.leb (p_predicted_date p) (p_predicted_date q) = true.

(** The average gap, in days, between the dates of a group taken in the
    order of their strings. *)
Definition average_gap (dates : list Z) : Q :=
  average (inject_Z (Zsum (day_diffs dates))) (length (day_diffs dates)).

(** A prediction comes from a group of the transactions: the transactions
    that [share] with a first one are at least two, their dates at least
    two with an average gap of 25 to 35 days; the amount is the mean of the
    group's amounts (their sum, added in the order the code adds them, over
    their number), the date thirty days after the group's last date and
    after today, the confidence 0.6.  The group's dates are taken in the
    order the code takes them, that of the date strings. *)
Definition explains (share : txn_dict -> txn_dict -> bool) (today : Z)
    (txns : list txn_dict) (p : prediction) : Prop :=
  exists first : txn_dict,
    first ∈ txns /\
    let g := filter (fun t => share first t = true) txns in
    let dates := parse_dates (sorted_by d_date g) in
    p_description p = d_description first /\
    p_category p = d_category first /\
    p_type p = d_type first /\
    (2 <= length g)%nat /\
    (2 <= length dates)%nat /\
    25 <= average_gap dates /\ average_gap dates <= 35 /\
    p_amount p = average (py_sum (map d_amount (sorted_by d_date g))) (length g) /\
    p_predicted_date p = strftime (List.last dates 0%Z + 30)%Z /\
    (today < List.last dates 0%Z + 30)%Z /\
    p_confidence p = 6 # 10.

(** The ordinal of 1000-01-01: from that day on [strftime("%Y-%m-%d")]
    writes a year of four digits on every platform. *)
Definition year_1000 : Z := ymd2ord 1000 1 1.

(** Text of ASCII characters. *)
Definition is_ascii (s : string) : bool :=
  forallb (fun c => (nat_of_ascii c <? 128)%nat) (list_ascii_of_string s).

(** The text of the transactions is ASCII. *)
Definition ascii_text (txns : list txn_dict) : bool :=
  forallb (fun t => is_ascii (d_description t) && is_ascii (d_category t)
                    && is_ascii (d_type t) && is_ascii (d_date t)) txns.

(** No date of the transactions is within thirty days of the last day of
    the calendar (the addition of thirty days does not overflow). *)
Definition dates_in_range (txns : list txn_dict) : bool :=
  forallb (fun t => match strptime (d_date t) with
                    | Some d => (d + 30 <=? max_ordinal)%Z
                    | None => true
                    end) txns.

(** What the grouping loop maintains: every entry of [recurring] holds the
    transactions seen so far that have its key, in their order, and their
    count; every transaction seen has an entry; no key occurs twice. *)
Definition grouped (recurring : list (string * group)) (seen : list txn_dict) : Prop :=
  NoDup recurring.*1 /\
  (forall t, t ∈ seen -> group_key t ∈ recurring.*1) /\
  (forall k g, (k, g) ∈ recurring ->
     gr_transactions g = filter (fun t => String.eqb k (group_key t) = true) seen /\
     gr_count g = length (gr_transactions g) /\
     exists first, head (gr_transactions g) = Some first /\
                   group_key first = k /\
                   gr_description g = d_description first /\
                   gr_category g = d_category first /\
                   gr_type g = d_type first).

(** *** Resetting: stages, logs and triples *)

Local Open Scope nat_scope.

(** The place of a call in the order of [reset_user_data]. *)
Definition phase (e : event) : nat :=
  match e with
  | EBegin => 0
  | EDeleteVector _ => 1
  | EDeleteAnalysis _ => 2
  | EDeleteTransaction _ => 3
  | EDeleteGoal _ => 4
  | EDeleteBudget _ => 5
  | ECommit => 6
  | ERollback => 7
  | EClose => 8
  end.

Definition in_order (a b : event) : Prop := phase a <= phase b.

(** A log whose calls came in order, none later than phase [k]. *)
Definition log_upto (k : nat) (lg : list event) : Prop :=
  StronglySorted in_order lg /\ Forall (fun e => phase e <= k) lg.

(** The session after one more call. *)
Definition bump (s : Session) : Session :=
  mkSession (committed s) (working s) (log s) (S (calls s)).

(** The session's view after each loop of deletions. *)
Definition after_vectors (db : DB) (u : string) : DB :=
  fold_left (fun d x => remove_vector x d) (vectors_of db u) db.
Definition after_analyses (db : DB) (u : string) : DB :=
  let w := after_vectors db u in
  fold_left (fun d x => remove_analysis x d) (analyses_of w u) w.
Definition after_transactions (db : DB) (u : string) : DB :=
  let w := after_analyses db u in
  fold_left (fun d x => remove_transaction x d) (transactions_of w u) w.
Definition after_goals (db : DB) (u : string) : DB :=
  let w := after_transactions db u in
  fold_left (fun d x => remove_goal x d) (goals_of w u) w.
Definition after_budgets (db : DB) (u : string) : DB :=
  let w := after_goals db u in
  fold_left (fun d x => remove_budget x d) (budgets_of w u) w.

(** The log of a run in which no call raises, up to the commit. *)
Definition reset_log (db : DB) (u : string) : list event :=
  ((((([EBegin]
   ++ map EDeleteVector (vectors_of db u))
   ++ map EDeleteAnalysis (analyses_of (after_vectors db u) u))
   ++ map EDeleteTransaction (transactions_of (after_analyses db u) u))
   ++ map EDeleteGoal (goals_of (after_transactions db u) u))
   ++ map EDeleteBudget (budgets_of (after_goals db u) u))
   ++ [ECommit].

(** The number of calls of such a run: [begin], five queries, the
    deletions and [commit]. *)
Definition reset_calls (db : DB) (u : string) : nat :=
  S (((((S (S (S (S (S (S 0
    + length (vectors_of db u)))
    + length (analyses_of (after_vectors db u) u)))
    + length (transactions_of (after_analyses db u) u)))
    + length (goals_of (after_transactions db u) u)))
    + length (budgets_of (after_goals db u) u))).

(** No row of the user is left. *)
Definition no_user_rows (db0 db : DB) (u : string) : Prop :=
  (forall v, v ∈ vector_transactions db -> refers_to_user db0 u v = false) /\
  (forall a, a ∈ financial_analyses db -> a_user_id a <> PStr u) /\
  (forall t, t ∈ transactions db -> t_user_id t <> PStr u) /\
  (forall g, g ∈ goals db -> g_user_id g <> PStr u) /\
  (forall b, b ∈ budgets db -> b_user_id b <> PStr u).

(** A triple for a computation on the session: from a state satisfying
    [P], an answer [a] leaves a state satisfying [Q a] and an exception a
    state satisfying [E]. *)
Definition hoare {A} (P : Session -> Prop) (m : SessionM.M A)
    (Q : A -> Session -> Prop) (E : Session -> Prop) : Prop :=
  forall s, P s ->
    match m s with
    | (Ok a, s') => Q a s'
    | (Raise, s') => E s'
    end.

(** The state of a run that started on [db0] and in which no call has
    raised so far. *)
Definition at_stage (raises : nat -> bool) (db0 : DB) (k : nat) (w : DB)
    (lg : list event) (n : nat) (s : Session) : Prop :=
  committed s = db0 /\ working s = w /\ log s = lg /\ calls s = n /\
  (forall i, i < n -> raises i = false) /\ log_upto k lg.

(** The state in which the [try] block is left by an exception: one of
    the first [N] calls raised, nothing was committed, and the calls made
    are the first calls of the complete run, whose log is [L]. *)
Definition failed (raises : nat -> bool) (db0 : DB) (N : nat) (L : list event)
    (s : Session) : Prop :=
  committed s = db0 /\ log_upto 5 (log s) /\ (exists i, i < N /\ raises i = true) /\
  log s `prefix_of` L.

(** The state in which the [try] block ends without an exception. *)
Definition committed_stage (raises : nat -> bool) (db0 : DB) (u : string)
    (s : Session) : Prop :=
  committed s = after_budgets db0 u /\ log s = reset_log db0 u /\
  calls s = reset_calls db0 u /\
  (forall i, i < reset_calls db0 u -> raises i = false) /\
  log_upto 6 (log s).

Local Open Scope Q_scope.

(** Sample data. *)
Definition rent_january : txn_dict := mkTxn "Rent" 1000 "Housing" "expense" "2024-01-01".
Definition rent_february : txn_dict := mkTxn "rent" 1100 "Housing" "expense" "2024-01-31".
Definition gym_january : txn_dict := mkTxn "Gym" 30 "Health" "expense" "2024-01-10".
Definition gym_february : txn_dict := mkTxn "Gym" 30 "Health" "expense" "2024-02-09".
(** The ordinal of 2024-02-14. *)
Definition sample_today : Z := 738930.

Definition sample_reset_db : DB :=
  mkDB [] []
       [ mkTransaction (py_int 1) (PStr "u1") (PStr "2024-03-05") (PStr "lunch")
                       (PNum 12) (PStr "expense") (PStr "Food") PNone;
         mkTransaction (py_int 2) (PStr "u2") (PStr "2024-03-06") (PStr "bus")
                       (PNum 3) (PStr "expense") (PStr "Travel") PNone ]
       [ mkGoal (py_int 3) (PStr "u1") (PStr "Laptop") (PNum 900) (PNum 100)
                PNone PNone PNone ]
       [ mkBudget (py_int 4) (PStr "u1") (PStr "Food") (PNum 200) (PStr "monthly") PNone;
         mkBudget (py_int 5) (PStr "u2") (PStr "Food") (PNum 150) (PStr "monthly") PNone ]
       [ mkVectorTransaction (py_int 6) (py_int 1);
         mkVectorTransaction (py_int 7) (py_int 2) ]
       [ mkFinancialAnalysis (py_int 8) (PStr "u1") (PStr "summary") (PStr "ok") PNone ]
       9.

Definition sample_txn (id : nat) (user date : string) (amount : Q)
    (type category : string) : Transaction :=
  mkTransaction (py_int id) (PStr user) (PStr date) (PStr "purchase")
                (PNum amount) (PStr type) (PStr category) PNone.

Definition sample_budget (id : nat) (user category : string) (amount : Q) : Budget :=
  mkBudget (py_int id) (PStr user) (PStr category) (PNum amount) (PStr "monthly") PNone.

Definition sample_budget_db : DB :=
  mkDB [] []
       [ sample_txn 1 "u1" "2024-03-05" 80 "expense" "Food";
         sample_txn 2 "u1" "2024-03-09" 40 "expense" "Travel";
         sample_txn 3 "u1" "2024-02-20" 500 "expense" "Food";
         sample_txn 4 "u1" "2024-03-10" 1000 "income" "Salary";
         sample_txn 5 "u2" "2024-03-11" 70 "expense" "Food" ]
       []
       [ sample_budget 6 "u1" "Food" 100;
         sample_budget 7 "u1" "All Categories" 100;
         sample_budget 8 "u1" "Travel" 0;
         sample_budget 9 "u2" "Food" 10 ]
       [] [] 10.

Definition sample_goal_data : pydict :=
  {[ "name" := PStr "Laptop"; "target_amount" := PNum 100; "current_amount" := PNum 10 ]}.
Definition sample_goal_db : DB := snd (create_goal empty_db "u1" sample_goal_data).
Definition sample_goal_update : pydict := {[ "current_amount" := PNum 500 ]}.

(** *** Further operations *)

(** The columns of a goal that [setattr] writes. *)
Definition goal_columns : list string :=
  ["id"; "user_id"; "name"; "target_amount"; "current_amount"; "deadline";
   "category"; "notes"].

(** The goal with the column [key], if it is one, set to [value]. *)
Definition store_column (goal : Goal) (key : string) (value : pyval) : Goal :=
  if String.eqb key "id" then
    mkGoal value (g_user_id goal) (g_name goal) (g_target_amount goal)
           (g_current_amount goal) (g_deadline goal) (g_category goal) (g_notes goal)
  else if String.eqb key "user_id" then
    mkGoal (g_id goal) value (g_name goal) (g_target_amount goal)
           (g_current_amount goal) (g_deadline goal) (g_category goal) (g_notes goal)
  else if String.eqb key "name" then
    mkGoal (g_id goal) (g_user_id goal) value (g_target_amount goal)
           (g_current_amount goal) (g_deadline goal) (g_category goal) (g_notes goal)
  else if String.eqb key "target_amount" then
    mkGoal (g_id goal) (g_user_id goal) (g_name goal) value
           (g_current_amount goal) (g_deadline goal) (g_category goal) (g_notes goal)
  else if String.eqb key "current_amount" then
    mkGoal (g_id goal) (g_user_id goal) (g_name goal) (g_target_amount goal)
           value (g_deadline goal) (g_category goal) (g_notes goal)
  else if String.eqb key "deadline" then
    mkGoal (g_id goal) (g_user_id goal) (g_name goal) (g_target_amount goal)
           (g_current_amount goal) value (g_category goal) (g_notes goal)
  else if String.eqb key "category" then
    mkGoal (g_id goal) (g_user_id goal) (g_name goal) (g_target_amount goal)
           (g_current_amount goal) (g_deadline goal) value (g_notes goal)
  else if String.eqb key "notes" then
    mkGoal (g_id goal) (g_user_id goal) (g_name goal) (g_target_amount goal)
           (g_current_amount goal) (g_deadline goal) (g_category goal) value
  else goal.

(** The goal after the assignments of a payload none of which raises. *)
Definition store_fields (goal : Goal) (items : list (string * pyval)) : Goal :=
  fold_left (fun g kv => store_column g (fst kv) (snd kv)) items goal.

(** The payload has no key whose assignment raises. *)
Definition assignable (setattr_raises : string -> pyval -> bool)
    (goal_data : pydict) : Prop :=
  forall k x, goal_data !! k = Some x -> k ∉ goal_columns -> setattr_raises k x = false.

(** The payload has a key whose assignment raises. *)
Definition refused (setattr_raises : string -> pyval -> bool)
    (goal_data : pydict) : Prop :=
  exists k x, goal_data !! k = Some x /\ (k ∉ goal_columns) /\ setattr_raises k x = true.

(** Assigning to [__class__] raises, whatever the value. *)
Definition class_is_fixed (key : string) (value : pyval) : bool :=
  String.eqb key "__class__".

Definition sample_class_update : pydict :=
  {[ "__class__" := PNone; "current_amount" := PNum 500 ]}.

(** The value of a goal's column. *)
Definition goal_column (g : Goal) (k : string) : pyval :=
  if String.eqb k "id" then g_id g
  else if String.eqb k "user_id" then g_user_id g
  else if String.eqb k "name" then g_name g
  else if String.eqb k "target_amount" then g_target_amount g
  else if String.eqb k "current_amount" then g_current_amount g
  else if String.eqb k "deadline" then g_deadline g
  else if String.eqb k "category" then g_category g
  else if String.eqb k "notes" then g_notes g
  else PNone.

(** Sample data. *)
Definition sample_move_update : pydict := {[ "user_id" := PStr "u2" ]}.

Definition sample_salary : pydict :=
  {[ "amount" := PNum 1000; "type" := PStr "income"; "date" := PStr "2024-03-01" ]}.

(** Whether the key a loop takes from a row is the key [c]. *)
Definition has_key (key : Transaction -> option pyval) (c : pyval) (t : Transaction)
    : bool :=
  match key t with
  | Some k => py_eqb k c
  | None => false
  end.

(** The amounts a dictionary of spendings holds, added up. *)
Definition total_of (d : list (pyval * Q)) : Q := py_sum (map snd d).

(** Whether a row is dated in the month [m]: its date is a string whose
    first seven characters are [m]. *)
Definition dated_in_month (m : string) (t : Transaction) : bool :=
  match t_date t with
  | PStr s => String.eqb (String.substring 0 7 s) m
  | _ => false
  end.

(** The user's expenses that the query of [get_monthly_spending] selects. *)
Definition expenses_of_year (db : DB) (user_id : string) (year : option Z)
    : list Transaction :=
  filter (fun t => sql_eqb (t_user_id t) (PStr user_id)
                   && sql_eqb (t_type t) (PStr "expense")
                   && year_like year (t_date t) = true)
         (transactions db).

(** Sample data. *)
Definition sample_travel_budget : pydict :=
  {[ "category" := PStr "Travel"; "amount" := PNum 40; "period" := PStr "monthly" ]}.

(** ** The agent's summary *)

(** The expenses of a category among the dictionaries, the type compared
    without regard to letter case, and what they add up to. *)
Definition expenses_of_category (category : string) (txn_dicts : list txn_dict)
    : list txn_dict :=
  filter (fun t => has_type "expense" t = true /\ d_category t = category) txn_dicts.

Definition spent_on (category : string) (txn_dicts : list txn_dict) : Q :=
  py_sum (map d_amount (expenses_of_category category txn_dicts)).

(** [category_expenses.get(category)]. *)
Fixpoint category_get (category_expenses : list (string * Q)) (category : string)
    : option Q :=
  match category_expenses with
  | [] => None
  | (c, a) :: rest =>
      if String.eqb c category then Some a else category_get rest category
  end.

(** More by the same amount is listed before less. *)
Definition by_amount_desc (x y : string * Q) : Prop := snd y <= snd x.

Definition sample_dicts : list txn_dict :=
  [ mkTxn "Rent" 900 "Housing" "expense" "2024-01-01";
    mkTxn "Salary" 2500 "Salary" "income" "2024-01-02";
    mkTxn "Bread" 4 "Food" "Expense" "2024-01-03";
    mkTxn "Milk" 2 "Food" "expense" "2024-01-04" ].

Definition quota_text : string := "Error code: 429 - insufficient_QUOTA".

(** * Properties *)

(** ** Values and filters *)

Lemma sql_eqb_str (a : pyval) (s : string) :
  sql_eqb a (PStr s) = true <-> a = PStr s.
Proof.
  destruct a as [|t|q]; simpl; split; try discriminate.
  - intros H. apply String.eqb_eq in H. congruence.
  - intros H. inversion H. apply String.eqb_refl.
Qed.

Lemma py_eqb_str (a : pyval) (s : string) :
  py_eqb a (PStr s) = true <-> a = PStr s.
Proof.
  destruct a as [|t|q]; simpl; split; try discriminate.
  - intros H. apply String.eqb_eq in H. congruence.
  - intros H. inversion H. apply String.eqb_refl.
Qed.

(** ** Users *)

(** C10: the user [create_user] returns (and stores) carries the SHA-256
    hex digest of the password, so [verify_password] accepts the password
    against it; in general [verify_password h p] holds exactly when [h] is
    the digest of [p]. *)
Theorem verify_password_create_user
    (md5_hex sha256_hex : string -> string) (db : DB) (email password name : string) :
  let user := fst (create_user md5_hex sha256_hex db email password name) in
  let db' := snd (create_user md5_hex sha256_hex db email password name) in
  user ∈ users db' /\
  u_password_hash user = sha256_hex password /\
  verify_password sha256_hex (u_password_hash user) password = true /\
  (forall h p : string, verify_password sha256_hex h p = true <-> h = sha256_hex p).
Proof.
  simpl. repeat split.
  - apply elem_of_app. right. apply elem_of_cons. by left.
  - unfold verify_password. apply String.eqb_refl.
  - unfold verify_password. apply String.eqb_eq.
  - unfold verify_password. apply String.eqb_eq.
Qed.

(** ** Transactions *)

Lemma get_transactions_spec (db : DB) (u : string) (t : Transaction) :
  t ∈ get_transactions db u <-> t ∈ transactions db /\ t_user_id t = PStr u.
Proof.
  unfold get_transactions. rewrite list_elem_of_filter, sql_eqb_str. tauto.
Qed.

(** C7: [create_transaction user_id data] stores a transaction carrying
    that [user_id]; [get_transactions u] returns all and only the stored
    transactions whose [user_id] is [u], so no transaction is returned for
    two different users. *)
Theorem transaction_tied_to_one_user (db : DB) (user_id : string) (data : pydict) :
  let t := fst (create_transaction db user_id data) in
  let db' := snd (create_transaction db user_id data) in
  (t_user_id t = PStr user_id /\ t ∈ transactions db' /\ t ∈ get_transactions db' user_id) /\
  (forall (u : string) (x : Transaction),
      x ∈ get_transactions db u <-> x ∈ transactions db /\ t_user_id x = PStr u) /\
  (forall (u1 u2 : string) (x : Transaction),
      x ∈ get_transactions db u1 -> x ∈ get_transactions db u2 -> u1 = u2).
Proof.
  simpl. split; [split; [reflexivity | split] | split].
  - apply elem_of_app. right. apply elem_of_cons. by left.
  - apply get_transactions_spec. simpl. split; [| reflexivity].
    apply elem_of_app. right. apply elem_of_cons. by left.
  - intros u x. apply get_transactions_spec.
  - intros u1 u2 x H1 H2.
    apply get_transactions_spec in H1 as [_ H1].
    apply get_transactions_spec in H2 as [_ H2]. congruence.
Qed.

(** C6, as stated, fails: a payload whose type is "transfer" is stored
    with that type. *)
Lemma create_transaction_type_unchecked :
  let t := fst (create_transaction empty_db "u1" {[ "type" := PStr "transfer" ]}) in
  let db' := snd (create_transaction empty_db "u1" {[ "type" := PStr "transfer" ]}) in
  t ∈ transactions db' /\ ~ income_or_expense t.
Proof.
  simpl. split.
  - apply elem_of_cons. by left.
  - unfold income_or_expense. simpl. unfold dict_get.
    rewrite lookup_singleton_eq. intros [H | H]; discriminate H.
Qed.

(** C6, amended: [create_transaction] stores the payload's [type] as it
    is ([None] when the key is missing), so the stored transaction has
    type income or expense exactly when the payload has. *)
Theorem create_transaction_type_as_supplied (db : DB) (user_id : string) (data : pydict) :
  let t := fst (create_transaction db user_id data) in
  t_type t = dict_get data "type" /\
  (income_or_expense t <->
   data !! "type" = Some (PStr "income") \/ data !! "type" = Some (PStr "expense")).
Proof.
  simpl. split; [reflexivity |].
  unfold income_or_expense, dict_get. simpl.
  destruct (data !! "type") as [v|]; split; intros [H | H];
    try discriminate H; try (left; congruence); right; congruence.
Qed.

(** ** The categorization fallback *)

(** C5: whenever the external categorization call raises,
    [categorize_transaction] returns the string "Other" and raises
    nothing. *)
Theorem categorize_transaction_fallback
    (get_transaction_categorization : string -> outcome string) (description : string)
    (Hraise : get_transaction_categorization description = Raise) :
  categorize_transaction get_transaction_categorization description = Ok "Other".
Proof.
  unfold categorize_transaction. by rewrite Hraise.
Qed.

Lemma categorize_transaction_fallback_witness :
  (fun _ : string => @Raise string) "coffee" = Raise /\
  categorize_transaction (fun _ => Raise) "coffee" = Ok "Other".
Proof.
  split; [reflexivity |].
  apply (categorize_transaction_fallback (fun _ => Raise) "coffee"). reflexivity.
Defined.

(** ** Goals *)

Lemma store_column_other (g : Goal) (k : string) (v : pyval) :
  k <> "current_amount" -> g_current_amount (store_column g k v) = g_current_amount g.
Proof.
  intros Hk. unfold store_column.
  repeat (match goal with
          | |- context [String.eqb k ?c] =>
              destruct (String.eqb_spec k c); [try congruence; reflexivity |]
          end).
  reflexivity.
Qed.

Lemma store_column_current (g : Goal) (v : pyval) :
  g_current_amount (store_column g "current_amount" v) = v.
Proof. reflexivity. Qed.

Lemma store_fields_absent (items : list (string * pyval)) (g : Goal) :
  "current_amount" ∉ items.*1 ->
  g_current_amount (store_fields g items) = g_current_amount g.
Proof.
  revert g. induction items as [|[k v] items IH]; intros g Hnot; [reflexivity |].
  simpl in *. apply not_elem_of_cons in Hnot as [Hk Hnot].
  unfold store_fields in *. simpl. rewrite IH by assumption.
  apply store_column_other. congruence.
Qed.

Lemma store_fields_present (items : list (string * pyval)) (g : Goal) (v : pyval) :
  NoDup items.*1 -> ("current_amount", v) ∈ items ->
  g_current_amount (store_fields g items) = v.
Proof.
  revert g. induction items as [|[k w] items IH]; intros g Hnd Hin.
  - by apply elem_of_nil in Hin.
  - simpl in Hnd. apply NoDup_cons in Hnd as [Hfresh Hnd].
    apply elem_of_cons in Hin as [Heq | Hin].
    + inversion Heq; subst. unfold store_fields. simpl.
      change (fold_left _ items ?a) with (store_fields a items).
      rewrite store_fields_absent by assumption. reflexivity.
    + unfold store_fields in *. simpl. by apply IH.
Qed.

Lemma replace_first_elem (gid : Z) (new g : Goal) (gs : list Goal) :
  head (filter (fun g => sql_eqb (g_id g) (PNum (inject_Z gid)) = true) gs) = Some g ->
  new ∈ replace_first gid new gs.
Proof.
  induction gs as [|x gs IH]; simpl; [discriminate |].
  rewrite filter_cons. destruct (sql_eqb (g_id x) (PNum (inject_Z gid))) eqn:E.
  - intros _. apply elem_of_cons. by left.
  - rewrite decide_False by discriminate. intros H.
    apply elem_of_cons. right. by apply IH.
Qed.

Lemma store_column_other_key (g : Goal) (k : string) (v : pyval) :
  k ∉ goal_columns -> store_column g k v = g.
Proof.
  unfold goal_columns. rewrite !not_elem_of_cons. intros H.
  unfold store_column.
  repeat (match goal with
          | |- context [String.eqb k ?c] =>
              destruct (String.eqb_spec k c); [exfalso; tauto |]
          end).
  reflexivity.
Qed.

Section UpdateGoalFacts.

Variable setattr_raises : string -> pyval -> bool.

Lemma setattr_goal_column (g : Goal) (k : string) (v : pyval) :
  k ∈ goal_columns -> setattr_goal setattr_raises g k v = Some (store_column g k v).
Proof.
  unfold goal_columns. rewrite !elem_of_cons. intros H.
  unfold setattr_goal, store_column.
  repeat (match goal with
          | |- context [String.eqb k ?c] =>
              destruct (String.eqb_spec k c); [reflexivity |]
          end).
  exfalso. rewrite elem_of_nil in H. tauto.
Qed.

Lemma setattr_goal_other_key (g : Goal) (k : string) (v : pyval) :
  k ∉ goal_columns ->
  setattr_goal setattr_raises g k v = if setattr_raises k v then None else Some g.
Proof.
  unfold goal_columns. rewrite !not_elem_of_cons. intros H.
  unfold setattr_goal.
  repeat (match goal with
          | |- context [String.eqb k ?c] =>
              destruct (String.eqb_spec k c); [exfalso; tauto |]
          end).
  reflexivity.
Qed.

(** A payload no assignment of which raises is stored key by key. *)
Lemma update_fields_quiet (items : list (string * pyval)) (g : Goal) :
  (forall k x, (k, x) ∈ items -> k ∉ goal_columns -> setattr_raises k x = false) ->
  update_fields setattr_raises g items = Some (store_fields g items).
Proof.
  revert g. induction items as [|[k v] items IH]; intros g Hq; [reflexivity |].
  cbn [update_fields]. unfold store_fields. cbn [fold_left fst snd].
  change (fold_left _ items ?a) with (store_fields a items).
  destruct (decide (k ∈ goal_columns)) as [Hk | Hk].
  - rewrite setattr_goal_column by exact Hk.
    apply IH. intros k' x Hin. apply Hq, elem_of_cons. by right.
  - rewrite setattr_goal_other_key by exact Hk.
    rewrite (Hq k v) by (try exact Hk; apply elem_of_cons; by left).
    rewrite store_column_other_key by exact Hk.
    apply IH. intros k' x Hin. apply Hq, elem_of_cons. by right.
Qed.

(** One assignment that raises ends the loop with the exception. *)
Lemma update_fields_refused (items : list (string * pyval)) (g : Goal) :
  (exists k x, (k, x) ∈ items /\ (k ∉ goal_columns) /\ setattr_raises k x = true) ->
  update_fields setattr_raises g items = None.
Proof.
  revert g. induction items as [|[k v] items IH]; intros g (k' & x & Hin & Hk & Hr).
  - by apply elem_of_nil in Hin.
  - cbn [update_fields]. apply elem_of_cons in Hin as [Heq | Hin].
    + inversion Heq; subst. rewrite setattr_goal_other_key by exact Hk. by rewrite Hr.
    + destruct (setattr_goal setattr_raises g k v); [| reflexivity].
      apply IH. by exists k', x.
Qed.

Lemma assignable_items (goal_data : pydict) :
  assignable setattr_raises goal_data ->
  forall k x, (k, x) ∈ map_to_list goal_data -> k ∉ goal_columns ->
              setattr_raises k x = false.
Proof. intros Hq k x Hin. apply Hq. by apply elem_of_map_to_list. Qed.

Lemma refused_items (goal_data : pydict) :
  refused setattr_raises goal_data ->
  exists k x, (k, x) ∈ map_to_list goal_data /\ (k ∉ goal_columns) /\
              setattr_raises k x = true.
Proof.
  intros (k & x & Hin & Hk & Hr). exists k, x.
  split; [by apply elem_of_map_to_list | by split].
Qed.

End UpdateGoalFacts.

(** C2: a [current_amount] supplied in the payload is stored as it is by
    [create_goal] and by [update_goal], whatever the goal's
    [target_amount]; nothing clamps it.  [update_goal] stores it whenever
    no assignment of the payload raises; when one raises, the exception
    leaves the function and nothing of the payload is stored. *)
Theorem goal_current_amount_as_supplied
    (setattr_raises : string -> pyval -> bool)
    (db : DB) (user_id : string) (goal_id : Z) (goal_data : pydict) (v : pyval)
    (Hv : goal_data !! "current_amount" = Some v) :
  (let goal := fst (create_goal db user_id goal_data) in
   let db' := snd (create_goal db user_id goal_data) in
   goal ∈ goals db' /\ g_current_amount goal = v /\
   g_target_amount goal = dict_get goal_data "target_amount") /\
  (forall g : Goal, find_goal db goal_id = Some g ->
     let result := update_goal setattr_raises db goal_id goal_data in
     (assignable setattr_raises goal_data ->
      exists g' : Goal,
        fst result = Some (Some g') /\ g' ∈ goals (snd result) /\
        g_current_amount g' = v) /\
     (refused setattr_raises goal_data -> result = (None, db))).
Proof.
  split.
  - simpl. split; [| split; [| reflexivity]].
    + apply elem_of_app. right. apply elem_of_cons. by left.
    + unfold dict_get_default. by rewrite Hv.
  - intros g Hg result. subst result. unfold update_goal. rewrite Hg. split.
    + intros Hq. rewrite update_fields_quiet by (by apply assignable_items).
      cbn [fst snd]. eexists. split; [reflexivity |]. split.
      * simpl. eapply replace_first_elem. exact Hg.
      * apply store_fields_present.
        -- apply NoDup_fst_map_to_list.
        -- by apply elem_of_map_to_list.
    + intros Hr. by rewrite update_fields_refused by (by apply refused_items).
Qed.

Lemma goal_current_amount_as_supplied_witness :
  sample_goal_update !! "current_amount" = Some (PNum 500) /\
  find_goal sample_goal_db 1 = Some (fst (create_goal empty_db "u1" sample_goal_data)) /\
  assignable class_is_fixed sample_goal_update /\
  exists g' : Goal,
    fst (update_goal class_is_fixed sample_goal_db 1 sample_goal_update)
    = Some (Some g') /\
    g_current_amount g' = PNum 500 /\ g_target_amount g' = PNum 100.
Proof.
  assert (Hv : sample_goal_update !! "current_amount" = Some (PNum 500)) by reflexivity.
  assert (Hg : find_goal sample_goal_db 1
               = Some (fst (create_goal empty_db "u1" sample_goal_data))) by reflexivity.
  assert (Hq : assignable class_is_fixed sample_goal_update).
  { intros k x Hk _. unfold class_is_fixed.
    destruct (String.eqb_spec k "__class__") as [-> |]; [| reflexivity].
    vm_compute in Hk. discriminate. }
  split; [exact Hv | split; [exact Hg | split; [exact Hq |]]].
  destruct (goal_current_amount_as_supplied class_is_fixed sample_goal_db "u1" 1
              sample_goal_update (PNum 500) Hv) as [_ Hupd].
  destruct (Hupd _ Hg) as [Hstored _].
  destruct (Hstored Hq) as (g' & H1 & H2 & H3).
  exists g'. split; [exact H1 | split; [exact H3 |]].
  vm_compute in H1. injection H1 as <-. reflexivity.
Defined.

(** ** Budget status: the spending dictionary *)

Lemma py_eqb_refl (a : pyval) : py_eqb a a = true.
Proof.
  destruct a as [|s|q]; simpl; [reflexivity | apply String.eqb_refl |].
  apply Qeq_bool_iff. reflexivity.
Qed.

Lemma py_eqb_sym (a b : pyval) : py_eqb a b = py_eqb b a.
Proof.
  destruct a as [|s|q], b as [|t|r]; simpl; try reflexivity.
  - apply String.eqb_sym.
  - apply eq_true_iff_eq. rewrite !Qeq_bool_iff. split; intros H; by symmetry.
Qed.

Lemma py_eqb_trans (a b c : pyval) :
  py_eqb a b = true -> py_eqb b c = true -> py_eqb a c = true.
Proof.
  destruct a as [|s|q], b as [|t|r], c as [|u|v]; simpl; try discriminate; try reflexivity.
  - rewrite !String.eqb_eq. congruence.
  - rewrite !Qeq_bool_iff. intros H1 H2. by rewrite H1.
Qed.

Lemma py_eqb_compat (a b c : pyval) :
  py_eqb a b = true -> py_eqb a c = py_eqb b c.
Proof.
  intros Hab. destruct (py_eqb b c) eqn:Hbc.
  - eapply py_eqb_trans; eassumption.
  - destruct (py_eqb a c) eqn:Hac; [| reflexivity].
    rewrite <- Hbc. symmetry. eapply py_eqb_trans; [| exact Hac].
    by rewrite py_eqb_sym.
Qed.

Lemma spending_get_compat (d : list (pyval * Q)) (k c : pyval) :
  py_eqb k c = true -> spending_get d k = spending_get d c.
Proof.
  intros Hkc. induction d as [|[k' v'] d IH]; simpl; [reflexivity |].
  rewrite (py_eqb_sym k' k), (py_eqb_sym k' c), (py_eqb_compat k c k') by assumption.
  destruct (py_eqb c k'); [reflexivity | exact IH].
Qed.

Lemma spending_get_set_same (d : list (pyval * Q)) (k : pyval) (v : Q) :
  spending_get (spending_set d k v) k = Some v.
Proof.
  induction d as [|[k' v'] d IH]; simpl.
  - by rewrite py_eqb_refl.
  - destruct (py_eqb k' k) eqn:E; simpl; rewrite E; [reflexivity | exact IH].
Qed.

Lemma spending_get_set_other (d : list (pyval * Q)) (k c : pyval) (v : Q) :
  py_eqb k c = false -> spending_get (spending_set d k v) c = spending_get d c.
Proof.
  intros Hkc. induction d as [|[k' v'] d IH]; simpl.
  - by rewrite Hkc.
  - destruct (py_eqb k' k) eqn:E; simpl.
    + rewrite (py_eqb_compat k' k c E), Hkc. reflexivity.
    + destruct (py_eqb k' c); [reflexivity | exact IH].
Qed.

Lemma spending_of_set (d : list (pyval * Q)) (k c : pyval) (v : Q) :
  spending_of (spending_set d k v) c = if py_eqb k c then v else spending_of d c.
Proof.
  unfold spending_of. destruct (py_eqb k c) eqn:E.
  - rewrite <- (spending_get_compat _ k c E). by rewrite spending_get_set_same.
  - by rewrite spending_get_set_other.
Qed.

(** One turn of the loop adds the amount to the total and to the entry of
    the transaction's category, and to no other entry. *)
Lemma add_spending_spec (cs cs' : list (pyval * Q)) (total total' : Q) (t : Transaction) :
  add_spending (cs, total) t = Some (cs', total') ->
  exists a : Q,
    t_amount t = PNum a /\ total' = (total + a)%Q /\
    forall c : pyval,
      spending_of cs' c
      = if py_eqb (t_category t) c then (spending_of cs c + a)%Q else spending_of cs c.
Proof.
  unfold add_spending.
  destruct (t_amount t) as [|s|a] eqn:Ha; simpl; try discriminate.
  intros H. injection H as <- <-. exists a. split; [reflexivity | split; [reflexivity |]].
  intros c. rewrite spending_of_set.
  destruct (py_eqb (t_category t) c) eqn:E.
  - f_equal. unfold spending_of. rewrite <- (spending_get_compat cs _ c E).
    destruct (spending_get cs (t_category t)) eqn:G.
    + by rewrite G.
    + by rewrite spending_get_set_same.
  - destruct (spending_get cs (t_category t)) eqn:G; [reflexivity |].
    rewrite spending_of_set, E. reflexivity.
Qed.

Lemma amount_of_num (t : Transaction) (a : Q) :
  t_amount t = PNum a -> amount_of t = a.
Proof. unfold amount_of. by intros ->. Qed.

Lemma accumulate_spending_spec (txns : list Transaction) :
  forall (cs cs' : list (pyval * Q)) (total total' : Q),
    accumulate_spending (cs, total) txns = Some (cs', total') ->
    total' = fold_left Qplus (map amount_of txns) total /\
    forall c : pyval,
      spending_of cs' c
      = fold_left Qplus
          (map amount_of (filter (fun t => py_eqb (t_category t) c = true) txns))
          (spending_of cs c).
Proof.
  induction txns as [|t txns IH]; intros cs cs' total total' H;
    cbn [accumulate_spending] in H.
  - inversion H; subst. split; [reflexivity | intros c; reflexivity].
  - destruct (add_spending (cs, total) t) as [[cs1 total1]|] eqn:Hadd; [| discriminate].
    apply add_spending_spec in Hadd as (a & Ha & Htot & Hcs).
    apply IH in H as [Htotal Hcat]. split.
    + simpl. rewrite (amount_of_num t a Ha), <- Htot. exact Htotal.
    + intros c. rewrite Hcat, Hcs, filter_cons.
      destruct (py_eqb (t_category t) c) eqn:E.
      * rewrite decide_True by reflexivity. simpl.
        rewrite (amount_of_num t a Ha). reflexivity.
      * rewrite decide_False by discriminate. reflexivity.
Qed.

Lemma accumulate_spending_total (txns : list Transaction) :
  forall acc : list (pyval * Q) * Q,
    (forall t, t ∈ txns -> exists a, t_amount t = PNum a) ->
    exists acc', accumulate_spending acc txns = Some acc'.
Proof.
  induction txns as [|t txns IH]; intros acc Hnum; simpl.
  - by eexists.
  - destruct (Hnum t) as [a Ha]; [apply elem_of_cons; by left |].
    destruct acc as [cs total]. unfold add_spending. rewrite Ha. simpl.
    apply IH. intros x Hx. apply Hnum. apply elem_of_cons. by right.
Qed.

(** ** Budget status: the warnings *)

Lemma filter_all {A} (P : A -> Prop) `{!forall x, Decision (P x)} (l : list A) :
  (forall x, x ∈ l -> P x) -> filter P l = l.
Proof.
  induction l as [|x l IH]; intros Hall; [reflexivity |].
  rewrite filter_cons, decide_True by (apply Hall, elem_of_cons; by left).
  f_equal. apply IH. intros y Hy. apply Hall, elem_of_cons. by right.
Qed.

(** The dictionary built by the loop holds, for every budget, what the
    user spent against it in the month. *)
Lemma budget_spent_spec (db : DB) (u month : string) (cs : list (pyval * Q)) (total : Q) :
  accumulate_spending ([], 0) (month_expenses db u month) = Some (cs, total) ->
  forall b : Budget, budget_spent cs total b = spent_in_month db u month b.
Proof.
  intros Hacc b. apply accumulate_spending_spec in Hacc as [Htotal Hcat].
  unfold budget_spent, spent_in_month, in_budget_scope, py_sum.
  destruct (py_eqb (b_category b) (PStr "All Categories")) eqn:E.
  - rewrite filter_all by (intros; reflexivity). exact Htotal.
  - change (match spending_get cs (b_category b) with Some v => v | None => 0 end)
      with (spending_of cs (b_category b)).
    rewrite Hcat. reflexivity.
Qed.

Lemma check_budgets_total (cs : list (pyval * Q)) (total : Q) (bs : list Budget) :
  (forall b, b ∈ bs -> exists a, b_amount b = PNum a) ->
  exists ws, check_budgets cs total bs = Some ws.
Proof.
  induction bs as [|b bs IH]; intros Hnum; simpl; [by eexists |].
  destruct (Hnum b) as [a Ha]; [apply elem_of_cons; by left |].
  destruct IH as [ws Hws]; [intros x Hx; apply Hnum, elem_of_cons; by right |].
  rewrite Hws. unfold check_one_budget. rewrite Ha. simpl.
  repeat (match goal with |- context [if ?c then _ else _] => destruct c end);
    by eexists.
Qed.

Lemma check_budgets_elem (cs : list (pyval * Q)) (total : Q) (bs : list Budget) :
  forall ws : list Warning,
    check_budgets cs total bs = Some ws ->
    forall w : Warning,
      w ∈ ws <-> exists b, b ∈ bs /\ check_one_budget cs total b = Some (Some w).
Proof.
  induction bs as [|b bs IH]; intros ws H w; simpl in H.
  - inversion H; subst. split.
    + intros Hw. by apply elem_of_nil in Hw.
    + intros (b & Hb & _). by apply elem_of_nil in Hb.
  - destruct (check_one_budget cs total b) as [ow|] eqn:Hone; [| discriminate].
    destruct (check_budgets cs total bs) as [ws'|] eqn:Hrest; [| discriminate].
    specialize (IH ws' eq_refl w). inversion H; subst. split.
    + intros Hw. destruct ow as [w0|].
      * apply elem_of_cons in Hw as [-> | Hw].
        -- exists b. split; [apply elem_of_cons; by left | exact Hone].
        -- apply IH in Hw as (b' & Hb' & Hw'). exists b'.
           split; [apply elem_of_cons; by right | exact Hw'].
      * apply IH in Hw as (b' & Hb' & Hw'). exists b'.
        split; [apply elem_of_cons; by right | exact Hw'].
    + intros (b' & Hb' & Hw'). apply elem_of_cons in Hb' as [-> | Hb'].
      * rewrite Hone in Hw'. inversion Hw'; subst. apply elem_of_cons. by left.
      * assert (w ∈ ws') as Hin by (apply IH; eauto).
        destruct ow; [apply elem_of_cons; by right | exact Hin].
Qed.

(** What a warning appended for a budget holds. *)
Lemma check_one_budget_warning (cs : list (pyval * Q)) (total : Q) (b : Budget) (w : Warning) :
  check_one_budget cs total b = Some (Some w) ->
  exists a : Q,
    b_amount b = PNum a /\ w_budget w = b /\
    w_spent w = budget_spent cs total b /\
    w_remaining w = py_max0 (a - w_spent w) /\
    w_percent_used w = percent_used (w_spent w) a /\
    Qle_bool 75 (w_percent_used w) = true /\
    w_severity w =
      (if Qle_bool 100 (w_percent_used w) then "high"
       else if Qle_bool 90 (w_percent_used w) then "medium" else "low").
Proof.
  unfold check_one_budget.
  destruct (b_amount b) as [|s|a]; simpl; try discriminate.
  destruct (Qle_bool 100 _) eqn:E100; [|
  destruct (Qle_bool 90 _) eqn:E90; [|
  destruct (Qle_bool 75 _) eqn:E75; [| discriminate]]];
    intros H; inversion H; subst; clear H; simpl; exists a;
    rewrite ?E100, ?E90, ?E75; repeat split; try reflexivity.
  - apply Qle_bool_iff. apply Qle_bool_iff in E100.
    eapply Qle_trans; [| exact E100]. discriminate.
  - apply Qle_bool_iff. apply Qle_bool_iff in E90.
    eapply Qle_trans; [| exact E90]. discriminate.
Qed.

(** A budget gets a warning exactly when its percentage reaches 75. *)
Lemma check_one_budget_included (cs : list (pyval * Q)) (total : Q) (b : Budget) (a : Q) :
  b_amount b = PNum a ->
  (exists w, check_one_budget cs total b = Some (Some w)) <->
  Qle_bool 75 (percent_used (budget_spent cs total b) a) = true.
Proof.
  intros Ha. unfold check_one_budget. rewrite Ha. simpl.
  destruct (Qle_bool 100 _) eqn:E100; [|
  destruct (Qle_bool 90 _) eqn:E90; [|
  destruct (Qle_bool 75 _) eqn:E75]].
  - split; [intros _ | by eexists].
    apply Qle_bool_iff. apply Qle_bool_iff in E100.
    eapply Qle_trans; [| exact E100]. discriminate.
  - split; [intros _ | by eexists].
    apply Qle_bool_iff. apply Qle_bool_iff in E90.
    eapply Qle_trans; [| exact E90]. discriminate.
  - split; [reflexivity | by eexists].
  - split; [intros [w Hw]; discriminate | discriminate].
Qed.

Lemma is_num_spec (a : pyval) : is_num a = true -> exists q, a = PNum q.
Proof. destruct a; try discriminate. by eexists. Qed.

Lemma amounts_are_numbers_spec (db : DB) (u month : string) :
  amounts_are_numbers db u month = true ->
  (forall t, t ∈ month_expenses db u month -> exists a, t_amount t = PNum a) /\
  (forall b, b ∈ user_budgets db u -> exists a, b_amount b = PNum a).
Proof.
  unfold amounts_are_numbers. intros H. apply andb_prop in H as [Ht Hb].
  rewrite forallb_forall in Ht, Hb. split.
  - intros t Hin. apply is_num_spec, Ht. by apply list_elem_of_In.
  - intros b Hin. apply is_num_spec, Hb. by apply list_elem_of_In.
Qed.

(** [check_budget_status] returns when the amounts are numbers, and its
    warnings are those of the budgets checked against what was spent in
    the month. *)
Lemma check_budget_status_warnings (db : DB) (u month : string) :
  amounts_are_numbers db u month = true ->
  exists (ws : list Warning) (cs : list (pyval * Q)) (total : Q),
    check_budget_status db u month = Some ws /\
    (forall b, budget_spent cs total b = spent_in_month db u month b) /\
    (forall w, w ∈ ws <->
       exists b, b ∈ user_budgets db u /\ check_one_budget cs total b = Some (Some w)).
Proof.
  intros H. apply amounts_are_numbers_spec in H as [Ht Hb].
  destruct (accumulate_spending_total _ ([], 0) Ht) as [[cs total] Hacc].
  destruct (check_budgets_total cs total _ Hb) as [ws Hws].
  exists ws, cs, total. unfold check_budget_status. rewrite Hacc. split; [exact Hws |].
  split; [by apply budget_spent_spec | by apply check_budgets_elem].
Qed.

Lemma percent_used_at_ceiling (spent a : Q) :
  0 < a -> a <= spent -> 100 <= percent_used spent a.
Proof.
  intros Hpos Hle. unfold percent_used, Qltb.
  destruct (Qle_bool a 0) eqn:E.
  - apply Qle_bool_iff in E. exfalso. eapply Qlt_irrefl, Qlt_le_trans; eassumption.
  - simpl. apply Qle_trans with (1 * 100); [discriminate |].
    apply Qmult_le_compat_r; [| discriminate].
    apply Qle_shift_div_l; [exact Hpos |]. by rewrite Qmult_1_l.
Qed.

Lemma py_max0_nonpositive (x : Q) : x <= 0 -> py_max0 x = 0.
Proof.
  intros H. unfold py_max0, Qltb.
  apply Qle_bool_iff in H. by rewrite H.
Qed.


Lemma Qle_bool_false (x y : Q) : Qle_bool x y = false <-> y < x.
Proof.
  split.
  - intros H. apply Qnot_le_lt. intros Hle. apply Qle_bool_iff in Hle. congruence.
  - intros H. destruct (Qle_bool x y) eqn:E; [| reflexivity].
    apply Qle_bool_iff in E. exfalso. eapply Qlt_irrefl, Qlt_le_trans; eassumption.
Qed.

Ltac q_absurd Hlt Hle :=
  exfalso; eapply Qlt_irrefl, Qlt_le_trans; [exact Hlt | exact Hle].


(** ** Budget status on binary64: the order of the floats *)

Lemma SFcompare_antisym (x y : spec_float) (c : comparison) :
  SFcompare x y = Some c -> SFcompare y x = Some (CompOpp c).
Proof.
  destruct x as [sx|sx| |sx mx ex], y as [sy|sy| |sy my ey]; simpl;
    try discriminate; intros H; injection H as <-;
    try (destruct sx; reflexivity); try (destruct sy; reflexivity);
    try (destruct sx, sy; reflexivity).
  change (PosDef.Pos.compare_cont Eq mx my) with (Pos.compare mx my).
  change (PosDef.Pos.compare_cont Eq my mx) with (Pos.compare my mx).
  rewrite (Z.compare_antisym ex ey), (Pos.compare_antisym mx my).
  destruct sx, sy; try reflexivity;
    destruct (ex ?= ey)%Z; simpl; try reflexivity;
    destruct (mx ?= my)%positive; reflexivity.
Qed.

(** Between two numbers, [x <= y] fails exactly when [y < x]. *)
Lemma leb_ltb (x y : float) :
  SFcompare (Prim2SF x) (Prim2SF y) <> None ->
  (x <=? y)%float = negb (y <? x)%float.
Proof.
  intros H. rewrite leb_spec, ltb_spec. unfold SFleb, SFltb.
  destruct (SFcompare (Prim2SF x) (Prim2SF y)) as [c|] eqn:E; [| congruence].
  rewrite (SFcompare_antisym _ _ _ E). by destruct c.
Qed.

(** What is at least a bound of the same exponent is at least every
    smaller bound of that exponent; 75, 90 and 100 have one exponent. *)
Lemma leb_constants (mb ma : positive) (e0 : Z) (p : spec_float) :
  (ma <= mb)%positive ->
  SFleb (S754_finite false mb e0) p = true -> SFleb (S754_finite false ma e0) p = true.
Proof.
  intros Hle. unfold SFleb. destruct p as [s|s| |s m e]; simpl; try discriminate.
  - destruct s; [discriminate | reflexivity].
  - destruct s; [discriminate |].
    destruct (e0 ?= e)%Z; try discriminate; try reflexivity.
    change (PosDef.Pos.compare_cont Eq mb m) with (Pos.compare mb m).
    change (PosDef.Pos.compare_cont Eq ma m) with (Pos.compare ma m).
    destruct (Pos.compare_spec mb m); try discriminate; intros _;
      destruct (Pos.compare_spec ma m); try reflexivity; lia.
Qed.

Lemma leb_100_75 (p : float) : (100 <=? p)%float = true -> (75 <=? p)%float = true.
Proof.
  rewrite !leb_spec.
  change (Prim2SF 100) with (S754_finite false 7036874417766400 (-46)).
  change (Prim2SF 75) with (S754_finite false 5277655813324800 (-46)).
  apply leb_constants. lia.
Qed.

Lemma leb_100_90 (p : float) : (100 <=? p)%float = true -> (90 <=? p)%float = true.
Proof.
  rewrite !leb_spec.
  change (Prim2SF 100) with (S754_finite false 7036874417766400 (-46)).
  change (Prim2SF 90) with (S754_finite false 6333186975989760 (-46)).
  apply leb_constants. lia.
Qed.

Lemma leb_90_75 (p : float) : (90 <=? p)%float = true -> (75 <=? p)%float = true.
Proof.
  rewrite !leb_spec.
  change (Prim2SF 90) with (S754_finite false 6333186975989760 (-46)).
  change (Prim2SF 75) with (S754_finite false 5277655813324800 (-46)).
  apply leb_constants. lia.
Qed.

(** A float that a comparison holds of is a number. *)
Lemma leb_number (c p : float) :
  (c <=? p)%float = true -> Prim2SF p <> S754_nan.
Proof.
  rewrite leb_spec. unfold SFleb. intros H Hn. rewrite Hn in H.
  destruct (Prim2SF c); discriminate.
Qed.

Lemma ltb_number (p c : float) :
  (p <? c)%float = true -> Prim2SF p <> S754_nan.
Proof.
  rewrite ltb_spec. unfold SFltb. intros H Hn. rewrite Hn in H. discriminate.
Qed.

Lemma constant_compared (m : positive) (e : Z) (p : spec_float) :
  p <> S754_nan -> SFcompare (S754_finite false m e) p <> None.
Proof. destruct p; simpl; congruence. Qed.

Lemma leb_100_ltb (p : float) :
  Prim2SF p <> S754_nan -> (100 <=? p)%float = negb (p <? 100)%float.
Proof.
  intros H. apply leb_ltb.
  change (Prim2SF 100) with (S754_finite false 7036874417766400 (-46)).
  by apply constant_compared.
Qed.

Lemma leb_90_ltb (p : float) :
  Prim2SF p <> S754_nan -> (90 <=? p)%float = negb (p <? 90)%float.
Proof.
  intros H. apply leb_ltb.
  change (Prim2SF 90) with (S754_finite false 6333186975989760 (-46)).
  by apply constant_compared.
Qed.

(** The severity the chain of tests gives a percentage of at least 75. *)
Lemma severity_bands (p : float) (sev : string) :
  (75 <=? p)%float = true ->
  sev = (if (100 <=? p)%float then "high"
         else if (90 <=? p)%float then "medium" else "low") ->
  (sev = "high" <-> (100 <=? p)%float = true) /\
  (sev = "medium" <-> (90 <=? p)%float = true /\ (p <? 100)%float = true) /\
  (sev = "low" <-> (75 <=? p)%float = true /\ (p <? 90)%float = true).
Proof.
  intros H75 ->. pose proof (leb_number _ _ H75) as Hnum.
  pose proof (leb_100_ltb p Hnum) as H100. pose proof (leb_90_ltb p Hnum) as H90.
  pose proof (leb_100_90 p) as Hmono.
  destruct (100 <=? p)%float eqn:E100; [| destruct (90 <=? p)%float eqn:E90].
  - rewrite Hmono in H90 by reflexivity.
    destruct (p <? 100)%float; [discriminate H100 |].
    destruct (p <? 90)%float; [discriminate H90 |].
    split_and!; split; try done; intros [_ H]; discriminate H.
  - destruct (p <? 100)%float; [| discriminate H100].
    destruct (p <? 90)%float; [discriminate H90 |].
    split_and!; split; try done; intros [_ H]; discriminate H.
  - destruct (p <? 100)%float; [| discriminate H100].
    destruct (p <? 90)%float; [| discriminate H90].
    split_and!; split; try done; intros [H _]; discriminate H.
Qed.

(** ** Budget status on binary64: the spending dictionary *)

Section Binary64Spending.

Import Binary64 Binary64Terms.

Lemma spending64_get_compat (d : list (pyval * float)) (k c : pyval) :
  py_eqb k c = true -> spending_get d k = spending_get d c.
Proof.
  intros Hkc. induction d as [|[k' v'] d IH]; simpl; [reflexivity |].
  rewrite (py_eqb_sym k' k), (py_eqb_sym k' c), (py_eqb_compat k c k') by assumption.
  destruct (py_eqb c k'); [reflexivity | exact IH].
Qed.

Lemma spending64_get_set_same (d : list (pyval * float)) (k : pyval) (v : float) :
  spending_get (spending_set d k v) k = Some v.
Proof.
  induction d as [|[k' v'] d IH]; simpl.
  - by rewrite py_eqb_refl.
  - destruct (py_eqb k' k) eqn:E; simpl; rewrite E; [reflexivity | exact IH].
Qed.

Lemma spending64_get_set_other (d : list (pyval * float)) (k c : pyval) (v : float) :
  py_eqb k c = false -> spending_get (spending_set d k v) c = spending_get d c.
Proof.
  intros Hkc. induction d as [|[k' v'] d IH]; simpl.
  - by rewrite Hkc.
  - destruct (py_eqb k' k) eqn:E; simpl.
    + rewrite (py_eqb_compat k' k c E), Hkc. reflexivity.
    + destruct (py_eqb k' c); [reflexivity | exact IH].
Qed.

Lemma spending64_of_set (d : list (pyval * float)) (k c : pyval) (v : float) :
  spending_of (spending_set d k v) c = if py_eqb k c then v else spending_of d c.
Proof.
  unfold spending_of. destruct (py_eqb k c) eqn:E.
  - rewrite <- (spending64_get_compat _ k c E). by rewrite spending64_get_set_same.
  - by rewrite spending64_get_set_other.
Qed.

(** One turn of the loop adds the amount to the total and to the entry of
    the transaction's category, and to no other entry. *)
Lemma add_spending64_spec (cs cs' : list (pyval * float)) (total total' : float)
    (t : Transaction) :
  add_spending (cs, total) t = Some (cs', total') ->
  exists a : float,
    t_amount t = Some a /\ total' = (total + a)%float /\
    forall c : pyval,
      spending_of cs' c
      = if py_eqb (t_category t) c then (spending_of cs c + a)%float
        else spending_of cs c.
Proof.
  unfold add_spending.
  destruct (t_amount t) as [a|] eqn:Ha; simpl; [| discriminate].
  intros H. injection H as <- <-. exists a. split; [reflexivity | split; [reflexivity |]].
  intros c. rewrite spending64_of_set.
  destruct (py_eqb (t_category t) c) eqn:E.
  - f_equal. unfold spending_of. rewrite <- (spending64_get_compat cs _ c E).
    destruct (spending_get cs (t_category t)) eqn:G.
    + by rewrite G.
    + by rewrite spending64_get_set_same.
  - destruct (spending_get cs (t_category t)) eqn:G; [reflexivity |].
    rewrite spending64_of_set, E. reflexivity.
Qed.

Lemma amount64_of_some (t : Transaction) (a : float) :
  t_amount t = Some a -> amount_of t = a.
Proof. unfold amount_of. by intros ->. Qed.

Lemma accumulate_spending64_spec (txns : list Transaction) :
  forall (cs cs' : list (pyval * float)) (total total' : float),
    accumulate_spending (cs, total) txns = Some (cs', total') ->
    total' = fold_left PrimFloat.add (map amount_of txns) total /\
    forall c : pyval,
      spending_of cs' c
      = fold_left PrimFloat.add
          (map amount_of (filter (fun t => py_eqb (t_category t) c = true) txns))
          (spending_of cs c).
Proof.
  induction txns as [|t txns IH]; intros cs cs' total total' H;
    cbn [accumulate_spending] in H.
  - inversion H; subst. split; [reflexivity | intros c; reflexivity].
  - destruct (add_spending (cs, total) t) as [[cs1 total1]|] eqn:Hadd; [| discriminate].
    apply add_spending64_spec in Hadd as (a & Ha & Htot & Hcs).
    apply IH in H as [Htotal Hcat]. split.
    + simpl. rewrite (amount64_of_some t a Ha), <- Htot. exact Htotal.
    + intros c. rewrite Hcat, Hcs, filter_cons.
      destruct (py_eqb (t_category t) c) eqn:E.
      * rewrite decide_True by reflexivity. simpl.
        rewrite (amount64_of_some t a Ha). reflexivity.
      * rewrite decide_False by discriminate. reflexivity.
Qed.

Lemma accumulate_spending64_total (txns : list Transaction) :
  forall acc : list (pyval * float) * float,
    (forall t, t ∈ txns -> exists a, t_amount t = Some a) ->
    exists acc', accumulate_spending acc txns = Some acc'.
Proof.
  induction txns as [|t txns IH]; intros acc Hnum; simpl.
  - by eexists.
  - destruct (Hnum t) as [a Ha]; [apply elem_of_cons; by left |].
    destruct acc as [cs total]. unfold add_spending. rewrite Ha. simpl.
    apply IH. intros x Hx. apply Hnum. apply elem_of_cons. by right.
Qed.

(** The dictionary built by the loop holds, for every budget, what the
    user spent against it in the month. *)
Lemma budget_spent64_spec (db : DB) (u month : string) (cs : list (pyval * float))
    (total : float) :
  accumulate_spending ([], 0%float) (month_expenses db u month) = Some (cs, total) ->
  forall b : Budget, budget_spent cs total b = spent_in_month db u month b.
Proof.
  intros Hacc b. apply accumulate_spending64_spec in Hacc as [Htotal Hcat].
  unfold budget_spent, spent_in_month, in_budget_scope.
  destruct (py_eqb (b_category b) (PStr "All Categories")) eqn:E.
  - rewrite filter_all by (intros; reflexivity). exact Htotal.
  - change (match spending_get cs (b_category b) with Some v => v | None => 0%float end)
      with (spending_of cs (b_category b)).
    rewrite Hcat. reflexivity.
Qed.

Lemma check_budgets64_total (cs : list (pyval * float)) (total : float) (bs : list Budget) :
  (forall b, b ∈ bs -> exists a, b_amount b = Some a) ->
  exists ws, check_budgets cs total bs = Some ws.
Proof.
  induction bs as [|b bs IH]; intros Hnum; simpl; [by eexists |].
  destruct (Hnum b) as [a Ha]; [apply elem_of_cons; by left |].
  destruct IH as [ws Hws]; [intros x Hx; apply Hnum, elem_of_cons; by right |].
  rewrite Hws. unfold check_one_budget. rewrite Ha. simpl.
  repeat (match goal with |- context [if ?c then _ else _] => destruct c end);
    by eexists.
Qed.

Lemma check_budgets64_elem (cs : list (pyval * float)) (total : float) (bs : list Budget) :
  forall ws : list Warning,
    check_budgets cs total bs = Some ws ->
    forall w : Warning,
      w ∈ ws <-> exists b, b ∈ bs /\ check_one_budget cs total b = Some (Some w).
Proof.
  induction bs as [|b bs IH]; intros ws H w; simpl in H.
  - inversion H; subst. split.
    + intros Hw. by apply elem_of_nil in Hw.
    + intros (b & Hb & _). by apply elem_of_nil in Hb.
  - destruct (check_one_budget cs total b) as [ow|] eqn:Hone; [| discriminate].
    destruct (check_budgets cs total bs) as [ws'|] eqn:Hrest; [| discriminate].
    specialize (IH ws' eq_refl w). inversion H; subst. split.
    + intros Hw. destruct ow as [w0|].
      * apply elem_of_cons in Hw as [-> | Hw].
        -- exists b. split; [apply elem_of_cons; by left | exact Hone].
        -- apply IH in Hw as (b' & Hb' & Hw'). exists b'.
           split; [apply elem_of_cons; by right | exact Hw'].
      * apply IH in Hw as (b' & Hb' & Hw'). exists b'.
        split; [apply elem_of_cons; by right | exact Hw'].
    + intros (b' & Hb' & Hw'). apply elem_of_cons in Hb' as [-> | Hb'].
      * rewrite Hone in Hw'. inversion Hw'; subst. apply elem_of_cons. by left.
      * assert (w ∈ ws') as Hin by (apply IH; eauto).
        destruct ow; [apply elem_of_cons; by right | exact Hin].
Qed.

(** What a warning appended for a budget holds. *)
Lemma check_one_budget64_warning (cs : list (pyval * float)) (total : float)
    (b : Budget) (w : Warning) :
  check_one_budget cs total b = Some (Some w) ->
  exists a : float,
    b_amount b = Some a /\ w_budget w = b /\
    w_spent w = budget_spent cs total b /\
    w_remaining w = py_max0 (a - w_spent w)%float /\
    w_percent_used w = percent_used (w_spent w) a /\
    (75 <=? w_percent_used w)%float = true /\
    w_severity w =
      (if (100 <=? w_percent_used w)%float then "high"
       else if (90 <=? w_percent_used w)%float then "medium" else "low").
Proof.
  unfold check_one_budget.
  destruct (b_amount b) as [a|]; simpl; [| discriminate].
  destruct (100 <=? _)%float eqn:E100; [|
  destruct (90 <=? _)%float eqn:E90; [|
  destruct (75 <=? _)%float eqn:E75; [| discriminate]]];
    intros H; inversion H; subst; clear H; simpl; exists a;
    rewrite ?E100, ?E90, ?E75; repeat split; try reflexivity.
  - by apply leb_100_75.
  - by apply leb_90_75.
Qed.

(** A budget gets a warning exactly when its percentage reaches 75. *)
Lemma check_one_budget64_included (cs : list (pyval * float)) (total : float)
    (b : Budget) (a : float) :
  b_amount b = Some a ->
  (exists w, check_one_budget cs total b = Some (Some w)) <->
  (75 <=? percent_used (budget_spent cs total b) a)%float = true.
Proof.
  intros Ha. unfold check_one_budget. rewrite Ha. simpl.
  destruct (100 <=? _)%float eqn:E100; [|
  destruct (90 <=? _)%float eqn:E90; [|
  destruct (75 <=? _)%float eqn:E75]].
  - split; [intros _; by apply leb_100_75 | by eexists].
  - split; [intros _; by apply leb_90_75 | by eexists].
  - split; [reflexivity | by eexists].
  - split; [intros [w Hw]; discriminate | discriminate].
Qed.

Lemma amounts_present_spec (db : DB) (u month : string) :
  amounts_present db u month = true ->
  (forall t, t ∈ month_expenses db u month -> exists a, t_amount t = Some a) /\
  (forall b, b ∈ user_budgets db u -> exists a, b_amount b = Some a).
Proof.
  unfold amounts_present. intros H. apply andb_prop in H as [Ht Hb].
  rewrite forallb_forall in Ht, Hb. split.
  - intros t Hin. apply list_elem_of_In, Ht in Hin.
    destruct (t_amount t); [by eexists | discriminate].
  - intros b Hin. apply list_elem_of_In, Hb in Hin.
    destruct (b_amount b); [by eexists | discriminate].
Qed.

(** [check_budget_status] returns when no amount is None, and its
    warnings are those of the budgets checked against what was spent in
    the month. *)
Lemma check_budget_status64_warnings (db : DB) (u month : string) :
  amounts_present db u month = true ->
  exists (ws : list Warning) (cs : list (pyval * float)) (total : float),
    check_budget_status db u month = Some ws /\
    (forall b, budget_spent cs total b = spent_in_month db u month b) /\
    (forall w, w ∈ ws <->
       exists b, b ∈ user_budgets db u /\ check_one_budget cs total b = Some (Some w)).
Proof.
  intros H. apply amounts_present_spec in H as [Ht Hb].
  destruct (accumulate_spending64_total _ ([], 0%float) Ht) as [[cs total] Hacc].
  destruct (check_budgets64_total cs total _ Hb) as [ws Hws].
  exists ws, cs, total. unfold check_budget_status. rewrite Hacc. split; [exact Hws |].
  split; [by apply budget_spent64_spec | by apply check_budgets64_elem].
Qed.

Lemma percent_used64_guarded (spent amount : float) :
  (0 <? amount)%float = false -> percent_used spent amount = 0%float.
Proof. intros H. unfold percent_used. by rewrite H. Qed.

End Binary64Spending.

(** C8: a budget of the user is among the returned warnings exactly when
    its percent_used is at least 75; the severity is "high" exactly for
    percent_used >= 100, "medium" for 90 <= percent_used < 100 and "low"
    for 75 <= percent_used < 90; a budget whose amount is not positive has
    percent_used 0 and no warning.  The percentages are the floats the
    code computes, [(spent / amount) * 100] on binary64, and the
    comparisons are those of the floats. *)
Theorem check_budget_status_severity (db : Binary64.DB) (user_id current_month : string)
    (Hnum : Binary64Terms.amounts_present db user_id current_month = true) :
  exists ws : list Binary64.Warning,
    Binary64.check_budget_status db user_id current_month = Some ws /\
    (forall b amount,
       b ∈ Binary64.user_budgets db user_id -> Binary64.b_amount b = Some amount ->
       ((exists w, w ∈ ws /\ Binary64.w_budget w = b) <->
        (75 <=? Binary64.percent_used
                  (Binary64Terms.spent_in_month db user_id current_month b) amount
        )%float = true)) /\
    (forall w, w ∈ ws ->
       exists amount,
         Binary64.b_amount (Binary64.w_budget w) = Some amount /\
         Binary64.w_percent_used w
         = Binary64.percent_used
             (Binary64Terms.spent_in_month db user_id current_month
                                           (Binary64.w_budget w)) amount /\
         (Binary64.w_severity w = "high" <->
          (100 <=? Binary64.w_percent_used w)%float = true) /\
         (Binary64.w_severity w = "medium" <->
          (90 <=? Binary64.w_percent_used w)%float = true /\
          (Binary64.w_percent_used w <? 100)%float = true) /\
         (Binary64.w_severity w = "low" <->
          (75 <=? Binary64.w_percent_used w)%float = true /\
          (Binary64.w_percent_used w <? 90)%float = true)) /\
    (forall b amount,
       b ∈ Binary64.user_budgets db user_id -> Binary64.b_amount b = Some amount ->
       (0 <? amount)%float = false ->
       Binary64.percent_used
         (Binary64Terms.spent_in_month db user_id current_month b) amount = 0%float /\
       ~ exists w, w ∈ ws /\ Binary64.w_budget w = b).
Proof.
  destruct (check_budget_status64_warnings db user_id current_month Hnum)
    as (ws & cs & total & Hws & Hspent & Helem).
  assert (Hiff : forall b amount,
             b ∈ Binary64.user_budgets db user_id -> Binary64.b_amount b = Some amount ->
             ((exists w, w ∈ ws /\ Binary64.w_budget w = b) <->
              (75 <=? Binary64.percent_used
                        (Binary64Terms.spent_in_month db user_id current_month b) amount
              )%float = true)).
  { intros b a Hb Ha. rewrite <- Hspent.
    rewrite <- (check_one_budget64_included cs total b a Ha). split.
    - intros (w & Hw & Hwb). apply Helem in Hw as (b' & Hb' & Hone).
      pose proof (check_one_budget64_warning _ _ _ _ Hone) as (a' & _ & Hwb' & _).
      exists w. congruence.
    - intros [w Hone]. exists w. split; [apply Helem; eauto |].
      by apply check_one_budget64_warning in Hone as (a' & _ & Hwb' & _). }
  exists ws. split; [exact Hws | split; [exact Hiff | split]].
  - intros w Hw. apply Helem in Hw as (b & Hb & Hone).
    apply check_one_budget64_warning in Hone
      as (a & Ha & Hwb & Hsp & _ & Hpct & H75 & Hsev). subst b.
    exists a. split; [exact Ha | split].
    + by rewrite Hpct, Hsp, Hspent.
    + by apply severity_bands.
  - intros b a Hb Ha Hle. split; [by apply percent_used64_guarded |].
    rewrite (Hiff b a Hb Ha), percent_used64_guarded by exact Hle.
    discriminate.
Qed.

(** On the sample data the food budget, 8.1 of 10.8, stays below 75 on
    binary64 (the quotient times 100 is 74.99999999999999) and gets no
    warning; 0.1 + 0.7 of 0.8 is "medium", below 100; the budget of 0 is
    guarded. *)
Lemma check_budget_status_severity_witness :
  Binary64Terms.amounts_present Binary64Terms.sample_db "u1" "2024-03" = true /\
  exists ws : list Binary64.Warning,
    Binary64.check_budget_status Binary64Terms.sample_db "u1" "2024-03" = Some ws /\
    map Binary64.w_severity ws = ["medium"; "medium"] /\
    map Binary64.w_budget ws
    = [Binary64Terms.sample_limit 2 "Travel" 0.8;
       Binary64Terms.sample_limit 3 "All Categories" 9].
Proof.
  split; [reflexivity |].
  destruct (check_budget_status_severity Binary64Terms.sample_db "u1" "2024-03" eq_refl)
    as (ws & Hws & _).
  exists ws. split; [exact Hws |].
  vm_compute in Hws. injection Hws as <-. split; reflexivity.
Defined.

(** ** Resetting a user's data: the session's triples *)

Local Open Scope nat_scope.

Lemma log_upto_nil (k : nat) : log_upto k [].
Proof. split; constructor. Qed.

Lemma log_upto_snoc (k : nat) (lg : list event) (e : event) :
  log_upto k lg -> k <= phase e -> log_upto (phase e) (lg ++ [e]).
Proof.
  intros [Hs Hf] Hk. split.
  - apply StronglySorted_app. split; [| split; [exact Hs | repeat constructor]].
    intros x1 x2 H1 H2. apply list_elem_of_singleton in H2 as ->.
    rewrite Forall_forall in Hf. unfold in_order. specialize (Hf x1 H1). lia.
  - apply Forall_app. split; [| repeat constructor].
    eapply Forall_impl; [exact Hf |]. simpl. intros x Hx. lia.
Qed.

Lemma log_upto_mono (k k' : nat) (lg : list event) :
  log_upto k lg -> k <= k' -> log_upto k' lg.
Proof.
  intros [Hs Hf] Hk. split; [exact Hs |].
  eapply Forall_impl; [exact Hf |]. simpl. intros x Hx. lia.
Qed.

Ltac stage_split :=
  refine (conj _ (conj _ (conj _ (conj _ (conj _ _))))); simpl.

Section Triples.

Variable raises : nat -> bool.
Variable db0 : DB.
Variable N : nat.
Variable L : list event.

Lemma hoare_bind {A B} (P : Session -> Prop) (m : SessionM.M A) (k : A -> SessionM.M B)
    (Q : A -> Session -> Prop) (R : B -> Session -> Prop) (E : Session -> Prop) :
  hoare P m Q E -> (forall a, hoare (Q a) (k a) R E) -> hoare P (SessionM.bind m k) R E.
Proof.
  intros Hm Hk s Hs. unfold SessionM.bind. specialize (Hm s Hs).
  destruct (m s) as [[a|] s1]; [| exact Hm]. by apply Hk.
Qed.

Lemma hoare_pre {A} (P P' : Session -> Prop) (m : SessionM.M A)
    (Q : A -> Session -> Prop) (E : Session -> Prop) :
  (forall s, P' s -> P s) -> hoare P m Q E -> hoare P' m Q E.
Proof. intros HP Hm s Hs. by apply Hm, HP. Qed.

Lemma hoare_call {A} (P : Session -> Prop) (effect : Session -> A * Session)
    (Q : A -> Session -> Prop) (E : Session -> Prop) :
  (forall s, P s -> raises (calls s) = true -> E (bump s)) ->
  (forall s, P s -> raises (calls s) = false ->
             Q (fst (effect (bump s))) (snd (effect (bump s)))) ->
  hoare P (call raises effect) Q E.
Proof.
  intros HE HQ s Hs. unfold call. fold (bump s).
  destruct (raises (calls s)) eqn:Hr; [by apply HE |].
  specialize (HQ s Hs Hr). by destruct (effect (bump s)).
Qed.

Lemma stage_failed (k : nat) (w : DB) (lg : list event) (n : nat) (s : Session) :
  k <= 5 -> n < N -> lg `prefix_of` L ->
  at_stage raises db0 k w lg n s -> raises (calls s) = true ->
  failed raises db0 N L (bump s).
Proof.
  intros Hk HN Hpre (Hc & _ & Hl & Hn & _ & Hup) Hr.
  split; simpl; [exact Hc | split; [| split]].
  - rewrite Hl. by eapply log_upto_mono.
  - exists n. split; [exact HN | congruence].
  - by rewrite Hl.
Qed.

Lemma stage_quiet (n : nat) (s : Session) :
  calls s = n -> (forall i, i < n -> raises i = false) ->
  raises (calls s) = false -> forall i, i < S n -> raises i = false.
Proof.
  intros Hn Hq Hr i Hi. destruct (decide (i = n)) as [-> | Hne].
  - by rewrite <- Hn.
  - apply Hq. lia.
Qed.

(** A query answers from the session's view and changes nothing. *)
Lemma hoare_query {A} (q : DB -> list A) (k : nat) (w : DB) (lg : list event) (n : nat) :
  k <= 5 -> n < N -> lg `prefix_of` L ->
  hoare (at_stage raises db0 k w lg n)
        (call raises (fun s => (q (working s), s)))
        (fun r s => r = q w /\ at_stage raises db0 k w lg (S n) s)
        (failed raises db0 N L).
Proof.
  intros Hk HN Hpre. apply hoare_call.
  - intros s Hs Hr. by eapply stage_failed.
  - intros s (Hc & Hw & Hl & Hn & Hq & Hup) Hr. simpl. rewrite Hw.
    split; [reflexivity |]. stage_split; try assumption; try congruence.
    by eapply stage_quiet.
Qed.

(** A deletion removes the row from the session's view and is logged. *)
Lemma hoare_delete (rm : DB -> DB) (e : event)
    (k : nat) (w : DB) (lg : list event) (n : nat) :
  k <= phase e -> phase e <= 5 -> n < N -> (lg ++ [e])%list `prefix_of` L ->
  hoare (at_stage raises db0 k w lg n)
        (call raises (on_working rm e))
        (fun _ => at_stage raises db0 (phase e) (rm w) (lg ++ [e]) (S n))
        (failed raises db0 N L).
Proof.
  intros Hk He HN Hpre. apply hoare_call.
  - intros s Hs Hr.
    eapply stage_failed; [| exact HN | by eapply prefix_app_l | exact Hs | exact Hr]. lia.
  - intros s (Hc & Hw & Hl & Hn & Hq & Hup) Hr. simpl.
    stage_split; try assumption; try congruence.
    + by eapply stage_quiet.
    + by apply (log_upto_snoc k).
Qed.

(** A loop of deletions removes its rows one after the other. *)
Lemma hoare_delete_all {A} (rm : A -> DB -> DB) (ev : A -> event) (p : nat) (l : list A) :
  (forall x, phase (ev x) = p) -> p <= 5 ->
  forall (k : nat) (w : DB) (lg : list event) (n : nat),
    k <= p -> n + length l <= N -> (lg ++ map ev l)%list `prefix_of` L ->
    hoare (at_stage raises db0 k w lg n)
          (SessionM.for_each l (fun x => call raises (on_working (rm x) (ev x))))
          (fun _ => at_stage raises db0 p (fold_left (fun d x => rm x d) l w)
                             (lg ++ map ev l) (n + length l))
          (failed raises db0 N L).
Proof.
  intros Hev Hp. induction l as [|x l IH]; intros k w lg n Hk HN Hpre; simpl in HN.
  - intros s (Hc & Hw & Hl & Hn & Hq & Hup). simpl.
    rewrite app_nil_r, Nat.add_0_r. stage_split; try assumption.
    by eapply log_upto_mono.
  - assert ((lg ++ ev x :: map ev l) = ((lg ++ [ev x]) ++ map ev l))%list as Hsnoc
      by (by rewrite <- app_assoc).
    simpl. simpl in Hpre. rewrite Hsnoc in Hpre. eapply hoare_bind.
    + apply hoare_delete; rewrite ?Hev;
        [exact Hk | exact Hp | lia | by eapply prefix_app_l].
    + intros []. rewrite Hev, Hsnoc.
      replace (n + S (length l)) with (S n + length l) by lia.
      apply (IH p); [lia | lia | exact Hpre].
Qed.

End Triples.

(** A list that opens the log of the complete run. *)
Ltac log_prefix :=
  unfold reset_log; simpl;
  repeat first [ reflexivity | apply prefix_nil | apply prefix_cons
               | apply prefix_app_r ].

Section ResetRun.

Variable raises : nat -> bool.
Variable db0 : DB.
Variable u : string.

Abbreviation N := (reset_calls db0 u).
Abbreviation L := (reset_log db0 u).

Lemma hoare_commit (w : DB) (lg : list event) (n : nat) :
  n < N -> lg `prefix_of` L ->
  hoare (at_stage raises db0 5 w lg n)
        (db_commit raises)
        (fun _ s => committed s = w /\ log s = (lg ++ [ECommit])%list /\ calls s = S n /\
                    (forall i, i < S n -> raises i = false) /\ log_upto 6 (log s))
        (failed raises db0 N L).
Proof.
  intros HN Hpre. apply hoare_call.
  - intros s Hs Hr. eapply stage_failed; [| exact HN | exact Hpre | exact Hs | exact Hr]. lia.
  - intros s (Hc & Hw & Hl & Hn & Hq & Hup) Hr. simpl.
    refine (conj _ (conj _ (conj _ (conj _ _)))); try congruence.
    + exact (stage_quiet raises n s Hn Hq Hr).
    + rewrite Hl. apply (log_upto_snoc 5 lg ECommit); [exact Hup | simpl; lia].
Qed.

Lemma hoare_reset_try :
  hoare (at_stage raises db0 0 db0 [] 0) (reset_try raises u)
        (fun _ => committed_stage raises db0 u) (failed raises db0 N L).
Proof.
  unfold reset_try.
  eapply hoare_bind; [apply (hoare_delete raises db0 N L (fun d => d) EBegin); simpl; [lia | lia | unfold reset_calls; lia | log_prefix] |].
  intros []. simpl.
  eapply hoare_bind; [apply (hoare_query raises db0 N L (fun d => vectors_of d u)); [lia | unfold reset_calls; lia | log_prefix] |].
  intros xs s [-> Hs]; revert s Hs. change (hoare (at_stage raises db0 0 db0 [EBegin] 2)
    (SessionM.bind (SessionM.for_each (vectors_of db0 u) (delete_vector raises))
       (fun _ => analyses <- query_analyses raises u;;
          SessionM.for_each analyses (delete_analysis raises);;;
          transactions <- query_transactions raises u;;
          SessionM.for_each transactions (delete_transaction raises);;;
          goals <- query_goals raises u;;
          SessionM.for_each goals (delete_goal raises);;;
          budgets <- query_budgets raises u;;
          SessionM.for_each budgets (delete_budget raises);;; db_commit raises))
    (fun _ => committed_stage raises db0 u) (failed raises db0 N L)).
  eapply hoare_bind;
    [apply (hoare_delete_all raises db0 N L remove_vector EDeleteVector 1); [reflexivity | lia | lia | unfold reset_calls; lia | log_prefix] |].
  intros []. fold (after_vectors db0 u).
  eapply hoare_bind; [apply (hoare_query raises db0 N L (fun d => analyses_of d u)); [lia | unfold reset_calls; lia | log_prefix] |].
  intros xs s [-> Hs]; revert s Hs.
  match goal with |- forall s, ?P s -> _ => change (hoare P
    (SessionM.bind (SessionM.for_each (analyses_of (after_vectors db0 u) u) (delete_analysis raises))
       (fun _ => transactions <- query_transactions raises u;;
          SessionM.for_each transactions (delete_transaction raises);;;
          goals <- query_goals raises u;;
          SessionM.for_each goals (delete_goal raises);;;
          budgets <- query_budgets raises u;;
          SessionM.for_each budgets (delete_budget raises);;; db_commit raises))
    (fun _ => committed_stage raises db0 u) (failed raises db0 N L)) end.
  eapply hoare_bind;
    [apply (hoare_delete_all raises db0 N L remove_analysis EDeleteAnalysis 2); [reflexivity | lia | lia | unfold reset_calls; lia | log_prefix] |].
  intros []. fold (after_analyses db0 u).
  eapply hoare_bind; [apply (hoare_query raises db0 N L (fun d => transactions_of d u)); [lia | unfold reset_calls; lia | log_prefix] |].
  intros xs s [-> Hs]; revert s Hs.
  match goal with |- forall s, ?P s -> _ => change (hoare P
    (SessionM.bind
       (SessionM.for_each (transactions_of (after_analyses db0 u) u) (delete_transaction raises))
       (fun _ => goals <- query_goals raises u;;
          SessionM.for_each goals (delete_goal raises);;;
          budgets <- query_budgets raises u;;
          SessionM.for_each budgets (delete_budget raises);;; db_commit raises))
    (fun _ => committed_stage raises db0 u) (failed raises db0 N L)) end.
  eapply hoare_bind;
    [apply (hoare_delete_all raises db0 N L remove_transaction EDeleteTransaction 3); [reflexivity | lia | lia | unfold reset_calls; lia | log_prefix] |].
  intros []. fold (after_transactions db0 u).
  eapply hoare_bind; [apply (hoare_query raises db0 N L (fun d => goals_of d u)); [lia | unfold reset_calls; lia | log_prefix] |].
  intros xs s [-> Hs]; revert s Hs.
  match goal with |- forall s, ?P s -> _ => change (hoare P
    (SessionM.bind
       (SessionM.for_each (goals_of (after_transactions db0 u) u) (delete_goal raises))
       (fun _ => budgets <- query_budgets raises u;;
          SessionM.for_each budgets (delete_budget raises);;; db_commit raises))
    (fun _ => committed_stage raises db0 u) (failed raises db0 N L)) end.
  eapply hoare_bind;
    [apply (hoare_delete_all raises db0 N L remove_goal EDeleteGoal 4); [reflexivity | lia | lia | unfold reset_calls; lia | log_prefix] |].
  intros []. fold (after_goals db0 u).
  eapply hoare_bind; [apply (hoare_query raises db0 N L (fun d => budgets_of d u)); [lia | unfold reset_calls; lia | log_prefix] |].
  intros xs s [-> Hs]; revert s Hs.
  match goal with |- forall s, ?P s -> _ => change (hoare P
    (SessionM.bind
       (SessionM.for_each (budgets_of (after_goals db0 u) u) (delete_budget raises))
       (fun _ => db_commit raises))
    (fun _ => committed_stage raises db0 u) (failed raises db0 N L)) end.
  eapply hoare_bind;
    [apply (hoare_delete_all raises db0 N L remove_budget EDeleteBudget 5); [reflexivity | lia | lia | unfold reset_calls; lia | log_prefix] |].
  intros []. fold (after_budgets db0 u).
  intros s Hs.
  assert (HN : 6 + length (vectors_of db0 u)
               + length (analyses_of (after_vectors db0 u) u)
               + length (transactions_of (after_analyses db0 u) u)
               + length (goals_of (after_transactions db0 u) u)
               + length (budgets_of (after_goals db0 u) u) < N)
    by (unfold reset_calls; lia).
  assert (Hpre : (((((([EBegin] ++ map EDeleteVector (vectors_of db0 u))
             ++ map EDeleteAnalysis (analyses_of (after_vectors db0 u) u))
             ++ map EDeleteTransaction (transactions_of (after_analyses db0 u) u))
             ++ map EDeleteGoal (goals_of (after_transactions db0 u) u))
             ++ map EDeleteBudget (budgets_of (after_goals db0 u) u))%list
            `prefix_of` L)) by log_prefix.
  pose proof (hoare_commit _ _ _ HN Hpre s Hs) as H.
  destruct (db_commit raises s) as [[[]|] s']; [| exact H].
  destruct H as (Hc & Hl & Hn & Hq & Hup). unfold committed_stage.
  refine (conj Hc (conj _ (conj _ (conj _ Hup)))).
  - rewrite Hl. reflexivity.
  - rewrite Hn. unfold reset_calls. lia.
  - intros i Hi. apply Hq. unfold reset_calls in Hi. lia.
Qed.

End ResetRun.

(** ** Resetting a user's data: the database after the deletions *)

Lemma fold_keep {A B} (f : A -> DB -> DB) (proj : DB -> B) :
  (forall x d, proj (f x d) = proj d) ->
  forall (l : list A) (d : DB), proj (fold_left (fun d x => f x d) l d) = proj d.
Proof.
  intros Hf. induction l as [|x l IH]; intros d; simpl; [reflexivity |].
  by rewrite IH, Hf.
Qed.

Lemma fold_remove {A} `{!EqDecision A} (f : A -> DB -> DB) (proj : DB -> list A) :
  (forall x d, proj (f x d) = filter (fun y => y <> x) (proj d)) ->
  forall (l : list A) (d : DB) (r : A),
    r ∈ proj (fold_left (fun d x => f x d) l d) <-> r ∈ proj d /\ r ∉ l.
Proof.
  intros Hf. induction l as [|x l IH]; intros d r; simpl.
  - split; [intros H; split; [exact H | apply not_elem_of_nil] | by intros [H _]].
  - rewrite IH, Hf, list_elem_of_filter, not_elem_of_cons. tauto.
Qed.

Lemma refers_to_user_ext (d d' : DB) (u : string) (v : VectorTransaction) :
  transactions d = transactions d' -> refers_to_user d u v = refers_to_user d' u v.
Proof. unfold refers_to_user. by intros ->. Qed.

Section ResetResult.

Variable db : DB.
Variable u : string.

Lemma after_vectors_tables :
  financial_analyses (after_vectors db u) = financial_analyses db /\
  transactions (after_vectors db u) = transactions db /\
  goals (after_vectors db u) = goals db /\
  budgets (after_vectors db u) = budgets db /\
  users (after_vectors db u) = users db.
Proof. unfold after_vectors. repeat split; by apply fold_keep. Qed.

Lemma after_analyses_tables :
  vector_transactions (after_analyses db u) = vector_transactions (after_vectors db u) /\
  transactions (after_analyses db u) = transactions db /\
  goals (after_analyses db u) = goals db /\
  budgets (after_analyses db u) = budgets db /\
  users (after_analyses db u) = users db.
Proof.
  destruct after_vectors_tables as (_ & Ht & Hg & Hb & Hu).
  unfold after_analyses. simpl.
  rewrite <- Ht, <- Hg, <- Hb, <- Hu. repeat split; by apply fold_keep.
Qed.

Lemma after_transactions_tables :
  vector_transactions (after_transactions db u) = vector_transactions (after_vectors db u) /\
  financial_analyses (after_transactions db u) = financial_analyses (after_analyses db u) /\
  goals (after_transactions db u) = goals db /\
  budgets (after_transactions db u) = budgets db /\
  users (after_transactions db u) = users db.
Proof.
  destruct after_analyses_tables as (Hv & _ & Hg & Hb & Hu).
  unfold after_transactions. simpl.
  rewrite <- Hv, <- Hg, <- Hb, <- Hu. repeat split; by apply fold_keep.
Qed.

Lemma after_goals_tables :
  vector_transactions (after_goals db u) = vector_transactions (after_vectors db u) /\
  financial_analyses (after_goals db u) = financial_analyses (after_analyses db u) /\
  transactions (after_goals db u) = transactions (after_transactions db u) /\
  budgets (after_goals db u) = budgets db /\
  users (after_goals db u) = users db.
Proof.
  destruct after_transactions_tables as (Hv & Ha & _ & Hb & Hu).
  unfold after_goals. simpl.
  rewrite <- Hv, <- Ha, <- Hb, <- Hu. repeat split; by apply fold_keep.
Qed.

Lemma after_budgets_tables :
  vector_transactions (after_budgets db u) = vector_transactions (after_vectors db u) /\
  financial_analyses (after_budgets db u) = financial_analyses (after_analyses db u) /\
  transactions (after_budgets db u) = transactions (after_transactions db u) /\
  goals (after_budgets db u) = goals (after_goals db u) /\
  users (after_budgets db u) = users db.
Proof.
  destruct after_goals_tables as (Hv & Ha & Ht & _ & Hu).
  unfold after_budgets. simpl.
  rewrite <- Hv, <- Ha, <- Ht, <- Hu. repeat split; by apply fold_keep.
Qed.

(** The queries of the later loops select the rows they would select on
    the database the run started from. *)
Lemma later_queries :
  analyses_of (after_vectors db u) u = analyses_of db u /\
  transactions_of (after_analyses db u) u = transactions_of db u /\
  goals_of (after_transactions db u) u = goals_of db u /\
  budgets_of (after_goals db u) u = budgets_of db u.
Proof.
  destruct after_vectors_tables as (Ha & _).
  destruct after_analyses_tables as (_ & Ht & _).
  destruct after_transactions_tables as (_ & _ & Hg & _).
  destruct after_goals_tables as (_ & _ & _ & Hb & _).
  unfold analyses_of, transactions_of, goals_of, budgets_of.
  by rewrite Ha, Ht, Hg, Hb.
Qed.

(** What is left of each table: the rows that are not the user's. *)
Lemma after_budgets_rows :
  (forall v, v ∈ vector_transactions (after_budgets db u) <->
             v ∈ vector_transactions db /\ refers_to_user db u v = false) /\
  (forall a, a ∈ financial_analyses (after_budgets db u) <->
             a ∈ financial_analyses db /\ a_user_id a <> PStr u) /\
  (forall t, t ∈ transactions (after_budgets db u) <->
             t ∈ transactions db /\ t_user_id t <> PStr u) /\
  (forall g, g ∈ goals (after_budgets db u) <->
             g ∈ goals db /\ g_user_id g <> PStr u) /\
  (forall b, b ∈ budgets (after_budgets db u) <->
             b ∈ budgets db /\ b_user_id b <> PStr u).
Proof.
  destruct after_budgets_tables as (Hv & Ha & Ht & Hg & _).
  destruct after_vectors_tables as (Ha1 & Ht1 & Hg1 & Hb1 & _).
  destruct after_analyses_tables as (_ & Ht2 & Hg2 & Hb2 & _).
  destruct after_transactions_tables as (_ & _ & Hg3 & Hb3 & _).
  destruct after_goals_tables as (_ & _ & _ & Hb4 & _).
  destruct later_queries as (Qa & Qt & Qg & Qb).
  split; [| split; [| split; [| split]]].
  - intros v. rewrite Hv. unfold after_vectors.
    rewrite (fold_remove remove_vector vector_transactions) by reflexivity.
    unfold vectors_of. rewrite list_elem_of_filter.
    destruct (refers_to_user db u v); split; intros [H1 H2]; split;
      try assumption; try reflexivity; try discriminate.
    + exfalso. apply H2. by split.
    + by intros [? _].
  - intros a. rewrite Ha. unfold after_analyses. simpl.
    rewrite (fold_remove remove_analysis financial_analyses) by reflexivity.
    rewrite Qa, Ha1. unfold analyses_of.
    rewrite list_elem_of_filter, sql_eqb_str. tauto.
  - intros t. rewrite Ht. unfold after_transactions. simpl.
    rewrite (fold_remove remove_transaction transactions) by reflexivity.
    rewrite Qt, Ht2. unfold transactions_of.
    rewrite list_elem_of_filter, sql_eqb_str. tauto.
  - intros g. rewrite Hg. unfold after_goals. simpl.
    rewrite (fold_remove remove_goal goals) by reflexivity.
    rewrite Qg, Hg3. unfold goals_of.
    rewrite list_elem_of_filter, sql_eqb_str. tauto.
  - intros b. unfold after_budgets. simpl.
    rewrite (fold_remove remove_budget budgets) by reflexivity.
    rewrite Qb, Hb4. unfold budgets_of.
    rewrite list_elem_of_filter, sql_eqb_str. tauto.
Qed.

End ResetResult.

(** ** Resetting a user's data: the results *)

(** In a log whose calls came in order, a call of an earlier phase stands
    before every call of a later phase. *)
Lemma in_order_positions (lg : list event) (i j : nat) (a b : event) :
  StronglySorted in_order lg ->
  lg !! i = Some a -> lg !! j = Some b -> phase a < phase b -> i < j.
Proof.
  intros Hs Hi Hj Hlt. destruct (decide (i < j)) as [| Hge]; [assumption |].
  exfalso. destruct (decide (i = j)) as [-> | Hne].
  - rewrite Hi in Hj. inversion Hj; subst. lia.
  - assert (j < i) as Hji by lia.
    rewrite <- (take_drop i lg) in Hs.
    assert (b ∈ take i lg) as Hb.
    { apply list_elem_of_lookup. exists j. by rewrite lookup_take_lt. }
    assert (a ∈ drop i lg) as Ha.
    { apply list_elem_of_lookup. exists 0. by rewrite lookup_drop, Nat.add_0_r. }
    pose proof (StronglySorted_app_1_elem_of _ _ _ _ _ Hs Hb Ha) as H.
    unfold in_order in H. lia.
Qed.

Lemma elem_of_map {A B} (f : A -> B) (l : list A) (y : B) :
  y ∈ map f l <-> exists x, y = f x /\ x ∈ l.
Proof.
  rewrite list_elem_of_In, in_map_iff. split; intros (x & H1 & H2); exists x.
  - apply list_elem_of_In in H2. by split.
  - apply list_elem_of_In in H2. by split.
Qed.

Lemma reset_log_elem (db : DB) (u : string) (e : event) :
  e ∈ reset_log db u <->
  e = EBegin \/
  (exists x, e = EDeleteVector x /\ x ∈ vectors_of db u) \/
  (exists x, e = EDeleteAnalysis x /\ x ∈ analyses_of db u) \/
  (exists x, e = EDeleteTransaction x /\ x ∈ transactions_of db u) \/
  (exists x, e = EDeleteGoal x /\ x ∈ goals_of db u) \/
  (exists x, e = EDeleteBudget x /\ x ∈ budgets_of db u) \/
  e = ECommit.
Proof.
  destruct (later_queries db u) as (Qa & Qt & Qg & Qb).
  unfold reset_log. rewrite Qa, Qt, Qg, Qb.
  rewrite !elem_of_app, !elem_of_map, !list_elem_of_singleton. tauto.
Qed.

Ltac log_cases H :=
  repeat (destruct H as [H | H]);
  try discriminate H;
  try (let x := fresh "x" in
       let Heq := fresh "Heq" in
       let Hin := fresh "Hin" in
       destruct H as (x & Heq & Hin); try discriminate Heq;
       inversion Heq; subst; assumption).

Lemma reset_log_elems (db : DB) (u : string) :
  (forall v, EDeleteVector v ∈ reset_log db u <-> v ∈ vectors_of db u) /\
  (forall a, EDeleteAnalysis a ∈ reset_log db u <-> a ∈ analyses_of db u) /\
  (forall t, EDeleteTransaction t ∈ reset_log db u <-> t ∈ transactions_of db u) /\
  (forall g, EDeleteGoal g ∈ reset_log db u <-> g ∈ goals_of db u) /\
  (forall b, EDeleteBudget b ∈ reset_log db u <-> b ∈ budgets_of db u) /\
  ECommit ∈ reset_log db u /\ ERollback ∉ reset_log db u.
Proof.
  split_and!.
  - intros v. rewrite reset_log_elem. split; [intros H; log_cases H | eauto 10].
  - intros a. rewrite reset_log_elem. split; [intros H; log_cases H | eauto 10].
  - intros t. rewrite reset_log_elem. split; [intros H; log_cases H | eauto 10].
  - intros g. rewrite reset_log_elem. split; [intros H; log_cases H | eauto 10].
  - intros b. rewrite reset_log_elem. split; [intros H; log_cases H | eauto 10].
  - rewrite reset_log_elem. tauto.
  - rewrite reset_log_elem. intros H. log_cases H.
Qed.

(** The two ways [reset_user_data] ends. *)
Lemma reset_user_data_cases (raises : nat -> bool) (db : DB) (u : string) :
  (reset_user_data raises db u
   = (true, after_budgets db u, (reset_log db u ++ [EClose])%list) /\
   log_upto 6 (reset_log db u) /\
   forall i, i < reset_calls db u -> raises i = false) \/
  ((exists lg, reset_user_data raises db u = (false, db, (lg ++ [ERollback; EClose])%list) /\
               log_upto 5 lg /\ lg `prefix_of` reset_log db u) /\
   exists i, i < reset_calls db u /\ raises i = true).
Proof.
  pose proof (hoare_reset_try raises db u (get_db db)) as H.
  unfold reset_user_data.
  destruct (reset_try raises u (get_db db)) as [[[]|] s].
  - left. destruct H as (Hc & Hl & Hn & Hq & Hup).
    { unfold get_db. stage_split; try reflexivity; [intros; lia | apply log_upto_nil]. }
    simpl. rewrite Hc, Hl. split; [reflexivity | split; [by rewrite <- Hl | exact Hq]].
  - right. destruct H as (Hc & Hup & Hi & Hpre).
    { unfold get_db. stage_split; try reflexivity; [intros; lia | apply log_upto_nil]. }
    split; [| exact Hi]. exists (log s). simpl. rewrite Hc.
    split; [| by split]. by rewrite <- app_assoc.
Qed.

Lemma reset_user_data_log_sorted (raises : nat -> bool) (db : DB) (u : string) :
  StronglySorted in_order (reset_user_data raises db u).2.
Proof.
  destruct (reset_user_data_cases raises db u)
    as [(-> & Hup & _) | [(lg & -> & Hup & _) _]]; simpl.
  - apply (log_upto_snoc 6 _ EClose) in Hup; [by destruct Hup | simpl; lia].
  - apply (log_upto_snoc 5 _ ERollback) in Hup; [| simpl; lia].
    apply (log_upto_snoc 7 _ EClose) in Hup; [| simpl; lia].
    rewrite <- app_assoc in Hup. by destruct Hup.
Qed.

Lemma no_user_rows_after (db : DB) (u : string) : no_user_rows db (after_budgets db u) u.
Proof.
  destruct (after_budgets_rows db u) as (Hv & Ha & Ht & Hg & Hb).
  unfold no_user_rows. split_and!.
  - intros v H. by apply Hv in H as [_ H].
  - intros a H. by apply Ha in H as [_ H].
  - intros t H. by apply Ht in H as [_ H].
  - intros g H. by apply Hg in H as [_ H].
  - intros b H. by apply Hb in H as [_ H].
Qed.

Lemma lookup_map {A B} (f : A -> B) (l : list A) (i : nat) :
  map f l !! i = f <$> l !! i.
Proof.
  revert i. induction l as [|x l IH]; intros [|i]; simpl; try reflexivity. apply IH.
Qed.

(** The complete run deletes the vector rows right after [begin]. *)
Lemma reset_log_shape (db : DB) (u : string) :
  exists rest,
    reset_log db u = (EBegin :: map EDeleteVector (vectors_of db u) ++ rest)%list.
Proof. unfold reset_log. eexists. simpl. rewrite <- !app_assoc. reflexivity. Qed.

(** Among the first calls of the complete run, the deletion of a
    transaction comes after the deletion of every vector row that the
    first query selected. *)
Lemma vectors_deleted_first (db : DB) (u : string) (lg : list event)
    (j : nat) (t : Transaction) :
  lg `prefix_of` reset_log db u ->
  lg !! j = Some (EDeleteTransaction t) ->
  forall v, v ∈ vectors_of db u ->
    exists i, i < j /\ lg !! i = Some (EDeleteVector v).
Proof.
  intros [k Hk] Hj v Hv.
  assert (Hfull : reset_log db u !! j = Some (EDeleteTransaction t))
    by (rewrite Hk; by apply lookup_app_l_Some).
  destruct (reset_log_shape db u) as [rest Hshape].
  apply list_elem_of_lookup in Hv as [i0 Hi0].
  pose proof (lookup_lt_Some _ _ _ Hi0) as Hlen.
  assert (Hv' : reset_log db u !! S i0 = Some (EDeleteVector v)).
  { rewrite Hshape.
    change ((map EDeleteVector (vectors_of db u) ++ rest)%list !! i0
            = Some (EDeleteVector v)).
    rewrite lookup_app_l by (by rewrite length_map).
    by rewrite lookup_map, Hi0. }
  assert (S i0 < j) as Hlt.
  { destruct (decide (S i0 < j)) as [| Hge]; [assumption |]. exfalso.
    rewrite Hshape in Hfull. destruct j as [|j]; [discriminate Hfull |].
    change ((map EDeleteVector (vectors_of db u) ++ rest)%list !! j
            = Some (EDeleteTransaction t)) in Hfull.
    rewrite lookup_app_l in Hfull by (rewrite length_map; lia).
    rewrite lookup_map in Hfull.
    destruct (vectors_of db u !! j); discriminate Hfull. }
  exists (S i0). split; [exact Hlt |].
  rewrite Hk in Hv'. rewrite lookup_app_l in Hv'; [exact Hv' |].
  apply lookup_lt_Some in Hj. lia.
Qed.

(** C3: in every run of [reset_user_data], whether it ends in True or in
    False, the deletion of a transaction comes after the deletion of every
    vector row that references a transaction of the user, and the
    deletions follow the order vector rows, analyses, transactions, goals,
    budgets.  A run in which no call raises returns True.  When the
    function returns True every vector row that references a transaction
    of the user and every analysis, transaction, goal and budget of the
    user has been deleted, and none is left in the database. *)
Theorem reset_user_data_children_first (raises : nat -> bool) (db : DB) (user_id : string) :
  let result := reset_user_data raises db user_id in
  (forall j t,
     result.2 !! j = Some (EDeleteTransaction t) ->
     forall v, v ∈ vector_transactions db -> refers_to_user db user_id v = true ->
       exists i, i < j /\ result.2 !! i = Some (EDeleteVector v)) /\
  (forall i j v t,
     result.2 !! i = Some (EDeleteVector v) ->
     result.2 !! j = Some (EDeleteTransaction t) -> i < j) /\
  StronglySorted in_order result.2 /\
  ((forall i, i < reset_calls db user_id -> raises i = false) -> result.1.1 = true) /\
  (result.1.1 = true ->
   (forall v, v ∈ vector_transactions db -> refers_to_user db user_id v = true ->
              EDeleteVector v ∈ result.2) /\
   (forall a, a ∈ financial_analyses db -> a_user_id a = PStr user_id ->
              EDeleteAnalysis a ∈ result.2) /\
   (forall t, t ∈ transactions db -> t_user_id t = PStr user_id ->
              EDeleteTransaction t ∈ result.2) /\
   (forall g, g ∈ goals db -> g_user_id g = PStr user_id -> EDeleteGoal g ∈ result.2) /\
   (forall b, b ∈ budgets db -> b_user_id b = PStr user_id -> EDeleteBudget b ∈ result.2) /\
   no_user_rows db (result.1.2) user_id).
Proof.
  intros result. subst result.
  pose proof (reset_user_data_log_sorted raises db user_id) as Hsorted.
  split; [| split; [| split; [exact Hsorted | split]]].
  - assert (Hrun : exists lg tail,
               (reset_user_data raises db user_id).2 = (lg ++ tail)%list /\
               lg `prefix_of` reset_log db user_id /\
               forall n t, tail !! n <> Some (EDeleteTransaction t)).
    { destruct (reset_user_data_cases raises db user_id)
        as [(-> & _ & _) | [(lg & -> & _ & Hpre) _]].
      - exists (reset_log db user_id), [EClose]. split; [reflexivity | split; [done |]].
        intros [|[|n]] t; discriminate.
      - exists lg, [ERollback; EClose]. split; [reflexivity | split; [exact Hpre |]].
        intros [|[|[|n]]] t; discriminate. }
    destruct Hrun as (lg & tail & -> & Hpre & Htail).
    intros j t Hj v Hin Hv.
    apply lookup_app_Some in Hj as [Hj | [_ Hj]]; [| by apply Htail in Hj].
    destruct (vectors_deleted_first db user_id lg j t Hpre Hj v) as (i & Hi & Hlook).
    { unfold vectors_of. by apply list_elem_of_filter. }
    exists i. split; [exact Hi | by apply lookup_app_l_Some].
  - intros i j v t Hi Hj.
    eapply (in_order_positions _ i j); [exact Hsorted | exact Hi | exact Hj |]. simpl. lia.
  - intros Hquiet.
    destruct (reset_user_data_cases raises db user_id)
      as [(-> & _ & _) | [_ (i & Hi & Hr)]]; [reflexivity |].
    rewrite Hquiet in Hr by exact Hi. discriminate.
  - destruct (reset_user_data_cases raises db user_id)
      as [(-> & _ & _) | [(lg & -> & _) _]]; cbn [fst snd]; [intros _ | discriminate].
    destruct (reset_log_elems db user_id) as (Lv & La & Lt & Lg & Lb & _).
    split_and!.
    + intros v Hin Hv. apply elem_of_app. left. apply Lv.
      unfold vectors_of. by apply list_elem_of_filter.
    + intros a Hin Ha. apply elem_of_app. left. apply La.
      unfold analyses_of. apply list_elem_of_filter. by rewrite sql_eqb_str.
    + intros t Hin Ht. apply elem_of_app. left. apply Lt.
      unfold transactions_of. apply list_elem_of_filter. by rewrite sql_eqb_str.
    + intros g Hin Hg. apply elem_of_app. left. apply Lg.
      unfold goals_of. apply list_elem_of_filter. by rewrite sql_eqb_str.
    + intros b Hin Hb. apply elem_of_app. left. apply Lb.
      unfold budgets_of. apply list_elem_of_filter. by rewrite sql_eqb_str.
    + apply no_user_rows_after.
Qed.

(** On the sample database a run in which no call raises returns True,
    having deleted the vector row of the transaction of "u1" before the
    transaction, and leaves no row of "u1". *)
Lemma reset_user_data_children_first_witness :
  let result := reset_user_data (fun _ => false) sample_reset_db "u1" in
  result.1.1 = true /\
  result.2 !! 1 = Some (EDeleteVector (mkVectorTransaction (py_int 6) (py_int 1))) /\
  (exists t, result.2 !! 3 = Some (EDeleteTransaction t) /\ t_user_id t = PStr "u1") /\
  no_user_rows sample_reset_db result.1.2 "u1".
Proof.
  destruct (reset_user_data_children_first (fun _ => false) sample_reset_db "u1")
    as (_ & _ & _ & Hquiet & Hdone).
  assert (Htrue : (reset_user_data (fun _ => false) sample_reset_db "u1").1.1 = true)
    by (apply Hquiet; reflexivity).
  destruct (Hdone Htrue) as (_ & _ & _ & _ & _ & Hnone).
  split; [exact Htrue | split; [reflexivity | split; [| exact Hnone]]].
  eexists. split; reflexivity.
Defined.

(** C9: [reset_user_data] is atomic.  If one of its calls on the session
    raises, the session is rolled back, nothing is committed, the function
    returns False and the database is the one it started from; it returns
    True only when no call raised, every row of the user has been deleted
    and the deletions have been committed (the rows of the other users
    stay). *)
Theorem reset_user_data_atomic (raises : nat -> bool) (db : DB) (user_id : string) :
  let result := reset_user_data raises db user_id in
  ((exists i, i < reset_calls db user_id /\ raises i = true) ->
   result.1.1 = false /\ result.1.2 = db /\
   ERollback ∈ result.2 /\ ECommit ∉ result.2) /\
  (result.1.1 = false -> exists i, i < reset_calls db user_id /\ raises i = true) /\
  (result.1.1 = true ->
   (forall i, i < reset_calls db user_id -> raises i = false) /\
   ECommit ∈ result.2 /\ (ERollback ∉ result.2) /\
   no_user_rows db (result.1.2) user_id /\
   (forall t, t ∈ transactions (result.1.2) <->
              t ∈ transactions db /\ t_user_id t <> PStr user_id) /\
   (forall g, g ∈ goals (result.1.2) <-> g ∈ goals db /\ g_user_id g <> PStr user_id) /\
   (forall b, b ∈ budgets (result.1.2) <-> b ∈ budgets db /\ b_user_id b <> PStr user_id) /\
   (forall a, a ∈ financial_analyses (result.1.2) <->
              a ∈ financial_analyses db /\ a_user_id a <> PStr user_id) /\
   (forall v, v ∈ vector_transactions (result.1.2) <->
              v ∈ vector_transactions db /\ refers_to_user db user_id v = false)).
Proof.
  intros result. subst result.
  destruct (reset_user_data_cases raises db user_id)
    as [(-> & Hup & Hq) | [(lg & -> & Hup & _) (i & Hi & Hr)]]; cbn [fst snd].
  - split; [| split; [discriminate |]].
    + intros (i & Hi & Hr). rewrite Hq in Hr by exact Hi. discriminate.
    + intros _. destruct (reset_log_elems db user_id) as (_ & _ & _ & _ & _ & Hc & Hnr).
      destruct (after_budgets_rows db user_id) as (Hv & Ha & Ht & Hg & Hb).
      split_and!; try assumption.
      * apply elem_of_app. by left.
      * intros H. apply elem_of_app in H as [H | H]; [by apply Hnr |].
        apply list_elem_of_singleton in H. discriminate.
      * apply no_user_rows_after.
  - split; [| split; [intros _; eauto | discriminate]].
    intros _. split_and!; try reflexivity.
    + apply elem_of_app. right. apply elem_of_cons. by left.
    + intros H. apply elem_of_app in H as [H | H].
      * destruct Hup as [_ Hf]. rewrite Forall_forall in Hf.
        specialize (Hf _ H). simpl in Hf. lia.
      * apply elem_of_cons in H as [H | H]; [discriminate |].
        apply list_elem_of_singleton in H. discriminate.
Qed.

(** A run in which nothing raises deletes the rows of "u1", children
    first, and leaves those of "u2". *)
Example reset_user_data_quiet_run :
  reset_user_data (fun _ => false) sample_reset_db "u1"
  = (true,
     mkDB [] []
          [ mkTransaction (py_int 2) (PStr "u2") (PStr "2024-03-06") (PStr "bus")
                          (PNum 3) (PStr "expense") (PStr "Travel") PNone ]
          []
          [ mkBudget (py_int 5) (PStr "u2") (PStr "Food") (PNum 150) (PStr "monthly") PNone ]
          [ mkVectorTransaction (py_int 7) (py_int 2) ]
          [] 9,
     [ EBegin;
       EDeleteVector (mkVectorTransaction (py_int 6) (py_int 1));
       EDeleteAnalysis (mkFinancialAnalysis (py_int 8) (PStr "u1") (PStr "summary")
                                            (PStr "ok") PNone);
       EDeleteTransaction (mkTransaction (py_int 1) (PStr "u1") (PStr "2024-03-05")
                                         (PStr "lunch") (PNum 12) (PStr "expense")
                                         (PStr "Food") PNone);
       EDeleteGoal (mkGoal (py_int 3) (PStr "u1") (PStr "Laptop") (PNum 900) (PNum 100)
                           PNone PNone PNone);
       EDeleteBudget (mkBudget (py_int 4) (PStr "u1") (PStr "Food") (PNum 200)
                               (PStr "monthly") PNone);
       ECommit; EClose ]).
Proof. vm_compute. reflexivity. Qed.

(** A run whose sixth call (the query of the transactions) raises is
    rolled back. *)
Example reset_user_data_failing_run :
  reset_user_data (fun n => Nat.eqb n 5) sample_reset_db "u1"
  = (false, sample_reset_db,
     [ EBegin;
       EDeleteVector (mkVectorTransaction (py_int 6) (py_int 1));
       EDeleteAnalysis (mkFinancialAnalysis (py_int 8) (PStr "u1") (PStr "summary")
                                            (PStr "ok") PNone);
       ERollback; EClose ]).
Proof. vm_compute. reflexivity. Qed.

(** ** Predictions: sorting and sums *)

Local Open Scope Q_scope.

Lemma insert_by_perm {A} (key : A -> string) (x : A) (l : list A) :
  insert_by key x l ≡ₚ x :: l.
Proof.
  induction l as [|y l IH]; simpl; [reflexivity |].
  destruct (String.leb (key x) (key y)); [reflexivity |].
  rewrite IH. apply Permutation_swap.
Qed.

Lemma sorted_by_perm {A} (key : A -> string) (l : list A) : sorted_by key l ≡ₚ l.
Proof.
  induction l as [|x l IH]; simpl; [reflexivity |].
  by rewrite insert_by_perm, IH.
Qed.

Lemma insert_by_sorted {A} (key : A -> string) (x : A) (l : list A) :
  Sorted (fun a b => String.leb (key a) (key b) = true) l ->
  Sorted (fun a b => String.leb (key a) (key b) = true) (insert_by key x l).
Proof.
  induction l as [|y l IH]; intros Hs; simpl.
  - repeat constructor.
  - destruct (String.leb (key x) (key y)) eqn:E.
    + constructor; [exact Hs | by constructor].
    + apply Sorted_inv in Hs as [Hs Hhd]. constructor; [by apply IH |].
      destruct l as [|z l]; simpl.
      * constructor. destruct (String.leb_total (key x) (key y)); congruence.
      * destruct (String.leb (key x) (key z)).
        -- constructor. destruct (String.leb_total (key x) (key y)); congruence.
        -- constructor. by apply HdRel_inv in Hhd.
Qed.

(** [sorted] returns its argument in ascending order of the keys. *)
Lemma sorted_by_sorted {A} (key : A -> string) (l : list A) :
  Sorted (fun a b => String.leb (key a) (key b) = true) (sorted_by key l).
Proof.
  induction l as [|x l IH]; simpl; [constructor | by apply insert_by_sorted].
Qed.

Lemma fold_Qplus_compat (l : list Q) (a b : Q) :
  a == b -> fold_left Qplus l a == fold_left Qplus l b.
Proof.
  revert a b. induction l as [|x l IH]; intros a b Hab; simpl; [exact Hab |].
  apply IH. by rewrite Hab.
Qed.

Lemma fold_Qplus_perm (l l' : list Q) :
  l ≡ₚ l' -> forall a, fold_left Qplus l a == fold_left Qplus l' a.
Proof.
  induction 1 as [|x l l' _ IH|x y l|l1 l2 l3 _ IH1 _ IH2]; intros a; simpl.
  - reflexivity.
  - apply IH.
  - apply fold_Qplus_compat. ring.
  - by rewrite IH1.
Qed.

(** The sum of the amounts does not depend on their order. *)
Lemma py_sum_perm (l l' : list Q) : l ≡ₚ l' -> py_sum l == py_sum l'.
Proof. intros H. by apply fold_Qplus_perm. Qed.

Lemma average_compat (a b : Q) (n : nat) : a == b -> average a n == average b n.
Proof. intros H. unfold average. by rewrite H. Qed.

(** Sorting keeps the number of the group's amounts. *)
Lemma sorted_count (g : list txn_dict) :
  length (map d_amount (sorted_by d_date g)) = length g.
Proof. rewrite length_map. apply Permutation_length, sorted_by_perm. Qed.

Lemma parse_dates_elem (txns : list txn_dict) (d : Z) :
  d ∈ parse_dates txns -> exists t, t ∈ txns /\ strptime (d_date t) = Some d.
Proof.
  induction txns as [|t txns IH]; simpl; intros H.
  - by apply elem_of_nil in H.
  - destruct (String.eqb (d_date t) "") eqn:E.
    + destruct (IH H) as (t' & Hin & Hd). exists t'. split; [| exact Hd].
      apply elem_of_cons. by right.
    + destruct (strptime (d_date t)) as [d0|] eqn:Hp.
      * apply elem_of_cons in H as [-> | H].
        -- exists t. split; [apply elem_of_cons; by left | exact Hp].
        -- destruct (IH H) as (t' & Hin & Hd). exists t'. split; [| exact Hd].
           apply elem_of_cons. by right.
      * destruct (IH H) as (t' & Hin & Hd). exists t'. split; [| exact Hd].
        apply elem_of_cons. by right.
Qed.

Lemma last_elem (l : list Z) (d : Z) : l <> [] -> List.last l d ∈ l.
Proof.
  intros Hne. apply list_elem_of_In.
  destruct (exists_last Hne) as (l' & x & ->).
  rewrite List.last_last. apply in_or_app. right. by left.
Qed.

(** ** Predictions: the groups *)

Local Open Scope nat_scope.

(** The group of a key seen for the first time, and a group with one more
    transaction. *)
Lemma group_add_keys (r : list (string * group)) (k : string) (t : txn_dict) :
  (k ∈ r.*1 -> (group_add r k t).*1 = r.*1) /\
  (k ∉ r.*1 -> (group_add r k t).*1 = (r.*1 ++ [k])%list).
Proof.
  induction r as [|[k0 g0] r [IHin IHout]]; simpl.
  - split; [intros H; by apply elem_of_nil in H | reflexivity].
  - destruct (String.eqb_spec k0 k) as [-> | Hne]; simpl.
    + split; [reflexivity |]. intros H. exfalso. apply H, elem_of_cons. by left.
    + split; intros H.
      * f_equal. apply IHin. apply elem_of_cons in H as [H | H]; [congruence | exact H].
      * f_equal. apply IHout. intros Hin. apply H, elem_of_cons. by right.
Qed.

Lemma group_add_elem (r : list (string * group)) (k : string) (t : txn_dict)
    (k' : string) (g' : group) :
  NoDup r.*1 -> (k', g') ∈ group_add r k t ->
  (k' <> k /\ (k', g') ∈ r) \/
  (k' = k /\ exists g, (k, g) ∈ r /\
     g' = mkGroup (gr_transactions g ++ [t])%list (gr_description g) (gr_category g)
                  (gr_type g) (S (gr_count g))) \/
  (k' = k /\ (k ∉ r.*1) /\
   g' = mkGroup [t] (d_description t) (d_category t) (d_type t) 1).
Proof.
  induction r as [|[k0 g0] r IH]; simpl; intros Hnd Hin.
  - apply list_elem_of_singleton in Hin. inversion Hin; subst.
    right. right. split; [reflexivity | split; [apply not_elem_of_nil | reflexivity]].
  - apply NoDup_cons in Hnd as [Hfresh Hnd].
    destruct (String.eqb_spec k0 k) as [-> | Hne].
    + apply elem_of_cons in Hin as [Hin | Hin].
      * inversion Hin; subst. right. left. split; [reflexivity |].
        exists g0. split; [apply elem_of_cons; by left | reflexivity].
      * left. split; [| apply elem_of_cons; by right].
        intros ->. apply Hfresh. apply list_elem_of_fmap. by exists (k, g').
    + apply elem_of_cons in Hin as [Hin | Hin].
      * inversion Hin; subst. left. split; [exact Hne | apply elem_of_cons; by left].
      * destruct (IH Hnd Hin) as [[H1 H2] | [(H1 & g & H2 & H3) | (H1 & H2 & H3)]].
        -- left. split; [exact H1 | apply elem_of_cons; by right].
        -- right. left. split; [exact H1 |]. exists g.
           split; [apply elem_of_cons; by right | exact H3].
        -- right. right. split; [exact H1 | split; [| exact H3]].
           intros H. apply elem_of_cons in H as [H | H]; [congruence | by apply H2].
Qed.

Lemma filter_none {A} (P : A -> Prop) `{!forall x, Decision (P x)} (l : list A) :
  (forall x, x ∈ l -> ~ P x) -> filter P l = [].
Proof.
  induction l as [|x l IH]; intros Hall; [reflexivity |].
  rewrite filter_cons, decide_False by (apply Hall, elem_of_cons; by left).
  apply IH. intros y Hy. apply Hall, elem_of_cons. by right.
Qed.

Lemma grouped_nil : grouped [] [].
Proof.
  split; [constructor | split].
  - intros t H. by apply elem_of_nil in H.
  - intros k g H. by apply elem_of_nil in H.
Qed.

(** One turn of the grouping loop. *)
Lemma group_add_grouped (r : list (string * group)) (seen : list txn_dict) (t : txn_dict) :
  grouped r seen -> grouped (group_add r (group_key t) t) (seen ++ [t])%list.
Proof.
  intros (Hnd & Hkeys & Hent).
  destruct (group_add_keys r (group_key t) t) as [Kin Kout].
  split; [| split].
  - destruct (decide (group_key t ∈ r.*1)) as [Hin | Hout].
    + by rewrite Kin.
    + rewrite Kout by exact Hout. apply NoDup_app. split; [exact Hnd | split].
      * intros x Hx Hx'. apply list_elem_of_singleton in Hx'. by subst.
      * apply NoDup_singleton.
  - intros x Hx. destruct (decide (group_key t ∈ r.*1)) as [Hin | Hout].
    + rewrite Kin by exact Hin.
      apply elem_of_app in Hx as [Hx | Hx]; [by apply Hkeys |].
      apply list_elem_of_singleton in Hx. by subst.
    + rewrite Kout by exact Hout. apply elem_of_app.
      apply elem_of_app in Hx as [Hx | Hx]; [left; by apply Hkeys | right].
      apply list_elem_of_singleton in Hx. subst. by apply list_elem_of_singleton.
  - intros k g Hin. apply group_add_elem in Hin
      as [[Hne Hin] | [(-> & g0 & Hin & ->) | (-> & Hout & ->)]]; [| | | exact Hnd].
    + destruct (Hent k g Hin) as (Htx & Hcnt & Hfirst).
      split; [| split; [exact Hcnt | exact Hfirst]].
      rewrite filter_app, <- Htx.
      rewrite (filter_none _ [t]); [by rewrite app_nil_r |].
      intros x Hx. apply list_elem_of_singleton in Hx. subst.
      intros H. apply String.eqb_eq in H. congruence.
    + destruct (Hent _ g0 Hin) as (Htx & Hcnt & first & Hhd & Hfirst).
      simpl. split; [| split].
      * rewrite filter_app, <- Htx. f_equal.
        rewrite filter_cons, decide_True by apply String.eqb_refl. reflexivity.
      * rewrite length_app, Hcnt. simpl. lia.
      * exists first. split; [| exact Hfirst].
        destruct (gr_transactions g0); [discriminate | exact Hhd].
    + simpl. split; [| split; [reflexivity |]].
      * rewrite filter_app, filter_none.
        -- rewrite filter_cons, decide_True by apply String.eqb_refl. reflexivity.
        -- intros x Hx H. apply String.eqb_eq in H. apply Hout. rewrite H. by apply Hkeys.
      * exists t. repeat split; reflexivity.
Qed.

Lemma fold_grouped (l : list txn_dict) :
  forall (r : list (string * group)) (seen : list txn_dict),
    grouped r seen ->
    grouped (fold_left (fun recurring txn => group_add recurring (group_key txn) txn) l r)
            (seen ++ l)%list.
Proof.
  induction l as [|t l IH]; intros r seen H; simpl.
  - by rewrite app_nil_r.
  - replace (seen ++ t :: l)%list with ((seen ++ [t]) ++ l)%list
      by (by rewrite <- app_assoc).
    apply IH. by apply group_add_grouped.
Qed.

(** After the grouping loop every group holds all the transactions of its
    key, in their order. *)
Lemma group_all_grouped (txns : list txn_dict) : grouped (group_all txns) txns.
Proof. apply (fold_grouped txns [] []), grouped_nil. Qed.

(** ** Predictions: one group, all groups *)

Local Open Scope Q_scope.

(** What a prediction made for a group holds. *)
Lemma predict_group_some (today : Z) (data : group) (p : prediction) :
  predict_group today data = Some (Some p) ->
  let g := gr_transactions data in
  let dates := parse_dates (sorted_by d_date g) in
  (2 <= length g)%nat /\ (2 <= length dates)%nat /\
  25 <= average_gap dates /\ average_gap dates <= 35 /\
  (today < List.last dates 0%Z + 30)%Z /\
  p = mkPrediction (gr_description data) (gr_category data) (gr_type data)
        (average (py_sum (map d_amount (sorted_by d_date g)))
                 (length (map d_amount (sorted_by d_date g))))
        (strftime (List.last dates 0%Z + 30)%Z) (6 # 10).
Proof.
  unfold predict_group. cbv zeta.
  destruct (2 <=? length (gr_transactions data))%nat eqn:E1; [| discriminate].
  destruct (2 <=? length (parse_dates (sorted_by d_date (gr_transactions data))))%nat
    eqn:E2; [| discriminate].
  fold (average_gap (parse_dates (sorted_by d_date (gr_transactions data)))).
  destruct (Qle_bool 25 _) eqn:E3; [| discriminate].
  destruct (Qle_bool _ 35) eqn:E4; [| discriminate]. simpl.
  destruct (max_ordinal <? _)%Z eqn:E5; [discriminate |].
  destruct (today <? _)%Z eqn:E6; [| discriminate].
  intros H. inversion H; subst; clear H.
  apply Nat.leb_le in E1, E2. apply Qle_bool_iff in E3, E4. apply Z.ltb_lt in E6.
  split_and!; try assumption; reflexivity.
Qed.

(** A group whose dates leave room for thirty more days raises nothing. *)
Lemma predict_group_total (today : Z) (data : group) :
  (forall d, d ∈ parse_dates (sorted_by d_date (gr_transactions data)) ->
             (d + 30 <= max_ordinal)%Z) ->
  exists r, predict_group today data = Some r.
Proof.
  intros Hrange. unfold predict_group.
  destruct (2 <=? length (gr_transactions data))%nat; [| by eexists].
  destruct (2 <=? length (parse_dates _))%nat eqn:E2; [| by eexists].
  destruct (Qle_bool 25 _ && Qle_bool _ 35); [| by eexists].
  apply Nat.leb_le in E2.
  assert (List.last (parse_dates (sorted_by d_date (gr_transactions data))) 0%Z + 30
          <= max_ordinal)%Z as Hle.
  { apply Hrange, last_elem. intros Hnil. rewrite Hnil in E2. simpl in E2. lia. }
  apply Z.ltb_ge in Hle. rewrite Hle.
  destruct (today <? _)%Z; by eexists.
Qed.

Lemma predict_groups_elem (today : Z) (r : list (string * group)) :
  forall ps : list prediction,
    predict_groups today r = Some ps ->
    forall p, p ∈ ps <->
              exists k data, (k, data) ∈ r /\ predict_group today data = Some (Some p).
Proof.
  induction r as [|[k0 d0] r IH]; intros ps H p; simpl in H.
  - inversion H; subst. split.
    + intros Hp. by apply elem_of_nil in Hp.
    + intros (k & data & Hin & _). by apply elem_of_nil in Hin.
  - destruct (predict_group today d0) as [op|] eqn:Hone; [| discriminate].
    destruct (predict_groups today r) as [ps'|] eqn:Hrest; [| discriminate].
    specialize (IH ps' eq_refl p). inversion H; subst; clear H. split.
    + intros Hp. destruct op as [p0|].
      * apply elem_of_cons in Hp as [-> | Hp].
        -- exists k0, d0. split; [apply elem_of_cons; by left | exact Hone].
        -- apply IH in Hp as (k & data & Hin & Hp). exists k, data.
           split; [apply elem_of_cons; by right | exact Hp].
      * apply IH in Hp as (k & data & Hin & Hp). exists k, data.
        split; [apply elem_of_cons; by right | exact Hp].
    + intros (k & data & Hin & Hp). apply elem_of_cons in Hin as [Hin | Hin].
      * inversion Hin; subst. rewrite Hone in Hp. inversion Hp; subst.
        apply elem_of_cons. by left.
      * assert (p ∈ ps') as Hps by (apply IH; eauto).
        destruct op; [apply elem_of_cons; by right | exact Hps].
Qed.

Lemma predict_groups_total (today : Z) (r : list (string * group)) :
  (forall k data, (k, data) ∈ r -> exists x, predict_group today data = Some x) ->
  exists ps, predict_groups today r = Some ps.
Proof.
  induction r as [|[k0 d0] r IH]; intros Hall; simpl; [by eexists |].
  destruct (Hall k0 d0) as [x Hx]; [apply elem_of_cons; by left |].
  destruct IH as [ps Hps]; [intros k data Hin; apply (Hall k), elem_of_cons; by right |].
  rewrite Hx, Hps. by eexists.
Qed.

(** ** Predictions: the fallback *)

(** Every prediction of the fallback comes from a group of transactions
    with one key, and the predictions are returned in the order of their
    dates. *)
Lemma fallback_explained (today : Z) (txns : list txn_dict) (preds : list prediction) :
  fallback_predictions today txns = Some preds ->
  Sorted date_leb preds /\
  forall p, p ∈ preds -> explains share_key today txns p.
Proof.
  unfold fallback_predictions.
  destruct (predict_groups today _) as [ps|] eqn:Hps; [| discriminate].
  intros H. inversion H; subst; clear H. split.
  - apply (sorted_by_sorted p_predicted_date).
  - intros p Hp. rewrite (sorted_by_perm p_predicted_date ps) in Hp.
    apply (predict_groups_elem _ _ _ Hps) in Hp as (k & data & Hin & Hone).
    apply list_elem_of_filter in Hin as [Hcount Hin]. simpl in Hcount.
    destruct (group_all_grouped txns) as (_ & _ & Hent).
    destruct (Hent k data Hin) as (Htx & Hcnt & first & Hhd & Hkey & Hd & Hc & Ht).
    apply predict_group_some in Hone as (Hlen & Hdates & Hlo & Hhi & Hnext & ->).
    subst k. exists first. split.
    + apply head_Some_elem_of in Hhd. rewrite Htx in Hhd.
      by apply list_elem_of_filter in Hhd as [_ Hhd].
    + unfold share_key. simpl. rewrite <- Htx.
      split_and!; try assumption; try reflexivity.
      by rewrite sorted_count.
Qed.

Lemma dates_in_range_group (txns g : list txn_dict) :
  dates_in_range txns = true -> g ⊆ txns ->
  forall d, d ∈ parse_dates (sorted_by d_date g) -> (d + 30 <= max_ordinal)%Z.
Proof.
  intros Hrange Hsub d Hd. apply parse_dates_elem in Hd as (t & Hin & Hparse).
  rewrite (sorted_by_perm d_date g) in Hin. apply Hsub in Hin.
  unfold dates_in_range in Hrange. rewrite forallb_forall in Hrange.
  apply list_elem_of_In in Hin. specialize (Hrange t Hin).
  rewrite Hparse in Hrange. by apply Z.leb_le.
Qed.

(** The fallback returns its list when no date is within thirty days of
    the end of the calendar. *)
Lemma fallback_total (today : Z) (txns : list txn_dict) :
  dates_in_range txns = true ->
  exists preds, fallback_predictions today txns = Some preds.
Proof.
  intros Hrange. unfold fallback_predictions.
  destruct (predict_groups_total today
              (filter (fun kv => (2 <= gr_count kv.2)%nat) (group_all txns)))
    as [ps Hps].
  - intros k data Hin. apply list_elem_of_filter in Hin as [_ Hin].
    destruct (group_all_grouped txns) as (_ & _ & Hent).
    destruct (Hent k data Hin) as (Htx & _).
    apply predict_group_total. apply (dates_in_range_group txns); [exact Hrange |].
    rewrite Htx. intros x Hx. by apply list_elem_of_filter in Hx as [_ Hx].
  - rewrite Hps. by eexists.
Qed.




(** * Further properties of the data layer *)

Local Open Scope Q_scope.

Lemma head_filter_None {A} (P : A -> Prop) `{!forall x, Decision (P x)} (l : list A) :
  head (filter P l) = None <-> forall x, x ∈ l -> ~ P x.
Proof.
  rewrite head_None. split.
  - intros Hnil x Hx HP.
    assert (x ∈ filter P l) as Hin by (by apply list_elem_of_filter).
    rewrite Hnil in Hin. by apply elem_of_nil in Hin.
  - intros Hall. by apply filter_none.
Qed.

Lemma head_filter_elem {A} (P : A -> Prop) `{!forall x, Decision (P x)} (l : list A) (x : A) :
  head (filter P l) = Some x -> P x /\ x ∈ l.
Proof.
  intros Hhd. apply head_Some_elem_of in Hhd. by apply list_elem_of_filter in Hhd.
Qed.

(** ** Deleting by id *)

(** [delete_transaction], [delete_goal] and [delete_budget] return False
    exactly when no row has the id, and then change nothing; when they
    return True the row found is gone, the rows with another id are all
    kept and the other tables are untouched. *)
Theorem delete_by_id_spec (db : DB) (id : Z) :
  (let r := DbService.delete_transaction db id in
   (r.1 = false <->
    forall t, t ∈ transactions db -> sql_eqb (t_id t) (PNum (inject_Z id)) = false) /\
   (r.1 = false -> r.2 = db) /\
   (r.1 = true ->
    exists t, find_transaction db id = Some t /\ (t ∉ transactions r.2) /\
      (forall x, x ∈ transactions r.2 <-> x ∈ transactions db /\ x <> t) /\
      (forall x, x ∈ transactions db ->
                 sql_eqb (t_id x) (PNum (inject_Z id)) = false -> x ∈ transactions r.2) /\
      goals r.2 = goals db /\ budgets r.2 = budgets db)) /\
  (let r := DbService.delete_goal db id in
   (r.1 = false <->
    forall g, g ∈ goals db -> sql_eqb (g_id g) (PNum (inject_Z id)) = false) /\
   (r.1 = false -> r.2 = db) /\
   (r.1 = true ->
    exists g, find_goal db id = Some g /\ (g ∉ goals r.2) /\
      (forall x, x ∈ goals r.2 <-> x ∈ goals db /\ x <> g) /\
      (forall x, x ∈ goals db ->
                 sql_eqb (g_id x) (PNum (inject_Z id)) = false -> x ∈ goals r.2) /\
      transactions r.2 = transactions db /\ budgets r.2 = budgets db)) /\
  (let r := DbService.delete_budget db id in
   (r.1 = false <->
    forall b, b ∈ budgets db -> sql_eqb (b_id b) (PNum (inject_Z id)) = false) /\
   (r.1 = false -> r.2 = db) /\
   (r.1 = true ->
    exists b, find_budget db id = Some b /\ (b ∉ budgets r.2) /\
      (forall x, x ∈ budgets r.2 <-> x ∈ budgets db /\ x <> b) /\
      (forall x, x ∈ budgets db ->
                 sql_eqb (b_id x) (PNum (inject_Z id)) = false -> x ∈ budgets r.2) /\
      transactions r.2 = transactions db /\ goals r.2 = goals db)).
Proof.
  split_and!.
  - unfold DbService.delete_transaction, find_transaction.
    destruct (head _) as [t|] eqn:Hf; cbn [fst snd].
    + split; [split; [discriminate |] | split; [discriminate | intros _]].
      * intros Hall. apply head_filter_elem in Hf as [Hp Hin].
        rewrite (Hall t Hin) in Hp. discriminate.
      * pose proof (head_filter_elem _ _ _ Hf) as [Hp Hin].
        exists t. split; [reflexivity |]. simpl.
        split_and!; try reflexivity.
        -- intros H. apply list_elem_of_filter in H as [H _]. by apply H.
        -- intros x. rewrite list_elem_of_filter. tauto.
        -- intros x Hx Hid. apply list_elem_of_filter. split; [| exact Hx].
           intros ->. congruence.
    + split; [split; [intros _ | reflexivity] | split; [reflexivity | discriminate]].
      intros t Hin. rewrite head_filter_None in Hf.
      destruct (sql_eqb (t_id t) _) eqn:E; [| reflexivity]. by destruct (Hf t Hin).
  - unfold DbService.delete_goal, find_goal.
    destruct (head _) as [t|] eqn:Hf; cbn [fst snd].
    + split; [split; [discriminate |] | split; [discriminate | intros _]].
      * intros Hall. apply head_filter_elem in Hf as [Hp Hin].
        rewrite (Hall t Hin) in Hp. discriminate.
      * pose proof (head_filter_elem _ _ _ Hf) as [Hp Hin].
        exists t. split; [reflexivity |]. simpl.
        split_and!; try reflexivity.
        -- intros H. apply list_elem_of_filter in H as [H _]. by apply H.
        -- intros x. rewrite list_elem_of_filter. tauto.
        -- intros x Hx Hid. apply list_elem_of_filter. split; [| exact Hx].
           intros ->. congruence.
    + split; [split; [intros _ | reflexivity] | split; [reflexivity | discriminate]].
      intros t Hin. rewrite head_filter_None in Hf.
      destruct (sql_eqb (g_id t) _) eqn:E; [| reflexivity]. by destruct (Hf t Hin).
  - unfold DbService.delete_budget, find_budget.
    destruct (head _) as [t|] eqn:Hf; cbn [fst snd].
    + split; [split; [discriminate |] | split; [discriminate | intros _]].
      * intros Hall. apply head_filter_elem in Hf as [Hp Hin].
        rewrite (Hall t Hin) in Hp. discriminate.
      * pose proof (head_filter_elem _ _ _ Hf) as [Hp Hin].
        exists t. split; [reflexivity |]. simpl.
        split_and!; try reflexivity.
        -- intros H. apply list_elem_of_filter in H as [H _]. by apply H.
        -- intros x. rewrite list_elem_of_filter. tauto.
        -- intros x Hx Hid. apply list_elem_of_filter. split; [| exact Hx].
           intros ->. congruence.
    + split; [split; [intros _ | reflexivity] | split; [reflexivity | discriminate]].
      intros t Hin. rewrite head_filter_None in Hf.
      destruct (sql_eqb (b_id t) _) eqn:E; [| reflexivity]. by destruct (Hf t Hin).
Qed.

(** ** Updating a goal *)

Ltac column_cases k :=
  repeat match goal with
         | |- context [String.eqb k ?c] => destruct (String.eqb_spec k c); subst
         end.

Lemma store_column_same (g : Goal) (k : string) (v : pyval) :
  k ∈ goal_columns -> goal_column (store_column g k v) k = v.
Proof.
  unfold goal_columns. rewrite !elem_of_cons.
  intros H. repeat (destruct H as [-> | H]; [reflexivity |]).
  by apply elem_of_nil in H.
Qed.

Lemma store_column_diff (g : Goal) (k k' : string) (v : pyval) :
  k <> k' -> goal_column (store_column g k v) k' = goal_column g k'.
Proof.
  intros Hne. unfold store_column. column_cases k; try reflexivity;
    unfold goal_column; column_cases k'; try reflexivity; congruence.
Qed.

Lemma store_fields_column_absent (items : list (string * pyval)) (g : Goal) (k : string) :
  k ∉ items.*1 -> goal_column (store_fields g items) k = goal_column g k.
Proof.
  revert g. induction items as [|[k0 v0] items IH]; intros g Hnot; [reflexivity |].
  simpl in Hnot. apply not_elem_of_cons in Hnot as [Hk Hnot].
  unfold store_fields in *. simpl. rewrite IH by assumption.
  apply store_column_diff. congruence.
Qed.

Lemma store_fields_column_present (items : list (string * pyval)) (g : Goal)
    (k : string) (v : pyval) :
  NoDup items.*1 -> (k, v) ∈ items -> k ∈ goal_columns ->
  goal_column (store_fields g items) k = v.
Proof.
  revert g. induction items as [|[k0 v0] items IH]; intros g Hnd Hin Hcol.
  - by apply elem_of_nil in Hin.
  - simpl in Hnd. apply NoDup_cons in Hnd as [Hfresh Hnd].
    apply elem_of_cons in Hin as [Heq | Hin].
    + inversion Heq; subst. unfold store_fields. simpl.
      change (fold_left _ items ?a) with (store_fields a items).
      rewrite store_fields_column_absent by assumption.
      by apply store_column_same.
    + unfold store_fields in *. simpl. by apply IH.
Qed.

Lemma store_fields_noncolumns (items : list (string * pyval)) (g : Goal) :
  (forall k, k ∈ items.*1 -> k ∉ goal_columns) -> store_fields g items = g.
Proof.
  revert g. induction items as [|[k0 v0] items IH]; intros g Hall; [reflexivity |].
  unfold store_fields in *. simpl.
  rewrite store_column_other_key by (apply Hall; simpl; apply elem_of_cons; by left).
  apply IH. intros k Hk. apply Hall. simpl. apply elem_of_cons. by right.
Qed.

Lemma replace_first_same (gid : Z) (g : Goal) (gs : list Goal) :
  head (filter (fun g => sql_eqb (g_id g) (PNum (inject_Z gid)) = true) gs) = Some g ->
  replace_first gid g gs = gs.
Proof.
  induction gs as [|x gs IH]; simpl; [reflexivity |].
  rewrite filter_cons. destruct (sql_eqb (g_id x) (PNum (inject_Z gid))) eqn:E.
  - rewrite decide_True by reflexivity. simpl. by intros [= ->].
  - rewrite decide_False by discriminate. intros H. f_equal. by apply IH.
Qed.

Lemma replace_first_length (gid : Z) (g : Goal) (gs : list Goal) :
  length (replace_first gid g gs) = length gs.
Proof.
  induction gs as [|x gs IH]; simpl; [reflexivity |].
  destruct (sql_eqb (g_id x) (PNum (inject_Z gid))); simpl; by rewrite ?IH.
Qed.

Lemma with_goals_same (db : DB) : with_goals db (goals db) (next_id db) = db.
Proof. by destruct db. Qed.

(** [update_goal] on a goal that exists, with a payload no assignment of
    which raises: every column the payload names (the keys [id] and
    [user_id] too) holds the payload's value afterwards, every other column
    keeps its value, and the table keeps its size. *)
Theorem update_goal_columns (setattr_raises : string -> pyval -> bool)
    (db : DB) (goal_id : Z) (goal_data : pydict) (g : Goal)
    (Hfound : find_goal db goal_id = Some g)
    (Hquiet : assignable setattr_raises goal_data) :
  let result := update_goal setattr_raises db goal_id goal_data in
  exists g' : Goal,
    result.1 = Some (Some g') /\
    g' ∈ goals result.2 /\
    length (goals result.2) = length (goals db) /\
    forall k, k ∈ goal_columns ->
      goal_column g' k = match goal_data !! k with
                         | Some v => v
                         | None => goal_column g k
                         end.
Proof.
  intros result. subst result. unfold update_goal. rewrite Hfound.
  rewrite update_fields_quiet by (by apply assignable_items).
  cbn [fst snd]. eexists.
  split; [reflexivity | split; [| split]].
  - simpl. eapply replace_first_elem. exact Hfound.
  - simpl. apply replace_first_length.
  - intros k Hk. destruct (goal_data !! k) as [v|] eqn:Hv.
    + apply store_fields_column_present; [apply NoDup_fst_map_to_list | | exact Hk].
      by apply elem_of_map_to_list.
    + apply store_fields_column_absent. intros Hin.
      apply list_elem_of_fmap in Hin as ([k' v'] & -> & Hin). simpl in Hv.
      apply elem_of_map_to_list in Hin. congruence.
Qed.

Lemma update_goal_columns_witness :
  find_goal sample_goal_db 1 = Some (create_goal empty_db "u1" sample_goal_data).1 /\
  assignable class_is_fixed sample_move_update /\
  exists g' : Goal,
    (update_goal class_is_fixed sample_goal_db 1 sample_move_update).1
    = Some (Some g') /\
    g_user_id g' = PStr "u2" /\ g_current_amount g' = PNum 10 /\
    get_goals (update_goal class_is_fixed sample_goal_db 1 sample_move_update).2 "u1"
    = [] /\
    get_goals (update_goal class_is_fixed sample_goal_db 1 sample_move_update).2 "u2"
    = [g'].
Proof.
  assert (Hg : find_goal sample_goal_db 1
               = Some (create_goal empty_db "u1" sample_goal_data).1) by reflexivity.
  assert (Hq : assignable class_is_fixed sample_move_update).
  { intros k x Hk _. unfold class_is_fixed.
    destruct (String.eqb_spec k "__class__") as [-> |]; [| reflexivity].
    vm_compute in Hk. discriminate. }
  split; [exact Hg | split; [exact Hq |]].
  destruct (update_goal_columns class_is_fixed sample_goal_db 1 sample_move_update
              _ Hg Hq) as (g' & H1 & _).
  exists g'. split; [exact H1 |].
  vm_compute in H1. injection H1 as <-. repeat split; reflexivity.
Defined.

(** [update_goal] answers None and changes nothing when no goal has the
    id.  On a goal that exists, a payload with an assignment that raises
    changes nothing, whatever columns it names: the exception leaves the
    function before the commit.  A payload no key of which names a column
    and no assignment of which raises returns the goal as it was. *)
Theorem update_goal_no_effect (setattr_raises : string -> pyval -> bool)
    (db : DB) (goal_id : Z) (goal_data : pydict) :
  (find_goal db goal_id = None ->
   update_goal setattr_raises db goal_id goal_data = (Some None, db)) /\
  (forall g, find_goal db goal_id = Some g ->
     refused setattr_raises goal_data ->
     update_goal setattr_raises db goal_id goal_data = (None, db)) /\
  (forall g, find_goal db goal_id = Some g ->
     (forall k, k ∈ goal_columns -> goal_data !! k = None) ->
     assignable setattr_raises goal_data ->
     update_goal setattr_raises db goal_id goal_data = (Some (Some g), db)).
Proof.
  split_and!.
  - intros H. unfold update_goal. by rewrite H.
  - intros g Hg Hr. unfold update_goal. rewrite Hg.
    by rewrite update_fields_refused by (by apply refused_items).
  - intros g Hg Hkeys Hq. unfold update_goal. rewrite Hg.
    rewrite update_fields_quiet by (by apply assignable_items).
    rewrite store_fields_noncolumns.
    + unfold find_goal in Hg. rewrite (replace_first_same _ _ _ Hg).
      by rewrite with_goals_same.
    + intros k Hin Hcol. apply list_elem_of_fmap in Hin as ([k' v'] & -> & Hin).
      apply elem_of_map_to_list in Hin. simpl in Hcol.
      rewrite (Hkeys _ Hcol) in Hin. discriminate.
Qed.

Lemma update_goal_no_effect_witness :
  find_goal sample_goal_db 1 = Some (create_goal empty_db "u1" sample_goal_data).1 /\
  sample_class_update !! "current_amount" = Some (PNum 500) /\
  update_goal class_is_fixed sample_goal_db 1 sample_class_update
  = (None, sample_goal_db).
Proof.
  assert (Hg : find_goal sample_goal_db 1
               = Some (create_goal empty_db "u1" sample_goal_data).1) by reflexivity.
  split; [exact Hg | split; [reflexivity |]].
  destruct (update_goal_no_effect class_is_fixed sample_goal_db 1 sample_class_update)
    as (_ & Hraise & _).
  apply (Hraise _ Hg). exists "__class__", PNone.
  split; [reflexivity | split; [| reflexivity]].
  unfold goal_columns. rewrite !not_elem_of_cons.
  split_and!; try discriminate. apply not_elem_of_nil.
Defined.

(** ** Creating and listing *)

Lemma filter_snoc {A} (P : A -> Prop) `{!forall x, Decision (P x)} (l : list A) (x : A) :
  filter P (l ++ [x])%list = (filter P l ++ if decide (P x) then [x] else [])%list.
Proof. by rewrite filter_app. Qed.

(** [create_goal] gives the goal the owner and a [current_amount] of 0.0
    when the payload has none (an explicit None is stored as it is); the
    owner's listing grows by the goal at its end, the listings of the
    other users and the transactions and budgets stay as they were. *)
Theorem create_goal_listed (db : DB) (user_id : string) (goal_data : pydict) :
  let goal := (create_goal db user_id goal_data).1 in
  let db' := (create_goal db user_id goal_data).2 in
  g_user_id goal = PStr user_id /\
  (goal_data !! "current_amount" = None -> g_current_amount goal = PNum 0) /\
  (goal_data !! "current_amount" = Some PNone -> g_current_amount goal = PNone) /\
  get_goals db' user_id = (get_goals db user_id ++ [goal])%list /\
  (forall v, v <> user_id -> get_goals db' v = get_goals db v) /\
  transactions db' = transactions db /\ budgets db' = budgets db.
Proof.
  simpl. split_and!; try reflexivity.
  - unfold dict_get_default. by intros ->.
  - unfold dict_get_default. by intros ->.
  - unfold get_goals. simpl. rewrite filter_snoc, decide_True; [reflexivity |].
    simpl. apply String.eqb_refl.
  - intros v Hv. unfold get_goals. simpl. rewrite filter_snoc, decide_False.
    + by rewrite app_nil_r.
    + simpl. intros H. apply String.eqb_eq in H. congruence.
Qed.

Lemma check_budgets_snoc (cs : list (pyval * Q)) (total : Q) (bs : list Budget) (b : Budget) :
  check_budgets cs total (bs ++ [b])%list =
  match check_budgets cs total bs, check_one_budget cs total b with
  | Some ws, Some (Some w) => Some (ws ++ [w])%list
  | Some ws, Some None => Some ws
  | _, _ => None
  end.
Proof.
  induction bs as [|b0 bs IH]; simpl.
  - destruct (check_one_budget cs total b) as [[w|]|]; reflexivity.
  - destruct (check_one_budget cs total b0) as [ow|]; [| reflexivity].
    rewrite IH. destruct (check_budgets cs total bs) as [ws|]; [| reflexivity].
    destruct (check_one_budget cs total b) as [[w|]|]; destruct ow; reflexivity.
Qed.

(** A budget created for a user adds at most one warning to the user's
    budget status, after the warnings there were, and changes none of
    them; the status of the other users is the same. *)
Theorem create_budget_status (db : DB) (user_id current_month : string)
    (budget_data : pydict) (ws : list Warning) (amount : Q)
    (Hamount : budget_data !! "amount" = Some (PNum amount))
    (Hstatus : check_budget_status db user_id current_month = Some ws) :
  let budget := (create_budget db user_id budget_data).1 in
  let db' := (create_budget db user_id budget_data).2 in
  (check_budget_status db' user_id current_month = Some ws \/
   exists w, check_budget_status db' user_id current_month = Some (ws ++ [w])%list /\
             w_budget w = budget /\
             w_spent w = spent_in_month db user_id current_month budget) /\
  forall v, v <> user_id ->
    check_budget_status db' v current_month = check_budget_status db v current_month.
Proof.
  simpl. split.
  - unfold check_budget_status in *. unfold month_expenses in *. simpl.
    destruct (accumulate_spending _ _) as [[cs total]|] eqn:Hacc; [| discriminate].
    unfold user_budgets in *. simpl. rewrite filter_snoc, decide_True
      by (simpl; apply String.eqb_refl).
    rewrite check_budgets_snoc, Hstatus.
    destruct (check_one_budget cs total _) as [[w|]|] eqn:Hone.
    + right. exists w. split; [reflexivity |].
      apply check_one_budget_warning in Hone as (a & _ & Hb & Hsp & _).
      split; [exact Hb |]. rewrite Hsp.
      by apply (budget_spent_spec db user_id current_month).
    + by left.
    + unfold check_one_budget in Hone. simpl in Hone. unfold dict_get in Hone.
      rewrite Hamount in Hone. simpl in Hone.
      repeat (match type of Hone with
              | context [if ?c then _ else _] => destruct c
              end); discriminate.
  - intros v Hv. unfold check_budget_status, month_expenses, user_budgets. simpl.
    rewrite filter_snoc, decide_False.
    + by rewrite app_nil_r.
    + simpl. intros H. apply String.eqb_eq in H. congruence.
Qed.

(** ** Balance *)

Lemma sum_from_snoc (amounts : list pyval) (a acc : Q) :
  sum_from acc (amounts ++ [PNum a])%list = (fun s => s + a) <$> sum_from acc amounts.
Proof.
  revert acc. induction amounts as [|x amounts IH]; intros acc; simpl; [reflexivity |].
  destruct (as_num x); [apply IH | reflexivity].
Qed.

Lemma sum_amounts_snoc (rows : list Transaction) (t : Transaction) (a : Q) :
  t_amount t = PNum a ->
  sum_amounts (rows ++ [t])%list = (fun s => s + a) <$> sum_amounts rows.
Proof.
  intros Ha. unfold sum_amounts. rewrite map_app. simpl. rewrite Ha.
  apply sum_from_snoc.
Qed.

(** The rows of a user and a type after a transaction was created. *)
Lemma typed_transactions_create (db : DB) (u : string) (data : pydict) (v type : string) :
  typed_transactions (create_transaction db u data).2 v type
  = (typed_transactions db v type
     ++ if String.eqb u v && sql_eqb (dict_get data "type") (PStr type)
        then [(create_transaction db u data).1] else [])%list.
Proof.
  unfold typed_transactions. simpl. rewrite filter_snoc. simpl.
  destruct (String.eqb u v && sql_eqb (dict_get data "type") (PStr type)) eqn:E.
  - by rewrite decide_True.
  - by rewrite decide_False by discriminate.
Qed.



(** ** Summary *)

(** The summary agrees with the other functions of the data layer: its
    balance is the one [calculate_balance] returns, its count the length of
    [get_transactions], its balance the total income less the total
    expenses; it raises exactly where [calculate_balance] raises or a
    monthly sum does. *)
Theorem summary_agrees_with_balance (db : DB) (user_id current_month : string)
    (s : Summary)
    (Hsummary : get_transaction_summary db user_id current_month = Some s) :
  calculate_balance db user_id = Some (sm_balance s) /\
  sm_total_transactions s = length (get_transactions db user_id) /\
  sm_balance s = sm_total_income s - sm_total_expenses s /\
  sum_amounts (typed_transactions db user_id "income") = Some (sm_total_income s) /\
  sum_amounts (monthly_transactions db user_id "expense" current_month)
  = Some (sm_monthly_expenses s).
Proof.
  unfold get_transaction_summary, calculate_balance in *.
  destruct (sum_amounts (typed_transactions db user_id "income")) as [ti|];
    [| discriminate].
  destruct (sum_amounts (typed_transactions db user_id "expense")) as [te|];
    [| discriminate].
  simpl in *.
  destruct (sum_amounts (monthly_transactions db user_id "income" current_month))
    as [mi|]; [| discriminate].
  destruct (sum_amounts (monthly_transactions db user_id "expense" current_month))
    as [me|]; [| discriminate].
  simpl in Hsummary. injection Hsummary as <-. simpl. repeat split; reflexivity.
Qed.

Lemma py_max0_nonneg (x : Q) : 0 <= py_max0 x.
Proof.
  unfold py_max0, Qltb. destruct (Qle_bool x 0) eqn:E; simpl.
  - apply Qle_refl.
  - apply Qle_bool_false in E. by apply Qlt_le_weak.
Qed.

Lemma py_max0_le (x y : Q) : 0 <= y -> x <= y -> py_max0 x <= y.
Proof.
  intros Hy Hx. unfold py_max0. by destruct (Qltb 0 x).
Qed.

(** The savings rate of the summary is never negative; it is 0 when the
    month's income is not positive or does not exceed the month's
    expenses, and it is at most 1 when the month's expenses are not
    negative. *)
Theorem summary_savings_rate (db : DB) (user_id current_month : string) (s : Summary)
    (Hsummary : get_transaction_summary db user_id current_month = Some s) :
  0 <= sm_savings_rate s /\
  (sm_monthly_income s <= 0 -> sm_savings_rate s = 0) /\
  (sm_monthly_income s <= sm_monthly_expenses s -> sm_savings_rate s = 0) /\
  (0 <= sm_monthly_expenses s -> sm_savings_rate s <= 1) /\
  (0 < sm_monthly_income s -> sm_monthly_expenses s < sm_monthly_income s ->
   sm_savings_rate s
   = (sm_monthly_income s - sm_monthly_expenses s) / sm_monthly_income s).
Proof.
  unfold get_transaction_summary in Hsummary.
  destruct (sum_amounts (typed_transactions db user_id "income")) as [ti|];
    [| discriminate].
  destruct (sum_amounts (typed_transactions db user_id "expense")) as [te|];
    [| discriminate].
  simpl in Hsummary.
  destruct (sum_amounts (monthly_transactions db user_id "income" current_month))
    as [mi|]; [| discriminate].
  destruct (sum_amounts (monthly_transactions db user_id "expense" current_month))
    as [me|]; [| discriminate].
  simpl in Hsummary. injection Hsummary as <-. simpl.
  unfold Qltb. destruct (Qle_bool mi 0) eqn:E; simpl.
  - apply Qle_bool_iff in E. split_and!; try reflexivity; try discriminate.
    intros Hpos. q_absurd Hpos E.
  - apply Qle_bool_false in E. split_and!.
    + apply py_max0_nonneg.
    + intros Hle. q_absurd E Hle.
    + intros Hle. apply py_max0_nonpositive.
      apply Qle_shift_div_r; [exact E |]. lra.
    + intros Hme. apply py_max0_le; [discriminate |].
      apply Qle_shift_div_r; [exact E |]. lra.
    + intros _ Hlt. unfold py_max0, Qltb.
      assert (Qle_bool ((mi - me) / mi) 0 = false) as ->; [| reflexivity].
      apply Qle_bool_false. apply Qlt_shift_div_l; [exact E |]. lra.
Qed.

(** ** Spending by key *)

Lemma fold_Qplus_start (l : list Q) (a : Q) : fold_left Qplus l a == a + py_sum l.
Proof.
  unfold py_sum. revert a. induction l as [|x l IH]; intros a; simpl; [ring |].
  rewrite IH, (IH (0 + x)). ring.
Qed.

Lemma py_sum_cons (x : Q) (l : list Q) : py_sum (x :: l) == x + py_sum l.
Proof. unfold py_sum at 1. simpl. rewrite fold_Qplus_start. ring. Qed.

Lemma total_of_set (d : list (pyval * Q)) (k : pyval) (v : Q) :
  total_of (spending_set d k v) == total_of d - spending_of d k + v.
Proof.
  unfold total_of, spending_of. induction d as [|[k' v'] d IH]; simpl.
  - rewrite py_sum_cons. unfold py_sum. simpl. ring.
  - destruct (py_eqb k' k); simpl; rewrite !py_sum_cons; [ring |].
    rewrite IH. ring.
Qed.

Lemma spending_get_set_None (d : list (pyval * Q)) (k c : pyval) (v : Q) :
  spending_get (spending_set d k v) c = None <->
  spending_get d c = None /\ py_eqb k c = false.
Proof.
  destruct (py_eqb k c) eqn:E.
  - rewrite <- (spending_get_compat _ k c E), spending_get_set_same.
    split; [discriminate | intros [_ H]; discriminate].
  - rewrite spending_get_set_other by exact E. tauto.
Qed.

(** One turn of a grouping loop. *)
Lemma add_to_key_spec (d d' : list (pyval * Q)) (k amount : pyval) :
  add_to_key d k amount = Some d' ->
  exists a : Q,
    amount = PNum a /\
    (forall c, spending_of d' c
               = if py_eqb k c then (spending_of d c + a)%Q else spending_of d c) /\
    (forall c, spending_get d' c = None <-> spending_get d c = None /\ py_eqb k c = false) /\
    total_of d' == total_of d + a.
Proof.
  unfold add_to_key. destruct amount as [|s|a]; simpl; try discriminate.
  intros H. injection H as <-. exists a. split; [reflexivity |].
  destruct (spending_get d k) as [v|] eqn:G.
  - rewrite G. split_and!.
    + intros c. rewrite spending_of_set. destruct (py_eqb k c) eqn:E; [| reflexivity].
      unfold spending_of. by rewrite <- (spending_get_compat d k c E), G.
    + intros c. apply spending_get_set_None.
    + rewrite total_of_set. unfold spending_of. rewrite G. ring.
  - rewrite spending_get_set_same. split_and!.
    + intros c. rewrite !spending_of_set. destruct (py_eqb k c) eqn:E; [| reflexivity].
      unfold spending_of. by rewrite <- (spending_get_compat d k c E), G.
    + intros c. rewrite !spending_get_set_None. tauto.
    + rewrite !total_of_set. unfold spending_of.
      rewrite spending_get_set_same, G. ring.
Qed.

(** What a grouping loop leaves in its dictionary: under every key the sum
    of the amounts of the rows with that key, in their order; no entry for
    a key no row has; in all, the sum of the amounts of the rows. *)
Lemma spending_by_key_spec (key : Transaction -> option pyval) (txns : list Transaction) :
  forall d d' : list (pyval * Q),
    spending_by_key key d txns = Some d' ->
    (forall c, spending_of d' c
               = fold_left Qplus
                   (map amount_of (filter (fun t => has_key key c t = true) txns))
                   (spending_of d c)) /\
    (forall c, spending_get d' c = None <->
               spending_get d c = None /\
               filter (fun t => has_key key c t = true) txns = []) /\
    total_of d' == total_of d + py_sum (map amount_of txns).
Proof.
  induction txns as [|t txns IH]; intros d d' H; cbn [spending_by_key] in H.
  - inversion H; subst. split_and!.
    + intros c. reflexivity.
    + intros c. tauto.
    + change (py_sum (map amount_of [])) with 0. ring.
  - destruct (key t) as [k|] eqn:Hk; [| discriminate].
    destruct (add_to_key d k (t_amount t)) as [d1|] eqn:Hadd; [| discriminate].
    apply add_to_key_spec in Hadd as (a & Ha & Hof & Hnone & Htot).
    apply IH in H as (Hof' & Hnone' & Htot').
    assert (Hkey : forall c, has_key key c t = py_eqb k c)
      by (intros c; unfold has_key; by rewrite Hk).
    split_and!.
    + intros c. rewrite Hof', Hof, filter_cons, Hkey.
      destruct (py_eqb k c) eqn:E.
      * rewrite decide_True by reflexivity. simpl.
        by rewrite (amount_of_num t a Ha).
      * by rewrite decide_False by discriminate.
    + intros c. rewrite Hnone', Hnone, filter_cons, Hkey.
      destruct (py_eqb k c) eqn:E.
      * rewrite decide_True by reflexivity.
        split; [intros [[_ H1] _]; discriminate | intros [_ H1]; discriminate].
      * rewrite decide_False by discriminate. tauto.
    + rewrite Htot', Htot. simpl. rewrite py_sum_cons, (amount_of_num t a Ha). ring.
Qed.

Lemma spending_by_key_entries (key : Transaction -> option pyval)
    (txns : list Transaction) (d : list (pyval * Q)) :
  spending_by_key key [] txns = Some d ->
  (forall c,
     let rows := filter (fun t => has_key key c t = true) txns in
     (rows = [] -> spending_get d c = None) /\
     (rows <> [] -> spending_get d c = Some (py_sum (map amount_of rows)))) /\
  total_of d == py_sum (map amount_of txns).
Proof.
  intros H. apply spending_by_key_spec in H as (Hof & Hnone & Htot). split.
  - intros c rows. subst rows. split.
    + intros Hrows. apply Hnone. by split.
    + intros Hrows. specialize (Hof c). unfold spending_of in Hof.
      destruct (spending_get d c) as [v|] eqn:G.
      * by rewrite Hof.
      * apply Hnone in G as [_ G]. congruence.
  - rewrite Htot. unfold total_of, py_sum. simpl. ring.
Qed.

Lemma sum_from_fold (rows : list Transaction) :
  forall acc x, sum_from acc (map t_amount rows) = Some x ->
                x = fold_left Qplus (map amount_of rows) acc.
Proof.
  induction rows as [|t rows IH]; intros acc x H; simpl in H.
  - by injection H as <-.
  - destruct (t_amount t) as [|s|a] eqn:Ha; simpl in H; try discriminate.
    simpl. rewrite (amount_of_num t a Ha). by apply IH.
Qed.

Lemma expenses_unbounded (db : DB) (u : string) :
  expenses_between db u None None = typed_transactions db u "expense".
Proof.
  unfold expenses_between, typed_transactions. apply list_filter_iff.
  intros t. simpl. by rewrite !andb_true_r.
Qed.

(** [get_category_spending] holds, under each category, the sum of the
    amounts of the user's expenses of that category within the bounds,
    added from 0 in the order of the rows, and no entry for a category
    without such an expense. *)
Theorem get_category_spending_spec (db : DB) (user_id : string)
    (start_date end_date : option string) (d : list (pyval * Q))
    (Hd : get_category_spending db user_id start_date end_date = Some d) :
  (forall c,
     let rows := filter (fun t => py_eqb (t_category t) c = true)
                        (expenses_between db user_id start_date end_date) in
     (rows = [] -> spending_get d c = None) /\
     (rows <> [] -> spending_get d c = Some (py_sum (map amount_of rows)))).
Proof.
  unfold get_category_spending in Hd.
  by apply spending_by_key_entries in Hd as [Hrows _].
Qed.

(** [get_daily_spending] holds, under each date, the sum of the amounts of
    the user's expenses of that date within the bounds, added from 0 in
    the order of the rows, and no entry for a date without such an
    expense. *)
Theorem get_daily_spending_spec (db : DB) (user_id : string)
    (start_date end_date : option string) (d : list (pyval * Q))
    (Hd : get_daily_spending db user_id start_date end_date = Some d) :
  (forall c,
     let rows := filter (fun t => py_eqb (t_date t) c = true)
                        (expenses_between db user_id start_date end_date) in
     (rows = [] -> spending_get d c = None) /\
     (rows <> [] -> spending_get d c = Some (py_sum (map amount_of rows)))).
Proof.
  unfold get_daily_spending in Hd.
  by apply spending_by_key_entries in Hd as [Hrows _].
Qed.

Lemma prefix_substring7 (m s : string) :
  String.length m = 7%nat ->
  String.prefix m s = true <-> String.substring 0 7 s = m.
Proof. intros <-. apply String.prefix_correct. Qed.

(** The month's total the budget check uses for an "All Categories"
    budget is the amount [get_monthly_spending] reports for that month. *)
Theorem monthly_spending_matches_budget_check (db : DB) (user_id month : string)
    (d : list (pyval * Q)) (b : Budget)
    (Hmonth : String.length month = 7%nat)
    (Hd : get_monthly_spending db user_id None = Some d)
    (Hall : py_eqb (b_category b) (PStr "All Categories") = true) :
  spending_of d (PStr month) = spent_in_month db user_id month b.
Proof.
  unfold get_monthly_spending in Hd.
  apply spending_by_key_spec in Hd as (Hof & _ & _). rewrite Hof.
  unfold spent_in_month, in_budget_scope, py_sum. rewrite Hall. simpl.
  rewrite (filter_all (fun _ => true = true)) by reflexivity.
  f_equal. f_equal. rewrite list_filter_filter. unfold month_expenses.
  apply list_filter_iff. intros t. unfold has_key, month_of, sql_like_prefix.
  destruct (t_date t) as [|s|q]; simpl; rewrite ?andb_true_r, ?andb_false_r.
  - split; [intros [H _]; discriminate | discriminate].
  - rewrite !andb_true_iff, (prefix_substring7 month s Hmonth), String.eqb_eq. tauto.
  - split; [intros [H _]; discriminate | discriminate].
Qed.


(** ** Witnesses *)

Lemma create_budget_status_witness :
  sample_travel_budget !! "amount" = Some (PNum 40) /\
  (exists ws, check_budget_status sample_budget_db "u1" "2024-03" = Some ws /\
              length ws = 2%nat) /\
  exists ws',
    check_budget_status (create_budget sample_budget_db "u1" sample_travel_budget).2
                        "u1" "2024-03" = Some ws' /\
    map w_severity ws' = ["low"; "high"; "high"] /\ map w_spent ws' = [80; 120; 40].
Proof.
  assert (Ha : sample_travel_budget !! "amount" = Some (PNum 40)) by reflexivity.
  destruct (check_budget_status sample_budget_db "u1" "2024-03") as [ws|] eqn:Hws;
    [| vm_compute in Hws; discriminate].
  pose proof Hws as Hws'. vm_compute in Hws'. injection Hws' as <-.
  split; [exact Ha | split].
  - eexists. split; reflexivity.
  - destruct (create_budget_status sample_budget_db "u1" "2024-03"
                sample_travel_budget _ 40 Ha Hws) as [[H | (w & H & _)] _].
    + vm_compute in H. discriminate.
    + eexists. split; [exact H |].
      vm_compute in H. injection H as H. rewrite <- H. split; reflexivity.
Defined.

Lemma summary_agrees_with_balance_witness :
  exists s,
    get_transaction_summary sample_budget_db "u1" "2024-03" = Some s /\
    calculate_balance sample_budget_db "u1" = Some (sm_balance s) /\
    sm_total_transactions s = 4%nat /\ sm_balance s == 380.
Proof.
  destruct (get_transaction_summary sample_budget_db "u1" "2024-03") as [s|] eqn:Hs;
    [| vm_compute in Hs; discriminate].
  destruct (summary_agrees_with_balance sample_budget_db "u1" "2024-03" s Hs)
    as (Hbal & Hcount & _).
  exists s. split; [reflexivity | split; [exact Hbal |]].
  vm_compute in Hs. injection Hs as <-. split; reflexivity.
Defined.

Lemma summary_savings_rate_witness :
  exists s,
    get_transaction_summary sample_budget_db "u1" "2024-03" = Some s /\
    0 <= sm_savings_rate s /\ sm_savings_rate s == 88 # 100.
Proof.
  destruct (get_transaction_summary sample_budget_db "u1" "2024-03") as [s|] eqn:Hs;
    [| vm_compute in Hs; discriminate].
  destruct (summary_savings_rate sample_budget_db "u1" "2024-03" s Hs) as (Hpos & _).
  exists s. split; [reflexivity | split; [exact Hpos |]].
  vm_compute in Hs. injection Hs as <-. reflexivity.
Defined.

Lemma get_category_spending_spec_witness :
  exists d,
    get_category_spending sample_budget_db "u1" (Some "2024-03-01") None = Some d /\
    spending_get d (PStr "Food") = Some (0 + 80) /\
    spending_get d (PStr "Salary") = None.
Proof.
  destruct (get_category_spending sample_budget_db "u1" (Some "2024-03-01") None)
    as [d|] eqn:Hd; [| vm_compute in Hd; discriminate].
  pose proof (get_category_spending_spec _ _ _ _ d Hd) as Hrows.
  exists d. split; [reflexivity | split].
  - pose proof (Hrows (PStr "Food")) as H. cbv zeta in H. destruct H as [_ H].
    rewrite H by (vm_compute; discriminate). reflexivity.
  - pose proof (Hrows (PStr "Salary")) as H. cbv zeta in H. destruct H as [H _].
    apply H. reflexivity.
Defined.

Lemma get_daily_spending_spec_witness :
  exists d,
    get_daily_spending sample_budget_db "u1" None (Some "2024-03-08") = Some d /\
    spending_get d (PStr "2024-03-05") = Some (0 + 80) /\
    spending_get d (PStr "2024-03-09") = None.
Proof.
  destruct (get_daily_spending sample_budget_db "u1" None (Some "2024-03-08"))
    as [d|] eqn:Hd; [| vm_compute in Hd; discriminate].
  pose proof (get_daily_spending_spec _ _ _ _ d Hd) as Hrows.
  exists d. split; [reflexivity | split].
  - pose proof (Hrows (PStr "2024-03-05")) as H. cbv zeta in H. destruct H as [_ H].
    rewrite H by (vm_compute; discriminate). reflexivity.
  - pose proof (Hrows (PStr "2024-03-09")) as H. cbv zeta in H. destruct H as [H _].
    apply H. reflexivity.
Defined.


Lemma monthly_spending_matches_budget_check_witness :
  String.length "2024-03" = 7%nat /\
  py_eqb (b_category (sample_budget 7 "u1" "All Categories" 100))
         (PStr "All Categories") = true /\
  exists d,
    get_monthly_spending sample_budget_db "u1" None = Some d /\
    spending_of d (PStr "2024-03")
    = spent_in_month sample_budget_db "u1" "2024-03"
                     (sample_budget 7 "u1" "All Categories" 100) /\
    spending_of d (PStr "2024-03") = 0 + 80 + 40.
Proof.
  split; [reflexivity | split; [reflexivity |]].
  destruct (get_monthly_spending sample_budget_db "u1" None) as [d|] eqn:Hd;
    [| vm_compute in Hd; discriminate].
  exists d. split; [reflexivity | split].
  - exact (monthly_spending_matches_budget_check sample_budget_db "u1" "2024-03" d
             (sample_budget 7 "u1" "All Categories" 100) eq_refl Hd eq_refl).
  - vm_compute in Hd. injection Hd as <-. reflexivity.
Defined.

(** ** After a reset *)

Lemma fold_remove_eq {A} `{!EqDecision A} (f : A -> DB -> DB) (proj : DB -> list A) :
  (forall x d, proj (f x d) = filter (fun y => y <> x) (proj d)) ->
  forall (l : list A) (d : DB),
    proj (fold_left (fun d x => f x d) l d) = filter (fun y => y ∉ l) (proj d).
Proof.
  intros Hf. induction l as [|x l IH]; intros d; simpl.
  - rewrite filter_all; [reflexivity |]. intros y _. apply not_elem_of_nil.
  - rewrite IH, Hf, list_filter_filter. apply list_filter_iff.
    intros y. rewrite not_elem_of_cons. tauto.
Qed.

(** The tables after the deletions of a reset: the rows that are not the
    user's, in their order. *)
Lemma after_budgets_tables_eq (db : DB) (u : string) :
  transactions (after_budgets db u)
  = filter (fun t => t ∉ transactions_of db u) (transactions db) /\
  goals (after_budgets db u) = filter (fun g => g ∉ goals_of db u) (goals db) /\
  budgets (after_budgets db u) = filter (fun b => b ∉ budgets_of db u) (budgets db).
Proof.
  destruct (after_budgets_tables db u) as (_ & _ & Ht & Hg & _).
  destruct (after_analyses_tables db u) as (_ & Ht2 & _).
  destruct (after_transactions_tables db u) as (_ & _ & Hg3 & _).
  destruct (after_goals_tables db u) as (_ & _ & _ & Hb4 & _).
  destruct (later_queries db u) as (_ & Qt & Qg & Qb).
  split_and!.
  - rewrite Ht. unfold after_transactions. simpl.
    rewrite (fold_remove_eq remove_transaction transactions) by reflexivity.
    by rewrite Qt, Ht2.
  - rewrite Hg. unfold after_goals. simpl.
    rewrite (fold_remove_eq remove_goal goals) by reflexivity.
    by rewrite Qg, Hg3.
  - unfold after_budgets. simpl.
    rewrite (fold_remove_eq remove_budget budgets) by reflexivity.
    by rewrite Qb, Hb4.
Qed.

Lemma filter_own_removed {A} `{!EqDecision A} (P Pu : A -> Prop)
    `{!forall x, Decision (P x)} `{!forall x, Decision (Pu x)} (l : list A) :
  (forall x, P x -> Pu x) ->
  filter P (filter (fun y => y ∉ filter Pu l) l) = [].
Proof.
  intros Himp. apply filter_none. intros x Hx HP.
  apply list_elem_of_filter in Hx as [Hnot Hx]. apply Hnot.
  apply list_elem_of_filter. split; [by apply Himp | exact Hx].
Qed.

Lemma filter_other_kept {A} `{!EqDecision A} (P Pu : A -> Prop)
    `{!forall x, Decision (P x)} `{!forall x, Decision (Pu x)} (l : list A) :
  (forall x, P x -> ~ Pu x) ->
  filter P (filter (fun y => y ∉ filter Pu l) l) = filter P l.
Proof.
  intros Hexcl. rewrite list_filter_filter. apply list_filter_iff. intros x.
  split; [by intros [Hp _] | intros Hp; split; [exact Hp |]].
  intros Hin. apply list_elem_of_filter in Hin as [Hu _]. by apply (Hexcl x).
Qed.

(** After a reset that returned True the listings of the user are empty,
    the balance is 0 and the budget check has no warning; the listings of
    every other user are what they were, in the same order. *)
Theorem after_reset_listings (raises : nat -> bool) (db : DB) (user_id : string)
    (Hok : (reset_user_data raises db user_id).1.1 = true) :
  let db' := (reset_user_data raises db user_id).1.2 in
  get_transactions db' user_id = [] /\
  get_goals db' user_id = [] /\
  get_budgets db' user_id = [] /\
  calculate_balance db' user_id = Some 0 /\
  (forall month, check_budget_status db' user_id month = Some []) /\
  (forall v, v <> user_id ->
     get_transactions db' v = get_transactions db v /\
     get_goals db' v = get_goals db v /\
     get_budgets db' v = get_budgets db v).
Proof.
  destruct (reset_user_data_cases raises db user_id)
    as [(Heq & _ & _) | [(lg & Heq & _) _]]; rewrite Heq in *; cbn [fst snd] in *;
    [| discriminate].
  destruct (after_budgets_tables_eq db user_id) as (Ht & Hg & Hb).
  assert (Htx : get_transactions (after_budgets db user_id) user_id = []).
  { unfold get_transactions. rewrite Ht. unfold transactions_of.
    by apply filter_own_removed. }
  assert (Hbu : get_budgets (after_budgets db user_id) user_id = []).
  { unfold get_budgets. rewrite Hb. unfold budgets_of. by apply filter_own_removed. }
  assert (Hty : forall ty, typed_transactions (after_budgets db user_id) user_id ty = []).
  { intros ty. unfold typed_transactions. rewrite Ht. unfold transactions_of.
    apply filter_own_removed. intros x Hx. by apply andb_true_iff in Hx as [Hx _]. }
  split_and!.
  - exact Htx.
  - unfold get_goals. rewrite Hg. unfold goals_of. by apply filter_own_removed.
  - exact Hbu.
  - unfold calculate_balance. by rewrite !Hty.
  - intros month. unfold check_budget_status.
    assert (month_expenses (after_budgets db user_id) user_id month = []) as ->.
    { unfold month_expenses. rewrite Ht. unfold transactions_of.
      apply filter_own_removed. intros x Hx.
      apply andb_true_iff in Hx as [Hx _]. by apply andb_true_iff in Hx as [Hx _]. }
    simpl. unfold get_budgets in Hbu. unfold user_budgets. by rewrite Hbu.
  - intros v Hv. split_and!.
    + unfold get_transactions. rewrite Ht. unfold transactions_of.
      apply filter_other_kept. intros x H1 H2.
      apply sql_eqb_str in H1, H2. congruence.
    + unfold get_goals. rewrite Hg. unfold goals_of.
      apply filter_other_kept. intros x H1 H2.
      apply sql_eqb_str in H1, H2. congruence.
    + unfold get_budgets. rewrite Hb. unfold budgets_of.
      apply filter_other_kept. intros x H1 H2.
      apply sql_eqb_str in H1, H2. congruence.
Qed.

Lemma after_reset_listings_witness :
  (reset_user_data (fun _ => false) sample_reset_db "u1").1.1 = true /\
  get_transactions (reset_user_data (fun _ => false) sample_reset_db "u1").1.2 "u1" = [] /\
  length (get_transactions (reset_user_data (fun _ => false) sample_reset_db "u1").1.2 "u2")
  = 1%nat.
Proof.
  assert (Hok : (reset_user_data (fun _ => false) sample_reset_db "u1").1.1 = true)
    by reflexivity.
  destruct (after_reset_listings (fun _ => false) sample_reset_db "u1" Hok)
    as (Htx & _ & _ & _ & _ & Hother).
  split; [exact Hok | split; [exact Htx |]].
  destruct (Hother "u2") as (H2 & _); [discriminate |].
  rewrite H2. reflexivity.
Defined.

Lemma sql_eqb_str_false (a : pyval) (s : string) :
  a <> PStr s -> sql_eqb a (PStr s) = false.
Proof.
  intros H. destruct (sql_eqb a (PStr s)) eqn:E; [| reflexivity].
  by apply sql_eqb_str in E.
Qed.

(** After the deletions of a reset the queries of a reset select
    nothing. *)
Lemma after_budgets_queries_empty (db : DB) (u : string) :
  vectors_of (after_budgets db u) u = [] /\
  analyses_of (after_budgets db u) u = [] /\
  transactions_of (after_budgets db u) u = [] /\
  goals_of (after_budgets db u) u = [] /\
  budgets_of (after_budgets db u) u = [].
Proof.
  destruct (after_budgets_rows db u) as (Hv & Ha & Ht & Hg & Hb).
  split_and!.
  - apply filter_none. intros v Hin Href.
    unfold refers_to_user in Href. apply existsb_exists in Href as (t & Hint & Hand).
    apply andb_true_iff in Hand as [_ Hu]. apply sql_eqb_str in Hu.
    apply list_elem_of_In, Ht in Hint as [_ Hne]. by apply Hne.
  - apply filter_none. intros a Hin Hu. apply sql_eqb_str in Hu.
    apply Ha in Hin as [_ Hne]. by apply Hne.
  - apply filter_none. intros t Hin Hu. apply sql_eqb_str in Hu.
    apply Ht in Hin as [_ Hne]. by apply Hne.
  - apply filter_none. intros g Hin Hu. apply sql_eqb_str in Hu.
    apply Hg in Hin as [_ Hne]. by apply Hne.
  - apply filter_none. intros b Hin Hu. apply sql_eqb_str in Hu.
    apply Hb in Hin as [_ Hne]. by apply Hne.
Qed.

Lemma nothing_to_delete (db : DB) (u : string) :
  vectors_of db u = [] -> analyses_of db u = [] -> transactions_of db u = [] ->
  goals_of db u = [] -> budgets_of db u = [] ->
  after_budgets db u = db /\ reset_log db u = [EBegin; ECommit].
Proof.
  intros Hv Ha Ht Hg Hb.
  assert (H1 : after_vectors db u = db) by (unfold after_vectors; by rewrite Hv).
  assert (H2 : after_analyses db u = db)
    by (unfold after_analyses; simpl; by rewrite H1, Ha).
  assert (H3 : after_transactions db u = db)
    by (unfold after_transactions; simpl; by rewrite H2, Ht).
  assert (H4 : after_goals db u = db) by (unfold after_goals; simpl; by rewrite H3, Hg).
  assert (H5 : after_budgets db u = db) by (unfold after_budgets; simpl; by rewrite H4, Hb).
  split; [exact H5 |]. unfold reset_log. by rewrite H1, H2, H3, H4, Hv, Ha, Ht, Hg, Hb.
Qed.

(** Resetting again after a reset that returned True changes nothing,
    whether the second run raises or not, and a second run in which no call
    raises returns True without deleting any row. *)
Theorem reset_user_data_twice (raises raises' : nat -> bool) (db : DB) (user_id : string)
    (Hok : (reset_user_data raises db user_id).1.1 = true) :
  let db' := (reset_user_data raises db user_id).1.2 in
  (reset_user_data raises' db' user_id).1.2 = db' /\
  ((forall i, raises' i = false) ->
   reset_user_data raises' db' user_id = (true, db', [EBegin; ECommit; EClose])).
Proof.
  destruct (reset_user_data_cases raises db user_id)
    as [(Heq & _ & _) | [(lg & Heq & _) _]]; rewrite Heq in *; cbn [fst snd] in *;
    [| discriminate].
  destruct (after_budgets_queries_empty db user_id) as (Hv & Ha & Ht & Hg & Hb).
  destruct (nothing_to_delete _ _ Hv Ha Ht Hg Hb) as [Hsame Hlog].
  destruct (reset_user_data_cases raises' (after_budgets db user_id) user_id)
    as [(Heq' & _ & _) | [(lg' & Heq' & _) (i & _ & Hi)]]; rewrite Heq'; cbn [fst snd].
  - rewrite Hsame, Hlog. split; [reflexivity | intros _; reflexivity].
  - split; [reflexivity |]. intros Hquiet. rewrite Hquiet in Hi. discriminate.
Qed.

Lemma reset_user_data_twice_witness :
  (reset_user_data (fun n => Nat.eqb n 40) sample_reset_db "u1").1.1 = true /\
  reset_user_data (fun _ => false)
    (reset_user_data (fun n => Nat.eqb n 40) sample_reset_db "u1").1.2 "u1"
  = (true, (reset_user_data (fun n => Nat.eqb n 40) sample_reset_db "u1").1.2,
     [EBegin; ECommit; EClose]).
Proof.
  assert (Hok : (reset_user_data (fun n => Nat.eqb n 40) sample_reset_db "u1").1.1 = true)
    by reflexivity.
  split; [exact Hok |].
  destruct (reset_user_data_twice (fun n => Nat.eqb n 40) (fun _ => false)
              sample_reset_db "u1" Hok) as [_ H].
  apply H. reflexivity.
Defined.

(** ** Budget status: edges *)

Lemma check_budgets_sublist (cs : list (pyval * Q)) (total : Q) (bs : list Budget) :
  forall ws, check_budgets cs total bs = Some ws -> sublist (map w_budget ws) bs.
Proof.
  induction bs as [|b bs IH]; intros ws H; simpl in H.
  - injection H as <-. constructor.
  - destruct (check_one_budget cs total b) as [ow|] eqn:Hone; [| discriminate].
    destruct (check_budgets cs total bs) as [ws'|]; [| discriminate].
    injection H as <-. specialize (IH ws' eq_refl). destruct ow as [w|].
    + apply check_one_budget_warning in Hone as (a & _ & Hb & _).
      simpl. rewrite Hb. by constructor.
    + by constructor.
Qed.

(** The warnings follow the user's budgets: at most one for a budget, in
    the order of the budgets.  A user without an expense in the month gets
    no warning at all. *)
Theorem budget_warnings_follow_budgets (db : DB) (user_id current_month : string)
    (ws : list Warning)
    (Hws : check_budget_status db user_id current_month = Some ws) :
  sublist (map w_budget ws) (get_budgets db user_id) /\
  (length ws <= length (get_budgets db user_id))%nat /\
  (month_expenses db user_id current_month = [] -> ws = []).
Proof.
  unfold check_budget_status in Hws.
  destruct (accumulate_spending _ _) as [[cs total]|] eqn:Hacc; [| discriminate].
  pose proof (check_budgets_sublist _ _ _ _ Hws) as Hsub.
  split; [exact Hsub | split].
  - apply sublist_length in Hsub. by rewrite length_map in Hsub.
  - intros Hnone. destruct ws as [|w ws]; [reflexivity |]. exfalso.
    assert (w ∈ w :: ws) as Hin by (apply elem_of_cons; by left).
    apply (check_budgets_elem _ _ _ _ Hws) in Hin as (b & _ & Hone).
    pose proof (budget_spent_spec db user_id current_month cs total Hacc b) as Hspent.
    apply check_one_budget_warning in Hone
      as (a & _ & _ & Hsp & _ & Hpct & H75 & _).
    rewrite Hpct, Hsp, Hspent in H75.
    unfold spent_in_month in H75. rewrite Hnone in H75. simpl in H75.
    change (py_sum []) with 0 in H75. apply Qle_bool_iff in H75.
    unfold percent_used in H75. destruct (Qltb 0 a).
    + assert (0 / a * 100 == 0) as Hz by (unfold Qdiv; ring).
      rewrite Hz in H75. apply Qle_bool_iff in H75. discriminate.
    + apply Qle_bool_iff in H75. discriminate.
Qed.

Lemma budget_warnings_follow_budgets_witness :
  exists ws,
    check_budget_status sample_budget_db "u1" "2024-03" = Some ws /\
    sublist (map w_budget ws) (get_budgets sample_budget_db "u1") /\
    length ws = 2%nat /\ length (get_budgets sample_budget_db "u1") = 3%nat.
Proof.
  destruct (check_budget_status sample_budget_db "u1" "2024-03") as [ws|] eqn:Hws;
    [| vm_compute in Hws; discriminate].
  destruct (budget_warnings_follow_budgets sample_budget_db "u1" "2024-03" ws Hws)
    as (Hsub & _).
  exists ws. split; [reflexivity | split; [exact Hsub |]].
  vm_compute in Hws. injection Hws as <-. split; reflexivity.
Defined.

(** A transaction that is created for another user, or is not an expense,
    or is not dated in the month, leaves the user's budget status as it
    was. *)
Theorem budget_status_ignores_other_transactions (db : DB) (user_id current_month : string)
    (owner : string) (transaction_data : pydict)
    (Hother : owner <> user_id \/
              dict_get transaction_data "type" <> PStr "expense" \/
              sql_like_prefix current_month (dict_get transaction_data "date") = false) :
  check_budget_status (create_transaction db owner transaction_data).2
                      user_id current_month
  = check_budget_status db user_id current_month.
Proof.
  unfold check_budget_status, month_expenses, user_budgets. simpl.
  rewrite filter_snoc, decide_False; [by rewrite app_nil_r |].
  simpl. intros H. apply andb_true_iff in H as [H Hdate].
  apply andb_true_iff in H as [Huser Htype].
  apply String.eqb_eq in Huser. apply sql_eqb_str in Htype.
  destruct Hother as [H | [H | H]]; [congruence | congruence |].
  rewrite H in Hdate. discriminate.
Qed.

Lemma budget_status_ignores_other_transactions_witness :
  ("u1" <> "u1" \/ dict_get sample_salary "type" <> PStr "expense" \/
   sql_like_prefix "2024-03" (dict_get sample_salary "date") = false) /\
  check_budget_status (create_transaction sample_budget_db "u1" sample_salary).2
                      "u1" "2024-03"
  = check_budget_status sample_budget_db "u1" "2024-03".
Proof.
  assert (H : "u1" <> "u1" \/ dict_get sample_salary "type" <> PStr "expense" \/
              sql_like_prefix "2024-03" (dict_get sample_salary "date") = false)
    by (right; left; discriminate).
  split; [exact H |].
  exact (budget_status_ignores_other_transactions sample_budget_db "u1" "2024-03"
           "u1" sample_salary H).
Defined.

(** ** Users *)

(** Registering and logging in: after [create_user] with an email no user
    had, [get_user_by_email] finds the new user, whose stored hash verifies
    the password; the lookups of the other emails answer as before, and
    [get_user_by_id] finds the user under the digest of the email when no
    user had that id. *)
Theorem login_after_create_user (md5_hex sha256_hex : string -> string) (db : DB)
    (email password name : string)
    (Hnew : get_user_by_email db email = None) :
  let user := (create_user md5_hex sha256_hex db email password name).1 in
  let db' := (create_user md5_hex sha256_hex db email password name).2 in
  get_user_by_email db' email = Some user /\
  verify_password sha256_hex (u_password_hash user) password = true /\
  (forall e, e <> email -> get_user_by_email db' e = get_user_by_email db e) /\
  (get_user_by_id db (md5_hex email) = None ->
   get_user_by_id db' (md5_hex email) = Some user).
Proof.
  simpl. unfold get_user_by_email, get_user_by_id in *. simpl.
  apply head_None in Hnew. split_and!.
  - rewrite filter_snoc, Hnew, decide_True by reflexivity. reflexivity.
  - unfold verify_password. apply String.eqb_refl.
  - intros e He. rewrite filter_snoc, decide_False by (simpl; congruence).
    by rewrite app_nil_r.
  - intros Hid. apply head_None in Hid.
    rewrite filter_snoc, Hid, decide_True by reflexivity. reflexivity.
Qed.

Lemma login_after_create_user_witness :
  get_user_by_email empty_db "ann@example.org" = None /\
  exists user,
    get_user_by_email
      (create_user (fun s => "id-" ++ s) (fun s => "h-" ++ s) empty_db
                   "ann@example.org" "secret" "Ann").2 "ann@example.org" = Some user /\
    u_name user = "Ann" /\
    verify_password (fun s => "h-" ++ s) (u_password_hash user) "secret" = true.
Proof.
  assert (Hnew : get_user_by_email empty_db "ann@example.org" = None) by reflexivity.
  split; [exact Hnew |].
  destruct (login_after_create_user (fun s => "id-" ++ s) (fun s => "h-" ++ s) empty_db
              "ann@example.org" "secret" "Ann" Hnew) as (Hfind & Hverify & _).
  eexists. split; [exact Hfind | split; [reflexivity | exact Hverify]].
Defined.

(** * Properties of the agent *)

(** ** Substrings *)

Lemma contains_eq (sub s : string) :
  contains sub s =
  String.prefix sub s ||
  match s with EmptyString => false | String _ s' => contains sub s' end.
Proof. by destruct s. Qed.

Lemma prefix_split (sub s : string) :
  String.prefix sub s = true -> exists rest, s = (sub ++ rest)%string.
Proof.
  revert s. induction sub as [|a sub IH]; intros s H.
  - by exists s.
  - destruct s as [|b s]; [discriminate |]. simpl in H.
    destruct (ascii_dec a b) as [-> |]; [| discriminate].
    destruct (IH s H) as [rest ->]. by exists rest.
Qed.

Lemma prefix_append (sub rest : string) : String.prefix sub (sub ++ rest) = true.
Proof.
  induction sub as [|a sub IH].
  - by destruct rest.
  - change (String.prefix (String a sub) (String a (sub ++ rest)) = true).
    simpl. by destruct (ascii_dec a a).
Qed.

Lemma string_app_assoc (a b c : string) : ((a ++ b) ++ c = a ++ (b ++ c))%string.
Proof.
  induction a as [|x a IH]; [reflexivity |].
  change (String x ((a ++ b) ++ c) = String x (a ++ (b ++ c)))%string.
  by rewrite IH.
Qed.

Lemma contains_append (sub a b : string) : contains sub (a ++ sub ++ b) = true.
Proof.
  induction a as [|x a IH].
  - change (contains sub (sub ++ b) = true).
    by rewrite contains_eq, prefix_append.
  - change (contains sub (String x (a ++ sub ++ b)) = true).
    rewrite contains_eq, IH. apply orb_true_r.
Qed.

Lemma contains_split (sub s : string) :
  contains sub s = true -> exists a b, s = (a ++ sub ++ b)%string.
Proof.
  induction s as [|x s IH]; rewrite contains_eq; intros H.
  - rewrite orb_false_r in H. apply prefix_split in H as [rest ->]. by exists "", rest.
  - apply orb_true_iff in H as [H | H].
    + apply prefix_split in H as [rest ->]. by exists "", rest.
    + destruct (IH H) as (a & b & ->). by exists (String x a), b.
Qed.

Lemma contains_longer (pre sub post s : string) :
  contains (pre ++ sub ++ post) s = true -> contains sub s = true.
Proof.
  intros H. apply contains_split in H as (a & b & ->).
  replace (a ++ (pre ++ sub ++ post) ++ b)%string
    with ((a ++ pre) ++ sub ++ (post ++ b))%string
    by (by rewrite !string_app_assoc).
  apply contains_append.
Qed.

(** The second test of the [except] branches never decides. *)
Lemma quota_error_contains (error_msg : string) :
  quota_error error_msg = contains "quota" (lower error_msg).
Proof.
  unfold quota_error.
  destruct (contains "insufficient_quota" (lower error_msg)) eqn:H;
    [| apply orb_false_r].
  apply (contains_longer "insufficient_" "quota" "") in H. by rewrite H.
Qed.

(** ** The agent's replies to an exception *)

(** When the hosted model raises, whatever the exception, [get_insights]
    and [answer_question] return a dictionary whose error code is
    API_QUOTA_EXCEEDED when the text of the exception, in lower case,
    contains quota, and AI_UNAVAILABLE otherwise; the text of the summary
    of [get_financial_summary] mentions the quota in the same case. *)
Theorem agent_error_replies {Insights Answer' : Type}
    (get_financial_insights : string -> string -> answered Insights)
    (answer_query : string -> string -> answered Answer')
    (ai_get_financial_summary : list txn_dict -> answered FinancialSummary)
    (user_id time_period query error_msg : string) (txn_dicts : list txn_dict)
    (Huser : user_id <> "")
    (Hinsights : get_financial_insights user_id time_period = Raised error_msg)
    (Hanswer : answer_query user_id query = Raised error_msg)
    (Hsummary : ai_get_financial_summary txn_dicts = Raised error_msg) :
  let code := if contains "quota" (lower error_msg)
              then "API_QUOTA_EXCEEDED" else "AI_UNAVAILABLE" in
  (exists rest, get_insights get_financial_insights (Some user_id) time_period
                = Fields (("error", code) :: rest)) /\
  (exists rest, answer_question answer_query (Some user_id) query
                = Fields (("error", code) :: rest)) /\
  contains "quota"
    (fs_summary_text
       (get_financial_summary ai_get_financial_summary (Some user_id) txn_dicts))
  = contains "quota" (lower error_msg).
Proof.
  intros code. subst code.
  destruct user_id as [|c user_id]; [congruence |].
  unfold get_insights, answer_question, get_financial_summary, fallback_summary.
  rewrite Hinsights, Hanswer, Hsummary, quota_error_contains.
  destruct (contains "quota" (lower error_msg)); simpl.
  - split_and!; [by eexists | by eexists | reflexivity].
  - split_and!; [by eexists | by eexists | reflexivity].
Qed.

Lemma agent_error_replies_witness :
  exists rest,
    get_insights (fun _ _ : string => @Raised unit quota_text) (Some "u1") "month"
    = Fields (("error", "API_QUOTA_EXCEEDED") :: rest).
Proof.
  assert (Huser : "u1" <> "") by discriminate.
  destruct (agent_error_replies
              (fun _ _ : string => @Raised unit quota_text)
              (fun _ _ : string => @Raised unit quota_text)
              (fun _ => Raised quota_text)
              "u1" "month" "How much did I spend?" quota_text sample_dicts
              Huser eq_refl eq_refl eq_refl) as (Hinsights & _).
  exact Hinsights.
Defined.

(** ** The agent's summary: the categories *)

Lemma py_sum_snoc (l : list Q) (x : Q) : py_sum (l ++ [x])%list = py_sum l + x.
Proof. unfold py_sum. by rewrite fold_left_app. Qed.

Lemma category_get_add (acc : list (string * Q)) (c : string) (amt : Q) (c' : string) :
  category_get (category_add acc c amt) c' =
  if String.eqb c' c
  then Some (match category_get acc c with Some a => a + amt | None => 0 + amt end)
  else category_get acc c'.
Proof.
  induction acc as [|[c0 a0] acc IH]; simpl.
  - rewrite (String.eqb_sym c c'). reflexivity.
  - destruct (String.eqb_spec c0 c) as [E | Hne]; simpl.
    + subst c0. destruct (String.eqb_spec c' c) as [E | Hne'].
      * subst c'. by rewrite String.eqb_refl.
      * destruct (String.eqb_spec c c'); [congruence | reflexivity].
    + rewrite IH. destruct (String.eqb_spec c' c) as [E | Hne'].
      * subst c'. destruct (String.eqb_spec c0 c); [congruence | reflexivity].
      * reflexivity.
Qed.

Lemma category_add_keys (acc : list (string * Q)) (c : string) (amt : Q) (c' : string) :
  c' ∈ map fst (category_add acc c amt) <-> c' = c \/ c' ∈ map fst acc.
Proof.
  induction acc as [|[c0 a0] acc IH]; simpl.
  - rewrite list_elem_of_singleton. split; [by left | intros [H | H]; [exact H |]].
    by apply elem_of_nil in H.
  - destruct (String.eqb_spec c0 c) as [-> | Hne]; simpl.
    + rewrite !elem_of_cons. tauto.
    + rewrite !elem_of_cons, IH. tauto.
Qed.

Lemma category_add_NoDup (acc : list (string * Q)) (c : string) (amt : Q) :
  NoDup (map fst acc) -> NoDup (map fst (category_add acc c amt)).
Proof.
  induction acc as [|[c0 a0] acc IH]; simpl; intros Hnd.
  - apply NoDup_singleton.
  - apply NoDup_cons in Hnd as [Hfresh Hnd].
    destruct (String.eqb_spec c0 c) as [-> | Hne]; simpl.
    + apply NoDup_cons. by split.
    + apply NoDup_cons. split; [| by apply IH].
      rewrite category_add_keys. intros [H | H]; [congruence | by apply Hfresh].
Qed.

Lemma category_get_elem (acc : list (string * Q)) (c : string) (a : Q) :
  NoDup (map fst acc) -> (c, a) ∈ acc <-> category_get acc c = Some a.
Proof.
  induction acc as [|[c0 a0] acc IH]; simpl; intros Hnd.
  - split; [intros H; by apply elem_of_nil in H | discriminate].
  - apply NoDup_cons in Hnd as [Hfresh Hnd]. rewrite elem_of_cons, (IH Hnd).
    destruct (String.eqb_spec c0 c) as [-> | Hne].
    + split.
      * intros [H | H]; [by inversion H |]. exfalso. apply Hfresh.
        apply (IH Hnd) in H. apply elem_of_map. by exists (c, a).
      * intros H. left. congruence.
    + split; [intros [H | H]; [inversion H; congruence | exact H] | by right].
Qed.

Lemma category_add_sum (acc : list (string * Q)) (c : string) (amt : Q) :
  py_sum (map snd (category_add acc c amt)) == py_sum (map snd acc) + amt.
Proof.
  induction acc as [|[c0 a0] acc IH]; simpl.
  - unfold py_sum. simpl. ring.
  - destruct (String.eqb c0 c); simpl.
    + rewrite !py_sum_cons. ring.
    + rewrite !py_sum_cons, IH. ring.
Qed.

Lemma expenses_snoc (rows : list txn_dict) (t : txn_dict) :
  match (rows ++ [t])%list with
  | [] => None
  | _ => Some (py_sum (map d_amount (rows ++ [t])%list))
  end = Some (py_sum (map d_amount rows) + d_amount t).
Proof.
  rewrite map_app. change (map d_amount [t]) with [d_amount t].
  rewrite py_sum_snoc. by destruct rows.
Qed.

(** What the loop over the expenses builds: one entry for each category
    with an expense, holding the sum of the amounts of its expenses. *)
Lemma category_expenses_spec (txn_dicts : list txn_dict) :
  NoDup (map fst (category_expenses txn_dicts)) /\
  (forall c,
     category_get (category_expenses txn_dicts) c =
     match expenses_of_category c txn_dicts with
     | [] => None
     | _ => Some (spent_on c txn_dicts)
     end) /\
  py_sum (map snd (category_expenses txn_dicts)) == total_of_type "expense" txn_dicts.
Proof.
  unfold category_expenses, spent_on, expenses_of_category, total_of_type.
  induction txn_dicts as [|t txns (Hnd & Hget & Hsum)] using rev_ind.
  - split_and!; [constructor | reflexivity | reflexivity].
  - rewrite fold_left_app. cbn [fold_left]. rewrite !filter_snoc.
    destruct (has_type "expense" t) eqn:Ht.
    + split_and!.
      * by apply category_add_NoDup.
      * intros c. rewrite category_get_add, !filter_snoc.
        destruct (String.eqb_spec c (d_category t)) as [-> | Hne].
        -- rewrite decide_True by done. rewrite Hget, expenses_snoc. clear Hsum Hget.
           by destruct (filter _ txns).
        -- rewrite decide_False by (intros [_ H]; congruence).
           rewrite app_nil_r. apply Hget.
      * rewrite category_add_sum, Hsum, decide_True by done.
        rewrite map_app. change (map d_amount [t]) with [d_amount t].
        by rewrite py_sum_snoc.
    + split_and!.
      * exact Hnd.
      * intros c. rewrite !filter_snoc.
        rewrite decide_False by (intros [H _]; congruence).
        rewrite app_nil_r. apply Hget.
      * rewrite decide_False by congruence. by rewrite app_nil_r.
Qed.

(** ** The agent's summary: the order *)

Lemma insert_desc_perm {A} (key : A -> Q) (x : A) (l : list A) :
  insert_desc key x l ≡ₚ x :: l.
Proof.
  induction l as [|y l IH]; simpl; [reflexivity |].
  destruct (Qle_bool (key y) (key x)); [reflexivity |].
  rewrite IH. apply Permutation_swap.
Qed.

Lemma sorted_desc_perm {A} (key : A -> Q) (l : list A) : sorted_desc key l ≡ₚ l.
Proof.
  induction l as [|x l IH]; simpl; [reflexivity |].
  by rewrite insert_desc_perm, IH.
Qed.

Lemma Qle_bool_false_le (a b : Q) : Qle_bool a b = false -> b <= a.
Proof.
  intros H. apply Qlt_le_weak, Qnot_le_lt. intros Hle.
  apply Qle_bool_iff in Hle. congruence.
Qed.

Lemma insert_desc_sorted {A} (key : A -> Q) (x : A) (l : list A) :
  Sorted (fun a b => key b <= key a) l ->
  Sorted (fun a b => key b <= key a) (insert_desc key x l).
Proof.
  induction l as [|y l IH]; intros Hs; simpl.
  - repeat constructor.
  - destruct (Qle_bool (key y) (key x)) eqn:E.
    + constructor; [exact Hs |]. constructor. by apply Qle_bool_iff.
    + apply Sorted_inv in Hs as [Hs Hhd]. constructor; [by apply IH |].
      destruct l as [|z l]; simpl.
      * constructor. by apply Qle_bool_false_le.
      * destruct (Qle_bool (key z) (key x)).
        -- constructor. by apply Qle_bool_false_le.
        -- constructor. by apply HdRel_inv in Hhd.
Qed.

(** [sorted(..., reverse=True)] returns its argument in descending order
    of the keys. *)
Lemma sorted_desc_sorted {A} (key : A -> Q) (l : list A) :
  StronglySorted (fun a b => key b <= key a) (sorted_desc key l).
Proof.
  apply Sorted.Sorted_StronglySorted.
  - intros a b c Hab Hbc. by apply Qle_trans with (key b).
  - induction l as [|x l IH]; simpl; [constructor | by apply insert_desc_sorted].
Qed.

(** When the hosted model raises, the summary of [get_financial_summary]
    is computed from the transactions, the type read without regard to
    letter case: the net cash flow is income less expenses; the top
    categories are at most five, in descending order of their amounts and
    each listed once; a listed category has an expense and is listed with
    the sum of the amounts of its expenses; a category with an expense that
    is not listed spent no more than any listed one, and then five are
    listed. *)
Theorem financial_summary_fallback
    (ai_get_financial_summary : list txn_dict -> answered FinancialSummary)
    (user_id error_msg : string) (txn_dicts : list txn_dict)
    (Huser : user_id <> "")
    (Hraise : ai_get_financial_summary txn_dicts = Raised error_msg) :
  let s := get_financial_summary ai_get_financial_summary (Some user_id) txn_dicts in
  let top := fs_top_expense_categories s in
  fs_net_cash_flow s = fs_total_income s - fs_total_expenses s /\
  fs_total_income s = total_of_type "income" txn_dicts /\
  fs_total_expenses s = total_of_type "expense" txn_dicts /\
  (length top <= 5)%nat /\
  StronglySorted by_amount_desc top /\
  NoDup (map fst top) /\
  (forall c a, (c, a) ∈ top ->
     expenses_of_category c txn_dicts <> [] /\ a = spent_on c txn_dicts) /\
  (forall c, expenses_of_category c txn_dicts <> [] ->
     c ∈ map fst top \/
     (length top = 5%nat /\
      forall x, x ∈ top -> spent_on c txn_dicts <= snd x)).
Proof.
  destruct user_id as [|ch user_id]; [congruence |].
  unfold get_financial_summary. rewrite Hraise. unfold fallback_summary.
  cbn [fs_net_cash_flow fs_total_income fs_total_expenses fs_top_expense_categories].
  destruct (category_expenses_spec txn_dicts) as (Hnd & Hget & Hsum).
  set (items := category_expenses txn_dicts) in *.
  pose proof (sorted_desc_perm snd items) as Hperm.
  pose proof (sorted_desc_sorted snd items) as Hsorted.
  set (sorted := sorted_desc snd items) in *.
  assert (Hin : forall c a, (c, a) ∈ sorted <-> category_get items c = Some a).
  { intros c a. rewrite Hperm. by apply category_get_elem. }
  rewrite <- (take_drop 5 sorted) in Hsorted.
  split_and!; try reflexivity.
  - rewrite length_take. apply Nat.le_min_l.
  - by apply StronglySorted_app_1_l in Hsorted.
  - rewrite <- firstn_map.
    apply (sublist_NoDup (take 5 (map fst sorted)) (map fst sorted));
      [| apply sublist_take].
    assert (map fst sorted ≡ₚ map fst items) as Hkeys by (by apply Permutation_map).
    by rewrite Hkeys.
  - intros c a Htop. apply subseteq_take, Hin in Htop. rewrite Hget in Htop.
    destruct (expenses_of_category c txn_dicts); [discriminate |].
    split; [discriminate | congruence].
  - intros c Hc.
    assert ((c, spent_on c txn_dicts) ∈ sorted) as Hmem.
    { apply Hin. rewrite Hget. by destruct (expenses_of_category c txn_dicts). }
    rewrite <- (take_drop 5 sorted) in Hmem. apply elem_of_app in Hmem as [Hmem | Hmem].
    + left. apply elem_of_map. by exists (c, spent_on c txn_dicts).
    + right. split.
      * apply length_take_le.
        assert (length (drop 5 sorted) <> 0)%nat as Hlen
          by (destruct (drop 5 sorted); [by apply elem_of_nil in Hmem | discriminate]).
        rewrite length_drop in Hlen. lia.
      * intros x Hx.
        exact (StronglySorted_app_1_elem_of _ _ _ _ _ Hsorted Hx Hmem).
Qed.

Lemma financial_summary_fallback_witness :
  let s := get_financial_summary (fun _ => Raised quota_text) (Some "u1") sample_dicts in
  fs_top_expense_categories s = [("Housing", 0 + 900); ("Food", 0 + 4 + 2)] /\
  fs_net_cash_flow s = fs_total_income s - fs_total_expenses s /\
  StronglySorted by_amount_desc (fs_top_expense_categories s).
Proof.
  assert (Huser : "u1" <> "") by discriminate.
  destruct (financial_summary_fallback (fun _ => Raised quota_text) "u1" quota_text
              sample_dicts Huser eq_refl)
    as (Hnet & _ & _ & _ & Hsorted & _).
  split; [reflexivity | split; [exact Hnet | exact Hsorted]].
Defined.
